(** * TextWiz AI: the request-orchestration agent of [Reply_Specialist_AI.py]

    A shallow embedding of [GeminiAgentSystem] (cache store, rate tracker,
    prompt optimizer, backoff policy, retry loop with Ollama fallback), of
    the two helpers it calls, of [check_ollama] and of the parts of the script
    that use the agent (the sidebar and the handler of "Generate Replies"),
    followed by the properties of the specification that concern them and by
    further properties of the code.

    Conventions of the embedding:
    - a Python [str] is a [string]: the sequence of bytes of its UTF-8
      encoding, so that [.encode()] is the identity on the representation;
      a slice counts characters, not bytes; [str.lower] is modelled on the
      ASCII letters, and the properties that depend on the lowering of an
      error message are stated for ASCII messages;
    - a [datetime] is a [Z], the number of microseconds since the epoch; a
      [timedelta] is the [Z] difference of two of them;
    - [st.session_state] is a record passed explicitly; the wall clock, the
      sleeps and the calls to the two providers are threaded through a small
      state-and-exception monad. *)

From Stdlib Require Import ZArith String Ascii List Bool Lia DecimalString Sorted.
From stdpp Require Import base option gmap strings list.

Local Open Scope Z_scope.
Local Open Scope string_scope.

(** ** Python built-ins used by the program *)
Module Py.

(** [str.lower()] on the ASCII range: 'A'..'Z' are shifted by 32. The two
    functions agree on the strings that [isascii] accepts; the properties
    that depend on how an error message is lowered take such a message. *)
Definition lower_char (c : ascii) : ascii :=
  let n := nat_of_ascii c in
  if ((65 <=? n) && (n <=? 90))%nat then ascii_of_nat (n + 32) else c.

Fixpoint lower (s : string) : string :=
  match s with
  | EmptyString => EmptyString
  | String c s' => String (lower_char c) (lower s')
  end.

(** [s.startswith(p)] *)
Fixpoint startswith (p s : string) : bool :=
  match p, s with
  | EmptyString, _ => true
  | String _ _, EmptyString => false
  | String a p', String b s' => Ascii.eqb a b && startswith p' s'
  end.

(** [needle in hay] for two strings *)
Fixpoint contains (needle hay : string) : bool :=
  startswith needle hay ||
  match hay with
  | EmptyString => false
  | String _ hay' => contains needle hay'
  end.

(** [s.replace(old, new)] for a non-empty [old]: the occurrences of [old]
    are found from the left, without overlap. [skip] counts the characters of
    a matched occurrence that are still to be passed over. *)
Fixpoint replace_from (old new : string) (skip : nat) (s : string) : string :=
  match s with
  | EmptyString => EmptyString
  | String c s' =>
      match skip with
      | S k => replace_from old new k s'
      | O =>
          if startswith old s
          then new ++ replace_from old new (String.length old - 1) s'
          else String c (replace_from old new 0 s')
      end
  end.

(** With an empty [old], Python inserts [new] before every character and at
    the end. *)
Fixpoint intersperse (new s : string) : string :=
  match s with
  | EmptyString => new
  | String c s' => new ++ String c (intersperse new s')
  end.

Definition replace (s old new : string) : string :=
  match old with
  | EmptyString => intersperse new s
  | String _ _ => replace_from old new 0 s
  end.

(** [str(n)] of an [int], as an f-string formats it. *)
Definition str_of_int (n : Z) : string := NilZero.string_of_int (Z.to_int n).

(** Truth value of a [str] and of an optional object ([None] is false). *)
Definition truthy (s : string) : bool :=
  match s with EmptyString => false | String _ _ => true end.

Definition truthy_opt (o : option string) : bool :=
  match o with None => false | Some s => truthy s end.

(** [s.isascii()]: every byte is below 128. *)
Fixpoint isascii (s : string) : bool :=
  match s with
  | EmptyString => true
  | String c s' => (nat_of_ascii c <? 128)%nat && isascii s'
  end.

(** A continuation byte of UTF-8 (10xxxxxx): a byte of a character that is
    not its first. *)
Definition continuation (c : ascii) : bool :=
  let n := nat_of_ascii c in ((128 <=? n) && (n <? 192))%nat.

(** [s[:n]] for [n >= 0]: the first [n] characters of [s], each with all its
    bytes. *)
Fixpoint slice_to (n : nat) (s : string) : string :=
  match s with
  | EmptyString => EmptyString
  | String c s' =>
      if continuation c then String c (slice_to n s')
      else
        match n with
        | O => EmptyString
        | S k => String c (slice_to k s')
        end
  end.

(** [timedelta(...)] constants, in microseconds. *)
Definition usec_per_second : Z := 1000000.
Definition timedelta_minutes (m : Z) : Z := m * 60 * usec_per_second.
Definition timedelta_hours (h : Z) : Z := h * 3600 * usec_per_second.

(** [td.seconds]: the seconds field of the normalised timedelta
    (days, 0 <= seconds < 86400, 0 <= microseconds < 10^6); the days field
    takes the sign. *)
Definition timedelta_seconds (td : Z) : Z :=
  (td mod (86400 * usec_per_second)) / usec_per_second.

(** [range(n)] *)
Definition range (n : Z) : list Z := map Z.of_nat (seq 0 (Z.to_nat n)).

End Py.

(** ** [hashlib.md5(data).hexdigest()] (RFC 1321), on 32-bit words held in [Z] *)
Module MD5.

Definition mask32 : Z := 0xFFFFFFFF.
Definition add32 (x y : Z) : Z := Z.land (x + y) mask32.
Definition not32 (x : Z) : Z := Z.lxor x mask32.
Definition rotl32 (x : Z) (c : Z) : Z :=
  Z.land (Z.lor (Z.shiftl x c) (Z.shiftr x (32 - c))) mask32.

Definition shifts : list Z :=
  [7; 12; 17; 22; 7; 12; 17; 22; 7; 12; 17; 22; 7; 12; 17; 22;
   5; 9; 14; 20; 5; 9; 14; 20; 5; 9; 14; 20; 5; 9; 14; 20;
   4; 11; 16; 23; 4; 11; 16; 23; 4; 11; 16; 23; 4; 11; 16; 23;
   6; 10; 15; 21; 6; 10; 15; 21; 6; 10; 15; 21; 6; 10; 15; 21].

Definition sines : list Z :=
  [0xd76aa478; 0xe8c7b756; 0x242070db; 0xc1bdceee;
   0xf57c0faf; 0x4787c62a; 0xa8304613; 0xfd469501;
   0x698098d8; 0x8b44f7af; 0xffff5bb1; 0x895cd7be;
   0x6b901122; 0xfd987193; 0xa679438e; 0x49b40821;
   0xf61e2562; 0xc040b340; 0x265e5a51; 0xe9b6c7aa;
   0xd62f105d; 0x02441453; 0xd8a1e681; 0xe7d3fbc8;
   0x21e1cde6; 0xc33707d6; 0xf4d50d87; 0x455a14ed;
   0xa9e3e905; 0xfcefa3f8; 0x676f02d9; 0x8d2a4c8a;
   0xfffa3942; 0x8771f681; 0x6d9d6122; 0xfde5380c;
   0xa4beea44; 0x4bdecfa9; 0xf6bb4b60; 0xbebfbc70;
   0x289b7ec6; 0xeaa127fa; 0xd4ef3085; 0x04881d05;
   0xd9d4d039; 0xe6db99e5; 0x1fa27cf8; 0xc4ac5665;
   0xf4292244; 0x432aff97; 0xab9423a7; 0xfc93a039;
   0x655b59c3; 0x8f0ccc92; 0xffeff47d; 0x85845dd1;
   0x6fa87e4f; 0xfe2ce6e0; 0xa3014314; 0x4e0811a1;
   0xf7537e82; 0xbd3af235; 0x2ad7d2bb; 0xeb86d391].

Definition bytes_of_string (s : string) : list Z :=
  map (fun c => Z.of_nat (nat_of_ascii c)) (list_ascii_of_string s).

(** [n] as [k] little-endian bytes *)
Fixpoint le_bytes (k : nat) (n : Z) : list Z :=
  match k with
  | O => []
  | S k' => Z.land n 0xFF :: le_bytes k' (Z.shiftr n 8)
  end.

Fixpoint le_word (bs : list Z) : Z :=
  match bs with
  | [] => 0
  | b :: bs' => b + 256 * le_word bs'
  end.

(** Padding: a 1 bit, zeros up to 56 modulo 64 bytes, the bit length on 8 bytes. *)
Definition pad (msg : list Z) : list Z :=
  let len := Z.of_nat (List.length msg) in
  let zeros := Z.to_nat ((55 - len) mod 64) in
  msg ++ 0x80 :: repeat 0 zeros ++ le_bytes 8 (Z.land (8 * len) 0xFFFFFFFFFFFFFFFF).

Fixpoint chunks (fuel : nat) (size : nat) (l : list Z) : list (list Z) :=
  match fuel, l with
  | O, _ | _, [] => []
  | S fuel', _ => take size l :: chunks fuel' size (drop size l)
  end.

Definition words_of_block (block : list Z) : list Z :=
  map le_word (chunks 16 4 block).

Record digest_state := { A : Z; B : Z; C : Z; D : Z }.

Definition initial : digest_state :=
  {| A := 0x67452301; B := 0xefcdab89; C := 0x98badcfe; D := 0x10325476 |}.

Definition round (M : list Z) (st : digest_state) (i : nat) : digest_state :=
  let '(Build_digest_state a b c d) := st in
  let iz := Z.of_nat i in
  let '(f, g) :=
    if (i <? 16)%nat then (Z.lor (Z.land b c) (Z.land (not32 b) d), iz)
    else if (i <? 32)%nat then (Z.lor (Z.land d b) (Z.land (not32 d) c), (5 * iz + 1) mod 16)
    else if (i <? 48)%nat then (Z.lxor (Z.lxor b c) d, (3 * iz + 5) mod 16)
    else (Z.lxor c (Z.lor b (not32 d)), (7 * iz) mod 16) in
  let f' := add32 (add32 (add32 f a) (nth i sines 0)) (nth (Z.to_nat g) M 0) in
  {| A := d; B := add32 b (rotl32 f' (nth i shifts 0)); C := b; D := c |}.

Definition process_block (st : digest_state) (block : list Z) : digest_state :=
  let M := words_of_block block in
  let st' := fold_left (round M) (seq 0 64) st in
  {| A := add32 (A st) (A st'); B := add32 (B st) (B st');
     C := add32 (C st) (C st'); D := add32 (D st) (D st') |}.

Definition digest (msg : list Z) : list Z :=
  let padded := pad msg in
  let st := fold_left process_block (chunks (List.length padded) 64 padded) initial in
  le_bytes 4 (A st) ++ le_bytes 4 (B st) ++ le_bytes 4 (C st) ++ le_bytes 4 (D st).

Definition hex_digit (n : Z) : ascii :=
  if (n <? 10)%Z then ascii_of_nat (Z.to_nat (48 + n)) else ascii_of_nat (Z.to_nat (87 + n)).

Fixpoint hex (bs : list Z) : string :=
  match bs with
  | [] => EmptyString
  | b :: bs' => String (hex_digit (b / 16)) (String (hex_digit (b mod 16)) (hex bs'))
  end.

Definition hexdigest (data : string) : string := hex (digest (bytes_of_string data)).

End MD5.

(** ** Data model *)

(** One value of the [request_cache] dict. *)
Record CachedData := { response : string; timestamp : Z }.

(** The part of [st.session_state] the agent reads and writes. *)
Record SessionState := {
  request_cache : gmap string CachedData;
  request_history : list Z;
  retry_count : Z;
  api_key : string }.

Record GeminiAgentSystem := {
  primary_model : string;
  max_retries : Z;
  base_delay : Z;
  use_ollama_fallback : bool;
  ollama_model : option string }.

(** [GeminiAgentSystem.__init__] *)
Definition init : GeminiAgentSystem :=
  {| primary_model := "gemini-2.0-flash-exp";
     max_retries := 3;
     base_delay := 3;
     use_ollama_fallback := false;
     ollama_model := None |}.

(** The session state as the script initialises it. *)
Definition fresh_session (key : string) : SessionState :=
  {| request_cache := ∅; request_history := []; retry_count := 0; api_key := key |}.

(** ** The methods that do not call a provider

    [now] is the value [datetime.now()] returns inside the method. *)

(** The f-string hashed by [get_cache_key]. *)
Definition cache_key_content (prompt mood : string) (length : Z) : string :=
  prompt ++ "_" ++ mood ++ "_" ++ Py.str_of_int length.

Definition get_cache_key (prompt mood : string) (length : Z) : string :=
  MD5.hexdigest (cache_key_content prompt mood length).

Definition check_cache (now : Z) (st : SessionState) (cache_key : string)
  : option string :=
  match request_cache st !! cache_key with
  | Some cached_data =>
      if bool_decide (now - timestamp cached_data < Py.timedelta_hours 1)
      then Some (response cached_data)
      else None
  | None => None
  end.

Definition save_to_cache (now : Z) (st : SessionState) (cache_key response : string)
  : SessionState :=
  {| request_cache :=
       <[cache_key := {| response := response; timestamp := now |}]> (request_cache st);
     request_history := request_history st;
     retry_count := retry_count st;
     api_key := api_key st |}.

(** The list comprehension of [rate_limit_check]. *)
Definition last_minute (now : Z) (history : list Z) : list Z :=
  filter (fun req_time => now - req_time < Py.timedelta_minutes 1) history.

Definition rate_limit_check (now : Z) (st : SessionState)
  : SessionState * (bool * Z) :=
  let history := last_minute now (request_history st) in
  let st' := {| request_cache := request_cache st;
                request_history := history;
                retry_count := retry_count st;
                api_key := api_key st |} in
  if bool_decide (50 <= Z.of_nat (List.length history)) then
    match history with
    | first :: _ => (st', (false, 60 - Py.timedelta_seconds (now - first)))
    | [] => (st', (true, 0)) (* not reached: 50 entries or more *)
    end
  else (st', (true, 0)).

Definition log_request (now : Z) (st : SessionState) : SessionState :=
  {| request_cache := request_cache st;
     request_history := request_history st ++ [now];
     retry_count := retry_count st;
     api_key := api_key st |}.

Definition verbose_instruction : string :=
  "Add a brief explanation (1 line) after each suggestion about why it works".

Definition brief_instruction : string := "Add very brief reason".

Definition optimize_prompt (prompt : string) (num_suggestions : Z) : string :=
  if bool_decide (num_suggestions > 3)
  then Py.replace prompt verbose_instruction brief_instruction
  else prompt.

Definition fallback_to_next_model (self : GeminiAgentSystem)
  : GeminiAgentSystem * string :=
  ({| primary_model := primary_model self;
      max_retries := max_retries self;
      base_delay := base_delay self;
      use_ollama_fallback := true;
      ollama_model := ollama_model self |}, "Ollama").

(** [attempt] comes from [range(max_retries)], so it is not negative. *)
Definition exponential_backoff (self : GeminiAgentSystem) (attempt : Z) : Z :=
  Z.min (base_delay self * 2 ^ attempt) 60.

(** ** The world around the agent *)

(** The uploaded image: an opaque payload; as an object it is always true. *)
Record Image := { image_data : string }.

(** The JSON body [generate_with_ollama] posts. *)
Record OllamaPayload := {
  payload_model : string;
  payload_prompt : string;
  payload_stream : bool;
  payload_images : option (list string) }.

(** What the program does to the outside, in order. *)
Inductive Event :=
| st_info (msg : string)
| st_error (msg : string)
| st_success (msg : string)
| time_sleep (seconds : Z)
| gemini_generate_content (model key prompt : string) (image : option Image)
| pil_save_png (image : Image)
| requests_post (url : string) (payload : OllamaPayload) (timeout : Z).

(** The result of a computation: a value or a raised exception, of which the
    program only ever reads the message [str(e)]. *)
Inductive outcome (A : Type) :=
| Ok (a : A)
| Raise (msg : string).
Arguments Ok {A} a.
Arguments Raise {A} msg.

(** The answer of the primary provider to one attempt: the text of the
    response, or the exception raised anywhere between [genai.configure] and
    [response.text]; [gemini_elapsed] is the time the call took, in
    microseconds. *)
Record GeminiReply := { gemini_result : outcome string; gemini_elapsed : N }.

(** The answer of the local server to [requests.post]. *)
Inductive HttpResult :=
| http_json_response (text : string)
| http_connection_error
| http_other_error (msg : string).

Record HttpReply := { http_result : HttpResult; http_elapsed : N }.

(** The behaviour of the collaborators during one request. The primary
    provider is asked once per attempt and may answer each attempt
    differently. *)
Record Providers := {
  gemini : Z -> string -> string -> string -> option Image -> GeminiReply;
  pil_png_base64 : Image -> outcome string;
  ollama_server : OllamaPayload -> HttpReply }.

Record World := {
  session : SessionState;
  clock : Z;
  events : list Event }.

(** ** A state and exception monad over the world *)
Definition M (A : Type) : Type := World -> outcome A * World.

Definition ret {A} (a : A) : M A := fun w => (Ok a, w).

Definition raise {A} (msg : string) : M A := fun w => (Raise msg, w).

Definition bind {A B} (m : M A) (f : A -> M B) : M B :=
  fun w =>
    match m w with
    | (Ok a, w') => f a w'
    | (Raise msg, w') => (Raise msg, w')
    end.

Notation "x <- m ; k" := (bind m (fun x => k))
  (at level 20, m at level 100, k at level 200, only parsing).
Notation "' pat <- m ; k" := (bind m (fun x => match x with pat => k end))
  (at level 20, pat pattern, m at level 100, k at level 200, only parsing).
Notation "m ;;; k" := (bind m (fun _ => k))
  (at level 100, k at level 200, only parsing, right associativity).

(** [try: body except Exception as e: handler(str(e))] *)
Definition try_except {A} (body : M A) (handler : string -> M A) : M A :=
  fun w =>
    match body w with
    | (Ok a, w') => (Ok a, w')
    | (Raise msg, w') => handler msg w'
    end.

Definition emit (e : Event) : M unit :=
  fun w => (Ok tt, {| session := session w; clock := clock w; events := events w ++ [e] |}).

Definition advance (usec : Z) : M unit :=
  fun w => (Ok tt, {| session := session w; clock := clock w + usec; events := events w |}).

(** A method that reads the session state at the current time. *)
Definition reading {A} (f : Z -> SessionState -> A) : M A :=
  fun w => (Ok (f (clock w) (session w)), w).

(** A method that changes the session state at the current time. *)
Definition changing {A} (f : Z -> SessionState -> SessionState * A) : M A :=
  fun w =>
    let '(st, a) := f (clock w) (session w) in
    (Ok a, {| session := st; clock := clock w; events := events w |}).

(** [time.sleep(seconds)]: a negative length is a [ValueError]. *)
Definition sleep (seconds : Z) : M unit :=
  if bool_decide (seconds < 0) then raise "sleep length must be non-negative"
  else (emit (time_sleep seconds) ;;; advance (seconds * Py.usec_per_second)).

(** ** The two helpers *)
Section Orchestrator.

Variable env : Providers.

(** [encode_image]: the PNG bytes of the image in base64, computed by PIL. *)
Definition encode_image (image : Image) : M string :=
  emit (pil_save_png image) ;;;
  match pil_png_base64 env image with
  | Ok b64 => ret b64
  | Raise msg => raise msg
  end.

Definition ollama_url : string := "http://localhost:11434/api/generate".

(** The [payload] dict: the [images] key is set for a non-empty encoding. *)
Definition ollama_payload (model prompt : string) (image_base64 : option string)
  : OllamaPayload :=
  {| payload_model := model;
     payload_prompt := prompt;
     payload_stream := false;
     payload_images :=
       if Py.truthy_opt image_base64
       then Some [default EmptyString image_base64] else None |}.

Definition generate_with_ollama (model prompt : string) (image_base64 : option string)
  : M string :=
  let payload := ollama_payload model prompt image_base64 in
  emit (requests_post ollama_url payload 120) ;;;
  advance (Z.of_N (http_elapsed (ollama_server env payload))) ;;;
  match http_result (ollama_server env payload) with
  | http_json_response text => ret text
  | http_connection_error =>
      raise "Cannot connect to Ollama. Make sure Ollama is running (ollama serve)"
  | http_other_error msg => raise ("Ollama error: " ++ msg)
  end.

(** ** [generate_with_retry] *)

(** The provider call of one attempt: everything the [try] block does before
    it tests [response.text]. *)
Definition gemini_call (self : GeminiAgentSystem) (attempt : Z)
    (optimized_prompt : string) (image : option Image) : M string :=
  key <- reading (fun _ st => api_key st) ;
  emit (gemini_generate_content (primary_model self) key optimized_prompt image) ;;;
  let reply := gemini env attempt (primary_model self) key optimized_prompt image in
  advance (Z.of_N (gemini_elapsed reply)) ;;;
  match gemini_result reply with
  | Ok text => ret text
  | Raise msg => raise msg
  end.

(** How one iteration of the [for] loop ends. *)
Inductive LoopSignal :=
| Continue (last_error : string)
| Break (last_error : string)
| Return (result : string * string).

(** The [except] clause of the retry loop. *)
Definition on_error (self : GeminiAgentSystem) (attempt : Z) (error_msg : string)
  : M LoopSignal :=
  if bool_decide (attempt < max_retries self - 1) then
    if Py.contains "429" error_msg || Py.contains "quota" (Py.lower error_msg)
       || Py.contains "resource_exhausted" (Py.lower error_msg) then
      sleep (exponential_backoff self attempt) ;;; ret (Continue error_msg)
    else if Py.contains "rate" (Py.lower error_msg)
            || Py.contains "limit" (Py.lower error_msg) then
      sleep (exponential_backoff self attempt) ;;; ret (Continue error_msg)
    else
      sleep (exponential_backoff self attempt) ;;; ret (Continue error_msg)
  else
    if Py.contains "429" error_msg || Py.contains "quota" (Py.lower error_msg) then
      if Py.truthy_opt (ollama_model self) then
        emit (st_info "🔄 Switching to Ollama fallback...") ;;; ret (Break error_msg)
      else ret (Continue error_msg)
    else if Py.contains "blocked" (Py.lower error_msg)
            || Py.contains "safety" (Py.lower error_msg) then
      emit (st_error "🛡️ Content was blocked by safety filters") ;;;
      if Py.truthy_opt (ollama_model self) then
        emit (st_info "🔄 Trying with Ollama...") ;;; ret (Break error_msg)
      else raise "Content blocked by safety filters"
    else if Py.contains "api" (Py.lower error_msg)
            && Py.contains "key" (Py.lower error_msg) then
      raise "Invalid API key. Please check your Gemini API key."
    else ret (Continue error_msg).

(** The body of the retry loop. *)
Definition attempt_once (self : GeminiAgentSystem) (cache_key optimized_prompt : string)
    (image : option Image) (attempt : Z) : M LoopSignal :=
  try_except
    (emit (st_info "🤖 Generating with Gemini 2.0 Flash...") ;;;
     text <- gemini_call self attempt optimized_prompt image ;
     if negb (Py.truthy text) then raise "Response was blocked or empty"
     else
       changing (fun now st => (log_request now st, tt)) ;;;
       changing (fun now st => (save_to_cache now st cache_key text, tt)) ;;;
       emit (st_success "✅ Success!") ;;;
       ret (Return (text, primary_model self)))
    (on_error self attempt).

(** How the [for] loop ends: by a [return], or by running out of attempts or a
    [break], with the value of [last_error] at that point. *)
Inductive LoopEnd :=
| Returned (result : string * string)
| Left (last_error : option string).

Fixpoint retry_loop (self : GeminiAgentSystem) (cache_key optimized_prompt : string)
    (image : option Image) (attempts : list Z) (last_error : option string)
  : M LoopEnd :=
  match attempts with
  | [] => ret (Left last_error)
  | attempt :: rest =>
      signal <- attempt_once self cache_key optimized_prompt image attempt ;
      match signal with
      | Return result => ret (Returned result)
      | Break e => ret (Left (Some e))
      | Continue e => retry_loop self cache_key optimized_prompt image rest (Some e)
      end
  end.

Definition ollama_note : string :=
  String (ascii_of_nat 10) (String (ascii_of_nat 10) "*Generated using Ollama (local)*").

(** Step 5; [None] when the function goes on to the final error. *)
Definition try_ollama (self : GeminiAgentSystem) (cache_key optimized_prompt : string)
    (image : option Image) : M (option (string * string)) :=
  match ollama_model self with
  | Some model =>
      if Py.truthy model then
        try_except
          (emit (st_info ("🦙 Using Ollama (" ++ model ++ ")...")) ;;;
           image_base64 <-
             match image with
             | Some img => b64 <- encode_image img ; ret (Some b64)
             | None => ret None
             end ;
           result <- generate_with_ollama model optimized_prompt image_base64 ;
           if Py.truthy result then
             let result_with_note := result ++ ollama_note in
             changing (fun now st => (save_to_cache now st cache_key result_with_note, tt)) ;;;
             emit (st_success "✅ Success with Ollama!") ;;;
             ret (Some (result_with_note, "Ollama (" ++ model ++ ")"))
           else ret None)
          (fun e => emit (st_error ("❌ Fallback failed: " ++ e)) ;;; ret None)
      else ret None
  | None => ret None
  end.

Definition nl : string := String (ascii_of_nat 10) EmptyString.

Definition error_details (last_error : option string) : string :=
  nl ++ "**Unable to generate replies.**" ++ nl ++ nl
  ++ "**Last error:** "
  ++ (if Py.truthy_opt last_error
      then Py.slice_to 200 (default EmptyString last_error)
      else "Unknown error")
  ++ nl ++ nl ++ "**Suggestions:**" ++ nl
  ++ "1. Wait a moment and try again" ++ nl
  ++ "2. Check your API key at: https://aistudio.google.com/apikey" ++ nl
  ++ "3. Reduce the number of suggestions" ++ nl
  ++ "4. Install Ollama for offline mode: https://ollama.com" ++ nl.

(** Steps 5 and 6: what follows the [for] loop. *)
Definition after_loop (self : GeminiAgentSystem) (cache_key optimized_prompt : string)
    (image : option Image) (loop_end : LoopEnd) : M (string * string) :=
  match loop_end with
  | Returned result => ret result
  | Left last_error =>
      fallback <- try_ollama self cache_key optimized_prompt image ;
      match fallback with
      | Some result => ret result
      | None => raise (error_details last_error)
      end
  end.

(** The function after the cache lookup of step 1 has missed. *)
Definition generate_uncached (self : GeminiAgentSystem) (cache_key prompt : string)
    (image : option Image) (num_suggestions : Z) : M (string * string) :=
  ' (can_proceed, wait_time) <- changing rate_limit_check ;
  (if negb can_proceed then sleep wait_time else ret tt) ;;;
  let optimized_prompt := optimize_prompt prompt num_suggestions in
  loop_end <- retry_loop self cache_key optimized_prompt image
                (Py.range (max_retries self)) None ;
  after_loop self cache_key optimized_prompt image loop_end.

Definition generate_with_retry (self : GeminiAgentSystem) (prompt : string)
    (image : option Image) (num_suggestions : Z) : M (string * string) :=
  let cache_key := get_cache_key prompt (primary_model self) num_suggestions in
  cached_response <- reading (fun now st => check_cache now st cache_key) ;
  if Py.truthy_opt cached_response then
    emit (st_info "✨ Using cached response") ;;;
    ret (default EmptyString cached_response, "cache")
  else generate_uncached self cache_key prompt image num_suggestions.

End Orchestrator.

(** ** [check_ollama] and the sidebar *)

(** What [response.json().get("models", [])] followed by the list
    comprehension over [model["name"]] can meet: a body for which one of the
    two raises (not JSON, not an object, entries that are not objects), or
    the entries of the list, each with its name if it has one; a body
    without the "models" key counts as an empty list. *)
Inductive TagsBody :=
| tags_malformed
| tags_models (names : list (option string)).

(** The answer to [requests.get]: an exception (refused, timed out), or a
    response with its status code and body. *)
Inductive GetReply :=
| get_exception
| get_response (status_code : Z) (body : TagsBody).

(** [[model["name"] for model in models]]: a [KeyError] for an entry without
    a name. *)
Fixpoint model_names (models : list (option string)) : option (list string) :=
  match models with
  | [] => Some []
  | None :: _ => None
  | Some name :: rest =>
      match model_names rest with
      | Some names => Some (name :: names)
      | None => None
      end
  end.

(** [check_ollama], as a function of the answer of the server: the bare
    [except] turns every exception into [(False, [])]. *)
Definition check_ollama (reply : GetReply) : bool * list string :=
  match reply with
  | get_exception => (false, [])
  | get_response status_code body =>
      if bool_decide (status_code = 200) then
        match body with
        | tags_malformed => (false, [])
        | tags_models models =>
            match model_names models with
            | Some names => (true, names)
            | None => (false, [])
            end
        end
      else (false, [])
  end.

(** The sidebar binds [agent.ollama_model]: the option picked in the select
    box when the server is there and lists a model, [None] otherwise.
    [selectbox] is the widget: it returns one of its options. *)
Definition configure_fallback (self : GeminiAgentSystem) (reply : GetReply)
    (selectbox : list string -> string) : GeminiAgentSystem :=
  let '(ollama_available, ollama_models) := check_ollama reply in
  {| primary_model := primary_model self;
     max_retries := max_retries self;
     base_delay := base_delay self;
     use_ollama_fallback := use_ollama_fallback self;
     ollama_model :=
       if ollama_available && negb (bool_decide (ollama_models = []))
       then Some (selectbox ollama_models)
       else None |}.

(** The metric "Requests (last min)" of the sidebar. *)
Definition recent_requests (now : Z) (st : SessionState) : Z :=
  Z.of_nat (List.length
              (filter (fun t => now - t < Py.timedelta_minutes 1)
                 (request_history st))).

(** The message shown under the metric. *)
Inductive QuotaHealth := approaching_limit | moderate_usage | good_health.

Definition quota_health (now : Z) (st : SessionState) : QuotaHealth :=
  if bool_decide (recent_requests now st > 40) then approaching_limit
  else if bool_decide (recent_requests now st > 30) then moderate_usage
  else good_health.

(** The button "Clear Cache". *)
Definition clear_cache (st : SessionState) : SessionState :=
  {| request_cache := ∅;
     request_history := [];
     retry_count := retry_count st;
     api_key := api_key st |}.

(** The button "Clear Cache", when it is clicked. *)
Definition clear_cache_button : M unit :=
  changing (fun _ st => (clear_cache st, tt)) ;;;
  emit (st_success "Cache cleared!").

(** ** The handler of the button "Generate Replies" *)

(** The options of the select box "Select Mood/Tone", which are the keys of
    the dict [mood_instructions], in the order of the source. *)
Inductive Mood :=
| flirty_playful
| romantic_sweet
| casual_friendly
| professional_formal
| business_networking
| humorous_witty
| cold_detached
| bold_confident
| thoughtful_deep
| supportive_caring.

(** [mood_instructions[mood]] *)
Definition mood_instructions (mood : Mood) : string :=
  match mood with
  | flirty_playful =>
      "Generate flirty, playful, and charming replies with subtle teasing and romantic undertones. Be confident and engaging."
  | romantic_sweet =>
      "Generate sweet, romantic, and heartfelt replies that show genuine affection and care."
  | casual_friendly =>
      "Generate casual, friendly, and relaxed replies as if talking to a good friend."
  | professional_formal =>
      "Generate professional, formal, and polished replies suitable for work environments."
  | business_networking =>
      "Generate professional networking replies that build rapport and maintain business relationships."
  | humorous_witty =>
      "Generate funny, witty, and clever replies that will make them laugh."
  | cold_detached =>
      "Generate brief, distant, and emotionally detached replies."
  | bold_confident =>
      "Generate bold, assertive, and confident replies that command respect."
  | thoughtful_deep =>
      "Generate thoughtful, introspective, and meaningful replies."
  | supportive_caring =>
      "Generate supportive, empathetic, and caring replies that show understanding."
  end.

(** The options of the slider "Reply Length", the keys of [length_guide]. *)
Inductive ReplyLength := Short | Medium | Long.

(** [length_guide[reply_length]] *)
Definition length_guide (reply_length : ReplyLength) : string :=
  match reply_length with
  | Short => "Keep replies brief (1-2 sentences)"
  | Medium => "Make replies moderate length (2-3 sentences)"
  | Long => "Create detailed, expressive replies (3-5 sentences)"
  end.

(** The prompt of the handler: the f-string, then the lines added for the
    screenshot and the text. The two text areas return a [str], empty when
    nothing was typed. *)
Definition build_prompt (mood : Mood) (reply_length : ReplyLength)
    (num_suggestions : Z) (additional_context : string)
    (uploaded_image : option Image) (conversation_text : string) : string :=
  let prompt :=
    "You are an expert communication specialist. Analyze the conversation and generate "
    ++ Py.str_of_int num_suggestions ++ " different reply suggestions." ++ nl ++ nl
    ++ "Mood/Tone: " ++ mood_instructions mood ++ nl
    ++ "Reply Length: " ++ length_guide reply_length ++ nl ++ nl
    ++ "Additional Context: "
    ++ (if Py.truthy additional_context then additional_context else "None")
    ++ nl ++ nl
    ++ "Instructions:" ++ nl
    ++ "1. Read the conversation carefully" ++ nl
    ++ "2. Generate " ++ Py.str_of_int num_suggestions
    ++ " unique replies matching the mood and length" ++ nl
    ++ "3. Make replies natural and contextually appropriate" ++ nl
    ++ "4. Number each suggestion" ++ nl
    ++ "5. Add brief reason after each" ++ nl ++ nl
    ++ "Format:" ++ nl
    ++ "**Reply 1:**" ++ nl
    ++ "[Your reply]" ++ nl
    ++ "*Why it works: [Brief explanation]*" ++ nl ++ nl
    ++ "**Reply 2:**" ++ nl
    ++ "[Your reply]" ++ nl
    ++ "*Why it works: [Brief explanation]*" ++ nl ++ nl in
  match uploaded_image with
  | Some _ =>
      let prompt := prompt ++ nl ++ nl ++ "Analyze the conversation in the image." in
      if Py.truthy conversation_text
      then prompt ++ nl ++ nl ++ "Additional text:" ++ nl ++ conversation_text
      else prompt
  | None => prompt ++ nl ++ nl ++ "Conversation:" ++ nl ++ conversation_text
  end.





(** ** Vocabulary of the properties *)

(** A request log as the program builds it under a clock that does not go
    back: oldest entry first, nothing later than [now]. *)
Definition chronological (now : Z) (history : list Z) : Prop :=
  StronglySorted Z.le history /\ Forall (fun t => t <= now) history.

(** The sleeps, the calls to the primary provider and the calls to the local
    server that a trace holds. *)
Definition sleeps (trace : list Event) : list Z :=
  omap (fun e => match e with time_sleep s => Some s | _ => None end) trace.

Definition gemini_calls (trace : list Event) : nat :=
  length (omap (fun e => match e with
                         | gemini_generate_content _ _ prompt _ => Some prompt
                         | _ => None
                         end) trace).

Definition ollama_calls (trace : list Event) : nat :=
  length (omap (fun e => match e with
                         | requests_post _ payload _ => Some payload
                         | _ => None
                         end) trace).

(** The answer of the primary provider to an attempt made in [w] with the
    prompt [optimized_prompt]: of [w], only the API key matters. *)
Definition reply_in (env : Providers) (self : GeminiAgentSystem)
    (optimized_prompt : string) (image : option Image) (w : World) (attempt : Z)
  : GeminiReply :=
  gemini env attempt (primary_model self) (api_key (session w))
    optimized_prompt image.

(** The answer of the primary provider to attempt [attempt] of the request
    [generate_with_retry self prompt image num_suggestions] made in [w]. *)
Definition primary_reply (env : Providers) (self : GeminiAgentSystem) (w : World)
    (prompt : string) (image : option Image) (num_suggestions : Z) (attempt : Z)
  : GeminiReply :=
  reply_in env self (optimize_prompt prompt num_suggestions) image w attempt.

(** The events of an attempt up to the answer of the provider. *)
Definition attempt_events (self : GeminiAgentSystem) (optimized_prompt : string)
    (image : option Image) (w : World) : list Event :=
  [st_info "🤖 Generating with Gemini 2.0 Flash...";
   gemini_generate_content (primary_model self) (api_key (session w))
     optimized_prompt image].

(** The world in which the provider has answered an attempt: where the
    [except] clause starts, if the answer is an error. *)
Definition after_call (env : Providers) (self : GeminiAgentSystem)
    (optimized_prompt : string) (image : option Image) (w : World) (attempt : Z)
  : World :=
  {| session := session w;
     clock := clock w
              + Z.of_N (gemini_elapsed (reply_in env self optimized_prompt image w attempt));
     events := events w ++ attempt_events self optimized_prompt image w |}.

(** The message the [except] clause receives for a reply, if any: the
    exception of the provider, or the one raised for an empty text. *)
Definition attempt_error (reply : GeminiReply) : option string :=
  match gemini_result reply with
  | Raise msg => Some msg
  | Ok text => if Py.truthy text then None else Some "Response was blocked or empty"
  end.

(** The error kinds the last attempt tells apart, in the order of its tests. *)
Inductive ErrorKind := QuotaExceeded | SafetyBlocked | InvalidCredential | OtherError.

Definition final_error_kind (error_msg : string) : ErrorKind :=
  if Py.contains "429" error_msg || Py.contains "quota" (Py.lower error_msg)
  then QuotaExceeded
  else if Py.contains "blocked" (Py.lower error_msg)
          || Py.contains "safety" (Py.lower error_msg)
  then SafetyBlocked
  else if Py.contains "api" (Py.lower error_msg)
          && Py.contains "key" (Py.lower error_msg)
  then InvalidCredential
  else OtherError.

(** The sleep of step 2, if the rate check denies. *)
Definition gate_sleep (now : Z) (st : SessionState) : list Z :=
  match (rate_limit_check now st).2 with
  | (true, _) => []
  | (false, wait_time) => [wait_time]
  end.

(** The cache key of the request. *)
Definition request_key (self : GeminiAgentSystem) (prompt : string)
    (num_suggestions : Z) : string :=
  get_cache_key prompt (primary_model self) num_suggestions.

(** The request log holds no timestamp later than the clock: what
    [log_request] maintains under a clock that does not go back. *)
Definition log_in_past (w : World) : Prop :=
  Forall (fun t => t <= clock w) (request_history (session w)).

(** A computation that keeps a property of the world. *)
Definition keeps {A} (I : World -> Prop) (m : M A) : Prop :=
  forall w, I w -> I (m w).2.

(** The world in which the retry loop starts: the log pruned, and the sleep
    of step 2 taken if the check denied. *)
Definition after_gate (w : World) : World :=
  {| session := (rate_limit_check (clock w) (session w)).1;
     clock := clock w
              + match (rate_limit_check (clock w) (session w)).2 with
                | (true, _) => 0
                | (false, wait_time) => wait_time * Py.usec_per_second
                end;
     events := events w ++ map time_sleep (gate_sleep (clock w) (session w)) |}.

(** [w'] is what [w] becomes through attempts that fail and are retried:
    the session is the same, each attempt has called the provider once and
    slept its backoff delay once. *)
Definition retried (self : GeminiAgentSystem) (attempts : list Z) (w w' : World)
  : Prop :=
  session w' = session w
  /\ clock w <= clock w'
  /\ sleeps (events w')
     = (sleeps (events w) ++ map (exponential_backoff self) attempts)%list
  /\ gemini_calls (events w') = (gemini_calls (events w) + length attempts)%nat
  /\ ollama_calls (events w') = ollama_calls (events w).

(** The value of [image_base64] in step 5 when [encode_image] does not
    raise: [None] without an image. *)
Definition encoded_image (env : Providers) (image : option Image)
  : option (option string) :=
  match image with
  | None => Some None
  | Some img =>
      match pil_png_base64 env img with
      | Ok b64 => Some (Some b64)
      | Raise _ => None
      end
  end.

(** The source tag of a fallback result. *)
Definition ollama_tag (model : string) : string := "Ollama (" ++ model ++ ")".

(** A computation that only adds to the trace. *)
Definition grows {A} (m : M A) : Prop :=
  forall w, events w `prefix_of` events (m w).2.

(** The first scenario of invalid credentials as the specification words it:
    if the error of the first attempt is an invalid credential, the call
    fails with no second call of the provider, no sleep and no cache write. *)
Definition fails_at_first_invalid_credential (env : Providers)
    (self : GeminiAgentSystem) (prompt : string) (image : option Image)
    (num_suggestions : Z) (w : World) : Prop :=
  (exists msg,
     attempt_error (primary_reply env self w prompt image num_suggestions 0)
     = Some msg
     /\ final_error_kind msg = InvalidCredential) ->
  let r := generate_with_retry env self prompt image num_suggestions w in
  (exists msg, r.1 = Raise msg)
  /\ gemini_calls (events r.2) = S (gemini_calls (events w))
  /\ sleeps (events r.2) = sleeps (events w)
  /\ request_cache (session r.2) = request_cache (session w).

(** The test of the first attempts for a quota error (line 225): the quota
    signals of the specification. *)
Definition quota_signal (error_msg : string) : bool :=
  Py.contains "429" error_msg || Py.contains "quota" (Py.lower error_msg)
  || Py.contains "resource_exhausted" (Py.lower error_msg).

(** The second scenario as the specification words it: if every attempt ends
    with a quota error, a fallback model is set and the call of the local
    server succeeds, the request returns a text that ends with the provenance
    note, with a tag that holds the name of the fallback model, and the log
    gains no entry. *)
Definition fallback_answer_is_returned (env : Providers) (self : GeminiAgentSystem)
    (prompt : string) (image : option Image) (num_suggestions : Z) (w : World)
  : Prop :=
  (forall a, 0 <= a < max_retries self ->
     exists msg,
       gemini_result (primary_reply env self w prompt image num_suggestions a)
       = Raise msg
       /\ quota_signal msg = true) ->
  forall model image_base64 answer,
    ollama_model self = Some model ->
    Py.truthy model = true ->
    encoded_image env image = Some image_base64 ->
    http_result
      (ollama_server env
         (ollama_payload model (optimize_prompt prompt num_suggestions) image_base64))
    = http_json_response answer ->
    let r := generate_with_retry env self prompt image num_suggestions w in
    exists text tag body,
      r.1 = Ok (text, tag)
      /\ text = body ++ String "010" (String "010" "*Generated using Ollama (local)*")
      /\ Py.contains model tag = true
      /\ (length (request_history (session r.2))
          <= length (request_history (session w)))%nat.

(** ** Concrete collaborators for the scenarios *)

(** A primary provider that answers attempt [a] with [replies a] after a
    quarter of a second, an encoder that succeeds and a local server that
    answers with [local]. *)
Definition scripted (replies : Z -> outcome string) (local : HttpResult)
  : Providers :=
  {| gemini := fun attempt _ _ _ _ =>
       {| gemini_result := replies attempt; gemini_elapsed := 250000 |};
     pil_png_base64 := fun _ => Ok "iVBORw0KGgo=";
     ollama_server := fun _ => {| http_result := local; http_elapsed := 1500000 |} |}.

Definition invalid_key_message : string :=
  "400 API key not valid. Please pass a valid API key.".

Definition quota_message : string :=
  "429 Resource has been exhausted (e.g. check quota).".

Definition env_invalid_key : Providers :=
  scripted (fun _ => Raise invalid_key_message) http_connection_error.

Definition env_invalid_key_once : Providers :=
  scripted (fun attempt => if (attempt =? 0)%Z then Raise invalid_key_message
                           else Ok "**Reply 1:** Sure!")
    http_connection_error.

Definition env_quota : Providers :=
  scripted (fun _ => Raise quota_message) (http_json_response "**Reply 1:** Hi").

(** Quota errors, and a local server that answers with an empty text. *)
Definition env_quota_silent : Providers :=
  scripted (fun _ => Raise quota_message) (http_json_response EmptyString).

(** A quota signal that comes without "429" or "quota" and names the key. *)
Definition exhausted_key_message : string :=
  "RESOURCE_EXHAUSTED: request limit reached for this API key".

Definition env_exhausted_key : Providers :=
  scripted (fun _ => Raise exhausted_key_message)
    (http_json_response "**Reply 1:** Hi").

Definition env_blocked : Providers :=
  scripted (fun _ => Ok EmptyString) http_connection_error.

Definition env_ok : Providers :=
  scripted (fun _ => Ok "**Reply 1:** Sure!") http_connection_error.

(** A new session at some time of day. *)
Definition new_world : World :=
  {| session := fresh_session "AIza-key"; clock := 1700000000000000; events := [] |}.

(** The agent once the sidebar has found the local model [llava]. *)
Definition agent_with_fallback : GeminiAgentSystem :=
  {| primary_model := primary_model init;
     max_retries := max_retries init;
     base_delay := base_delay init;
     use_ollama_fallback := use_ollama_fallback init;
     ollama_model := Some "llava" |}.

(** A session whose cache holds an empty response for the request. *)
Definition world_with_empty_entry : World :=
  {| session :=
       save_to_cache 1699999999000000 (fresh_session "AIza-key")
         (request_key init "hello" 3) EmptyString;
     clock := 1700000000000000;
     events := [] |}.

(** Two strings that differ at a position both have. *)
Fixpoint clash (p q : string) : bool :=
  match p, q with
  | String x p', String y q' => negb (Ascii.eqb x y) || clash p' q'
  | _, _ => false
  end.

(** ** Vocabulary of the further properties *)

(** What holds of every value a computation returns, in the world it
    returns it in. *)
Definition ensures {A} (m : M A) (Q : A -> World -> Prop) : Prop :=
  forall w a w', m w = (Ok a, w') -> Q a w'.

(** A result of [generate_with_retry] that the cache now serves: its text
    is not empty and is what a lookup of the request key returns, and its
    tag is "cache", the primary model or the tag of the fallback model. *)
Definition served (self : GeminiAgentSystem) (cache_key : string)
    (result : string * string) (w : World) : Prop :=
  Py.truthy result.1 = true
  /\ check_cache (clock w) (session w) cache_key = Some result.1
  /\ (result.2 = "cache"
      \/ result.2 = primary_model self
      \/ exists model, ollama_model self = Some model /\ result.2 = ollama_tag model).

(** What a signal of the loop body, the end of the loop and the outcome of
    step 5 carry when they carry a result. *)
Definition signal_served (self : GeminiAgentSystem) (cache_key : string)
    (signal : LoopSignal) (w : World) : Prop :=
  match signal with
  | Return result => served self cache_key result w
  | Continue _ | Break _ => True
  end.

Definition loop_served (self : GeminiAgentSystem) (cache_key : string)
    (loop_end : LoopEnd) (w : World) : Prop :=
  match loop_end with
  | Returned result => served self cache_key result w
  | Left _ => True
  end.

Definition fallback_served (self : GeminiAgentSystem) (cache_key : string)
    (fallback : option (string * string)) (w : World) : Prop :=
  match fallback with
  | Some result => served self cache_key result w
  | None => True
  end.

(** No cached response is the empty string. *)
Definition cache_nonempty (w : World) : Prop :=
  forall k entry,
    request_cache (session w) !! k = Some entry ->
    Py.truthy (response entry) = true.

(** A computation that adds at most [n] to a count of the trace. *)
Definition adds {A} (count : list Event -> nat) (n : nat) (m : M A) : Prop :=
  forall w, (count (events (m w).2) <= count (events w) + n)%nat.

(** Step 5 fails: the image cannot be encoded, or the server does not
    answer with a non-empty text. *)
Definition fallback_fails (env : Providers) (model optimized_prompt : string)
    (image : option Image) : Prop :=
  match encoded_image env image with
  | None => True
  | Some image_base64 =>
      match http_result
              (ollama_server env (ollama_payload model optimized_prompt image_base64))
      with
      | http_json_response text => Py.truthy text = false
      | http_connection_error | http_other_error _ => True
      end
  end.

(** A world with a session that was just cleared. *)
Definition cleared (w : World) : World :=
  {| session := clear_cache (session w); clock := clock w; events := events w |}.

(** [p] starts at no position of [t], whatever text follows [t]. *)
Fixpoint clashes_everywhere (p t : string) : bool :=
  match t with
  | EmptyString => true
  | String _ t' => clash p t && clashes_everywhere p t'
  end.

(** * Properties *)

(** ** The built-ins against values computed by Python *)

Example replace_all_occurrences :
  Py.replace "xxabcabcyy" "abc" "Q" = "xxQQyy".
Proof. reflexivity. Qed.

Example replace_without_overlap : Py.replace "aaa" "aa" "b" = "ba".
Proof. reflexivity. Qed.

Example replace_empty_pattern : Py.replace "abc" "" "-" = "-a-b-c-".
Proof. reflexivity. Qed.

Example str_of_int_values :
  Py.str_of_int 0 = "0" /\ Py.str_of_int 5 = "5" /\ Py.str_of_int (-12) = "-12".
Proof. repeat split; vm_compute; reflexivity. Qed.

Example lower_ascii : Py.lower "API Key [@`{Z" = "api key [@`{z".
Proof. reflexivity. Qed.

Example isascii_values :
  Py.isascii "API key [@`{Z" = true /\ Py.isascii "" = true
  /\ Py.isascii "clé" = false.
Proof. repeat split. Qed.

Example slice_to_characters :
  Py.slice_to 2 "aébc" = "aé" /\ Py.slice_to 3 "日本語テキスト" = "日本語"
  /\ Py.slice_to 1 "😀x" = "😀" /\ Py.slice_to 0 "abc" = ""
  /\ Py.slice_to 5 "ab" = "ab"
  /\ Py.slice_to 200 (String.concat "" (replicate 150 "é"))
     = String.concat "" (replicate 150 "é").
Proof. vm_compute. repeat split. Qed.

Example timedelta_seconds_values :
  Py.timedelta_seconds (-1) = 86399 /\ Py.timedelta_seconds 59999999 = 59.
Proof. split; reflexivity. Qed.

Example range_values : Py.range 3 = [0; 1; 2] /\ Py.range (-1) = [].
Proof. split; reflexivity. Qed.

Example md5_empty : MD5.hexdigest "" = "d41d8cd98f00b204e9800998ecf8427e".
Proof. vm_compute. reflexivity. Qed.

Example md5_abc : MD5.hexdigest "abc" = "900150983cd24fb0d6963f7d28e17f72".
Proof. vm_compute. reflexivity. Qed.

Example md5_two_blocks :
  MD5.hexdigest
    "12345678901234567890123456789012345678901234567890123456789012345678901234567890"
  = "57edf4a22be3c955ac49da2e2107b67a".
Proof. vm_compute. reflexivity. Qed.

Example md5_padding_boundary :
  MD5.hexdigest "xxxxxxxxxxxxxxxxxxxxxxxxxxxxxxxxxxxxxxxxxxxxxxxxxxxxxxxx"
  = "668a72d5ba17f08e62dabcafad6db14b".
Proof. vm_compute. reflexivity. Qed.

Example get_cache_key_value :
  get_cache_key "hello" "gemini-2.0-flash-exp" 3
  = "5f9e49178601e91f47fd89cf10a18f9a".
Proof. vm_compute. reflexivity. Qed.

(** ** Backoff policy *)

(** C7: for every natural attempt index [i] the delay is
    [min (base_delay * 2^i) 60]; with the base delay 3 of [__init__] the
    delays of attempts 0, 1, 2 and 6 are 3, 6, 12 and 60. *)
Theorem exponential_backoff_formula :
  (forall (self : GeminiAgentSystem) (i : nat),
     exponential_backoff self (Z.of_nat i)
     = Z.min (base_delay self * Z.of_nat (2 ^ i)) 60)
  /\ exponential_backoff init 0 = 3
  /\ exponential_backoff init 1 = 6
  /\ exponential_backoff init 2 = 12
  /\ exponential_backoff init 6 = 60.
Proof.
  split.
  - intros self i. unfold exponential_backoff.
    now rewrite Nat2Z.inj_pow.
  - repeat split.
Qed.

(** ** Cache store *)

Lemma append_assoc (a b c : string) : ((a ++ b) ++ c = a ++ (b ++ c))%string.
Proof.
  induction a as [|x a IH]; [reflexivity |].
  exact (f_equal (String x) IH).
Qed.

Lemma cache_key_content_shift (p q m : string) (n : Z) :
  cache_key_content (p ++ "_" ++ q) m n = cache_key_content p (q ++ "_" ++ m) n.
Proof.
  unfold cache_key_content. now rewrite !append_assoc.
Qed.

(** C9: the fingerprint is not injective on triples, and not because of a
    hash collision: the strings that are hashed are already equal, since a
    prompt or a model id may itself hold the underscore that joins the fields
    (for every count [n], ("a_b", "m", n) and ("a", "b_m", n)). *)
Theorem get_cache_key_not_injective :
  (forall n : Z,
     ("a_b", "m", n) <> ("a", "b_m", n)
     /\ cache_key_content "a_b" "m" n = cache_key_content "a" "b_m" n
     /\ get_cache_key "a_b" "m" n = get_cache_key "a" "b_m" n)
  /\ ~ (forall (p1 m1 p2 m2 : string) (n1 n2 : Z),
          get_cache_key p1 m1 n1 = get_cache_key p2 m2 n2 ->
          (p1, m1, n1) = (p2, m2, n2)).
Proof.
  assert (Hn : forall n : Z,
             ("a_b", "m", n) <> ("a", "b_m", n)
             /\ cache_key_content "a_b" "m" n = cache_key_content "a" "b_m" n
             /\ get_cache_key "a_b" "m" n = get_cache_key "a" "b_m" n).
  { intros n. split; [discriminate |].
    assert (Hc : cache_key_content "a_b" "m" n = cache_key_content "a" "b_m" n)
      by apply (cache_key_content_shift "a" "b" "m" n).
    split; [exact Hc |]. unfold get_cache_key. now rewrite Hc. }
  split; [exact Hn |].
  intros Hinj. destruct (Hn 3) as (Hne & _ & Hk).
  apply Hne, Hinj, Hk.
Qed.

(** C5: a response stored under a key is returned by a lookup of that key for
    as long as less than one hour has passed since the store (in particular
    at once); once an hour has passed (and so when more than an hour has) the
    lookup returns [None], and the entry is still in the map: [check_cache]
    only reads the session state. *)
Theorem cache_round_trip (st : SessionState) (k r : string) (t0 t1 : Z) :
  let st' := save_to_cache t0 st k r in
  check_cache t0 st' k = Some r
  /\ (t1 - t0 < Py.timedelta_hours 1 -> check_cache t1 st' k = Some r)
  /\ (Py.timedelta_hours 1 <= t1 - t0 ->
      check_cache t1 st' k = None
      /\ request_cache st' !! k = Some {| response := r; timestamp := t0 |}).
Proof.
  intros st'. subst st'. unfold check_cache, save_to_cache. simpl.
  rewrite lookup_insert_eq. simpl.
  repeat split.
  - rewrite bool_decide_eq_true_2; [reflexivity |].
    unfold Py.timedelta_hours, Py.usec_per_second. lia.
  - intros H. now rewrite bool_decide_eq_true_2.
  - rewrite bool_decide_eq_false_2; [reflexivity | lia].
Qed.

Lemma cache_round_trip_witness :
  check_cache 5000000 (save_to_cache 0 (fresh_session "key") "k" "reply") "k"
  = Some "reply"
  /\ check_cache 3600000001 (save_to_cache 0 (fresh_session "key") "k" "reply") "k"
     = None.
Proof.
  split.
  - apply (cache_round_trip (fresh_session "key") "k" "reply" 0 5000000).
    reflexivity.
  - apply (cache_round_trip (fresh_session "key") "k" "reply" 0 3600000001).
    vm_compute. discriminate.
Defined.

(** ** Rate tracker *)

Lemma timedelta_seconds_recent (d : Z) :
  0 <= d < Py.timedelta_minutes 1 ->
  Py.timedelta_seconds d = d / 1000000 /\ 0 <= d / 1000000 < 60.
Proof.
  unfold Py.timedelta_minutes, Py.timedelta_seconds, Py.usec_per_second.
  intros [Hlo Hhi]. rewrite Z.mod_small by lia. split; [reflexivity |].
  split.
  - apply Z.div_pos; lia.
  - apply Z.div_lt_upper_bound; lia.
Qed.

Lemma last_minute_elem (now t : Z) (history : list Z) :
  t ∈ last_minute now history
  <-> t ∈ history /\ now - t < Py.timedelta_minutes 1.
Proof. unfold last_minute. rewrite list_elem_of_filter. tauto. Qed.

Lemma last_minute_keeps (now : Z) (history : list Z) :
  Forall (fun t => now - t < Py.timedelta_minutes 1) history ->
  last_minute now history = history.
Proof.
  unfold last_minute. induction 1 as [|t l Ht _ IH]; [reflexivity |].
  rewrite filter_cons_True by exact Ht. now rewrite IH.
Qed.

Lemma last_minute_drops (now : Z) (history : list Z) :
  Forall (fun t => Py.timedelta_minutes 1 <= now - t) history ->
  last_minute now history = [].
Proof.
  unfold last_minute. induction 1 as [|t l Ht _ IH]; [reflexivity |].
  rewrite filter_cons_False by lia. exact IH.
Qed.

Lemma last_minute_app (now : Z) (h1 h2 : list Z) :
  last_minute now (h1 ++ h2) = (last_minute now h1 ++ last_minute now h2)%list.
Proof. apply filter_app. Qed.

Lemma last_minute_sorted (now : Z) (history : list Z) :
  StronglySorted Z.le history -> StronglySorted Z.le (last_minute now history).
Proof.
  unfold last_minute. induction 1 as [|t l Hs IH Hall]; [constructor |].
  rewrite filter_cons. destruct (decide _); [| exact IH].
  constructor; [exact IH |].
  apply List.Forall_forall. intros x Hx.
  apply list_elem_of_In in Hx. apply list_elem_of_filter in Hx.
  destruct Hx as [_ Hx]. apply list_elem_of_In in Hx.
  rewrite List.Forall_forall in Hall. now apply Hall.
Qed.

Lemma log_requests_history (ts : list Z) (st : SessionState) :
  request_history (foldl (fun s t => log_request t s) st ts)
  = (request_history st ++ ts)%list.
Proof.
  revert st. induction ts as [|t ts IH]; intros st; simpl.
  - now rewrite app_nil_r.
  - rewrite IH. simpl. now rewrite <- app_assoc.
Qed.

Lemma rate_limit_check_history (now : Z) (st : SessionState) :
  request_history (rate_limit_check now st).1
  = last_minute now (request_history st).
Proof.
  unfold rate_limit_check. case_bool_decide; [| reflexivity].
  destruct (last_minute now (request_history st)); reflexivity.
Qed.

Lemma rate_limit_check_cache (now : Z) (st : SessionState) :
  request_cache (rate_limit_check now st).1 = request_cache st.
Proof.
  unfold rate_limit_check. case_bool_decide; [| reflexivity].
  destruct (last_minute now (request_history st)); reflexivity.
Qed.

Lemma rate_limit_check_admits (now : Z) (st : SessionState) :
  (length (last_minute now (request_history st)) < 50)%nat ->
  (rate_limit_check now st).2 = (true, 0).
Proof.
  intros Hlen. unfold rate_limit_check.
  rewrite bool_decide_eq_false_2 by lia. reflexivity.
Qed.

Lemma rate_limit_check_denies (now : Z) (st : SessionState) :
  (50 <= length (last_minute now (request_history st)))%nat ->
  exists first,
    head (last_minute now (request_history st)) = Some first
    /\ (rate_limit_check now st).2
       = (false, 60 - Py.timedelta_seconds (now - first)).
Proof.
  intros Hlen. unfold rate_limit_check.
  rewrite bool_decide_eq_true_2 by lia.
  destruct (last_minute now (request_history st)) as [|first rest] eqn:E.
  - simpl in Hlen. lia.
  - exists first. split; reflexivity.
Qed.

(** After fifty calls of [log_request] in the ten seconds before [now], on
    top of a log that holds nothing later than [now], the check at [now]
    denies with a wait between 1 and 60 seconds; the check 61 seconds later,
    or more, finds an empty window. *)
Lemma rate_limit_burst (st0 : SessionState) (ts : list Z) (now later : Z) :
  Forall (fun t => t <= now) (request_history st0) ->
  length ts = 50%nat ->
  Forall (fun t => now - 10 * Py.usec_per_second <= t <= now) ts ->
  now + 61 * Py.usec_per_second <= later ->
  let st := foldl (fun s t => log_request t s) st0 ts in
  (exists wait, (rate_limit_check now st).2 = (false, wait) /\ 0 < wait <= 60)
  /\ (rate_limit_check later (rate_limit_check now st).1).2 = (true, 0)
  /\ request_history (rate_limit_check later (rate_limit_check now st).1).1 = [].
Proof.
  intros Hpast Hlen Hts Hlater st.
  assert (Hhist : request_history st = (request_history st0 ++ ts)%list)
    by apply log_requests_history.
  assert (Hkeep : last_minute now ts = ts).
  { apply last_minute_keeps. eapply Forall_impl; [exact Hts |].
    unfold Py.timedelta_minutes, Py.usec_per_second. simpl. intros t Ht. lia. }
  assert (Hall : Forall (fun t => t <= now) (request_history st)).
  { rewrite Hhist. apply Forall_app. split; [exact Hpast |].
    eapply Forall_impl; [exact Hts |]. simpl. intros t Ht. lia. }
  split; [| split].
  - destruct (rate_limit_check_denies now st) as (first & Hhead & Hres).
    { rewrite Hhist, last_minute_app, Hkeep, length_app. lia. }
    exists (60 - Py.timedelta_seconds (now - first)). split; [exact Hres |].
    assert (Hin : first ∈ last_minute now (request_history st)).
    { destruct (last_minute now (request_history st)); [discriminate |].
      injection Hhead as ->. apply list_elem_of_here. }
    apply last_minute_elem in Hin. destruct Hin as [Hin Hrecent].
    rewrite List.Forall_forall in Hall.
    apply list_elem_of_In in Hin. apply Hall in Hin.
    destruct (timedelta_seconds_recent (now - first)) as [-> Hb]; lia.
  - apply rate_limit_check_admits.
    rewrite rate_limit_check_history, last_minute_drops; [simpl; lia |].
    apply List.Forall_forall. intros t Ht.
    apply list_elem_of_In, last_minute_elem in Ht. destruct Ht as [Ht _].
    rewrite List.Forall_forall in Hall. apply list_elem_of_In in Ht.
    apply Hall in Ht. unfold Py.timedelta_minutes, Py.usec_per_second in *. lia.
  - rewrite rate_limit_check_history, rate_limit_check_history.
    apply last_minute_drops.
    apply List.Forall_forall. intros t Ht.
    apply list_elem_of_In, last_minute_elem in Ht. destruct Ht as [Ht _].
    rewrite List.Forall_forall in Hall. apply list_elem_of_In in Ht.
    apply Hall in Ht. unfold Py.timedelta_minutes, Py.usec_per_second in *. lia.
Qed.

(** C6: [rate_limit_check] keeps exactly the entries less than 60 seconds
    old (so every entry older than 60 seconds is removed) and leaves the cache
    alone; with fewer than 50 entries kept it answers [(True, 0)]; otherwise
    it answers [False] with 60 minus the [seconds] field of the age of the
    first entry kept, which in a chronological log is the oldest one, its age
    counted in whole seconds. After 50 calls of [log_request] within 10
    seconds the check denies with a positive wait, and 61 seconds later it
    admits. *)
Theorem rate_limit_check_spec :
  (forall (now : Z) (st : SessionState),
     let r := rate_limit_check now st in
     let kept := request_history r.1 in
     kept = last_minute now (request_history st)
     /\ (forall t, t ∈ kept <-> t ∈ request_history st /\ now - t < 60 * 1000000)
     /\ request_cache r.1 = request_cache st
     /\ ((length kept < 50)%nat -> r.2 = (true, 0))
     /\ ((50 <= length kept)%nat ->
         exists first,
           head kept = Some first
           /\ r.2 = (false, 60 - Py.timedelta_seconds (now - first))
           /\ (chronological now (request_history st) ->
               Forall (Z.le first) kept
               /\ r.2 = (false, 60 - (now - first) / 1000000))))
  /\ (forall (st0 : SessionState) (ts : list Z) (now later : Z),
        Forall (fun t => t <= now) (request_history st0) ->
        length ts = 50%nat ->
        Forall (fun t => now - 10 * 1000000 <= t <= now) ts ->
        now + 61 * 1000000 <= later ->
        let st := foldl (fun s t => log_request t s) st0 ts in
        (exists wait, (rate_limit_check now st).2 = (false, wait) /\ 0 < wait)
        /\ (rate_limit_check later (rate_limit_check now st).1).2 = (true, 0)).
Proof.
  split.
  - intros now st r kept.
    assert (Hkept : kept = last_minute now (request_history st))
      by apply rate_limit_check_history.
    split; [exact Hkept |]. split.
    { intros t. rewrite Hkept. apply last_minute_elem. }
    split; [apply rate_limit_check_cache |]. split.
    { rewrite Hkept. apply rate_limit_check_admits. }
    rewrite Hkept. intros Hlen.
    destruct (rate_limit_check_denies now st Hlen) as (first & Hhead & Hres).
    exists first. split; [exact Hhead |]. split; [exact Hres |].
    intros [Hsorted Hpast].
    apply (last_minute_sorted now) in Hsorted.
    assert (Hin : first ∈ last_minute now (request_history st)).
    { destruct (last_minute now (request_history st)); [discriminate |].
      injection Hhead as ->. apply list_elem_of_here. }
    split.
    + destruct (last_minute now (request_history st)) as [|x rest];
        [discriminate |].
      injection Hhead as ->. apply StronglySorted_inv in Hsorted.
      constructor; [lia | apply Hsorted].
    + apply last_minute_elem in Hin. destruct Hin as [Hin Hrecent].
      rewrite List.Forall_forall in Hpast.
      apply list_elem_of_In in Hin. apply Hpast in Hin.
      subst r. rewrite Hres.
      destruct (timedelta_seconds_recent (now - first)) as [-> _];
        [lia | reflexivity].
  - intros st0 ts now later Hpast Hlen Hts Hlater st.
    destruct (rate_limit_burst st0 ts now later Hpast Hlen Hts Hlater)
      as ((wait & Hres & Hwait) & Hadmit & _).
    split; [| exact Hadmit].
    exists wait. split; [exact Hres | lia].
Qed.

Lemma rate_limit_check_spec_witness :
  let st := foldl (fun s t => log_request t s) (fresh_session "key")
              (replicate 50 95000000) in
  (exists wait, (rate_limit_check 100000000 st).2 = (false, wait) /\ 0 < wait)
  /\ (rate_limit_check 161000000 (rate_limit_check 100000000 st).1).2 = (true, 0).
Proof.
  apply (proj2 rate_limit_check_spec (fresh_session "key")
           (replicate 50 95000000) 100000000 161000000).
  - constructor.
  - reflexivity.
  - apply Forall_replicate. lia.
  - lia.
Defined.

(** ** Prompt optimizer *)

Lemma ascii_eqb_refl (a : ascii) : Ascii.eqb a a = true.
Proof. apply Ascii.eqb_eq. reflexivity. Qed.

Lemma startswith_app (p t : string) : Py.startswith p (p ++ t) = true.
Proof.
  induction p as [|a p IH]; [reflexivity |].
  change (Ascii.eqb a a && Py.startswith p (p ++ t) = true).
  now rewrite ascii_eqb_refl, IH.
Qed.

Lemma startswith_spec (p s : string) :
  Py.startswith p s = true <-> exists t, s = (p ++ t)%string.
Proof.
  split.
  - revert s. induction p as [|a p IH]; intros s H.
    + exists s. reflexivity.
    + destruct s as [|b s]; [discriminate |].
      simpl in H. apply andb_true_iff in H. destruct H as [Hab H].
      apply Ascii.eqb_eq in Hab. subst b.
      destruct (IH s H) as [t ->]. exists t. reflexivity.
  - intros [t ->]. apply startswith_app.
Qed.

Lemma contains_spec (p s : string) :
  Py.contains p s = true <-> exists pre post, s = (pre ++ p ++ post)%string.
Proof.
  split.
  - induction s as [|c s IH]; intros H.
    + simpl in H. rewrite orb_false_r in H.
      apply startswith_spec in H. destruct H as [t Ht].
      exists EmptyString, t. exact Ht.
    + simpl in H. apply orb_true_iff in H. destruct H as [H | H].
      * apply startswith_spec in H. destruct H as [t Ht].
        exists EmptyString, t. exact Ht.
      * destruct (IH H) as (pre & post & ->).
        exists (String c pre), post. reflexivity.
  - intros (pre & post & ->). induction pre as [|c pre IH].
    + change (Py.contains p (p ++ post) = true).
      destruct (p ++ post)%string eqn:E; simpl;
        rewrite <- E, startswith_app; reflexivity.
    + change (Py.contains p (String c (pre ++ p ++ post)) = true).
      simpl. rewrite IH. apply orb_true_r.
Qed.

Lemma length_append (p t : string) :
  String.length (p ++ t) = (String.length p + String.length t)%nat.
Proof.
  induction p as [|c p IH]; [reflexivity |].
  change (S (String.length (p ++ t)) = S (String.length p + String.length t)).
  now rewrite IH.
Qed.

Lemma replace_from_skip (old new p t : string) :
  Py.replace_from old new (String.length p) (p ++ t)
  = Py.replace_from old new 0 t.
Proof.
  induction p as [|a p IH]; [destruct t; reflexivity |].
  exact IH.
Qed.

Lemma replace_from_match (a : ascii) (old' new t : string) :
  Py.replace_from (String a old') new 0 (String a old' ++ t)
  = (new ++ Py.replace_from (String a old') new 0 t)%string.
Proof.
  change (String a old' ++ t)%string with (String a (old' ++ t)).
  unfold Py.replace_from at 1. fold Py.replace_from.
  change (String a (old' ++ t)) with (String a old' ++ t)%string.
  rewrite startswith_app.
  replace (String.length (String a old') - 1)%nat with (String.length old')
    by (simpl; lia).
  now rewrite replace_from_skip.
Qed.

Lemma replace_from_no_match (old new : string) (c : ascii) (s : string) :
  Py.startswith old (String c s) = false ->
  Py.replace_from old new 0 (String c s)
  = String c (Py.replace_from old new 0 s).
Proof.
  intros H. unfold Py.replace_from at 1. fold Py.replace_from.
  now rewrite H.
Qed.

(** A text without an occurrence of [old] is left as it is. *)
Lemma replace_from_absent (old new s : string) :
  Py.contains old s = false -> Py.replace_from old new 0 s = s.
Proof.
  induction s as [|c s IH]; intros H; [reflexivity |].
  simpl in H. apply orb_false_iff in H. destruct H as [Hhere Hrest].
  rewrite replace_from_no_match by exact Hhere.
  now rewrite IH.
Qed.

Lemma clash_startswith (p q t : string) :
  clash p q = true -> Py.startswith p (q ++ t) = false.
Proof.
  revert q. induction p as [|x p IH]; intros q H; [discriminate |].
  destruct q as [|y q]; [discriminate |].
  change (Ascii.eqb x y && Py.startswith p (q ++ t) = false).
  simpl in H. destruct (Ascii.eqb x y); [| reflexivity].
  simpl in *. now apply IH.
Qed.

(** The replacement of a phrase does not bring the phrase back when the
    phrase and its substitute both start with a character [a] that neither
    holds anywhere else, and the two differ at a position both have. *)
Section MarkedPhrase.

Variable a : ascii.
Variables old' new' : string.

Hypothesis old_marked : Py.contains (String a EmptyString) old' = false.
Hypothesis new_marked : Py.contains (String a EmptyString) new' = false.
Hypothesis old_new_clash : clash (String a old') (String a new') = true.

Lemma unmarked_head (b : ascii) (w : string) :
  Py.contains (String a EmptyString) (String b w) = false ->
  Ascii.eqb a b = false /\ Py.contains (String a EmptyString) w = false.
Proof.
  simpl. intros H. apply orb_false_iff in H. destruct H as [H1 H2].
  split; [| exact H2]. destruct (Ascii.eqb a b); [discriminate | reflexivity].
Qed.

Lemma startswith_marked_head (b : ascii) (s : string) :
  Ascii.eqb a b = false -> Py.startswith (String a old') (String b s) = false.
Proof. intros H. simpl. now rewrite H. Qed.

Lemma startswith_unmarked_head (b : ascii) (w s : string) :
  Py.contains (String a EmptyString) (String b w) = false ->
  Py.startswith (String b w) (String a s) = false.
Proof.
  intros H. apply unmarked_head in H. destruct H as [H _].
  simpl. rewrite Ascii.eqb_sym, H. reflexivity.
Qed.

(** A prefix without the marker that the output shows was in the input. *)
Lemma startswith_replace_reflects (w s : string) :
  Py.contains (String a EmptyString) w = false ->
  Py.startswith w (Py.replace_from (String a old') (String a new') 0 s) = true ->
  Py.startswith w s = true.
Proof.
  revert w. induction s as [|c s IH]; intros w Hw H; [exact H |].
  destruct w as [|b w]; [reflexivity |].
  unfold Py.replace_from in H. fold Py.replace_from in H.
  destruct (Py.startswith (String a old') (String c s)).
  - change (String a new' ++ ?t)%string with (String a (new' ++ t)) in H.
    now rewrite startswith_unmarked_head in H.
  - simpl in H. apply andb_true_iff in H. destruct H as [Hbc H].
    apply unmarked_head in Hw. destruct Hw as [_ Hw].
    simpl. rewrite Hbc. simpl. now apply IH.
Qed.

Lemma contains_after_unmarked (u v : string) :
  Py.contains (String a EmptyString) u = false ->
  Py.contains (String a old') v = false ->
  Py.contains (String a old') (u ++ v) = false.
Proof.
  intros Hu Hv. induction u as [|b u IH]; [exact Hv |].
  apply unmarked_head in Hu. destruct Hu as [Hab Hu].
  change (String b u ++ v)%string with (String b (u ++ v)).
  unfold Py.contains. fold Py.contains.
  rewrite startswith_marked_head by exact Hab. simpl. now apply IH.
Qed.

Lemma startswith_before_marker (w u v : string) :
  Py.contains (String a EmptyString) w = false ->
  Py.startswith w (u ++ String a v) = true ->
  Py.startswith w u = true.
Proof.
  revert w. induction u as [|c u IH]; intros w Hw H.
  - destruct w as [|b w]; [reflexivity |].
    change (EmptyString ++ String a v)%string with (String a v) in H.
    now rewrite startswith_unmarked_head in H.
  - destruct w as [|b w]; [reflexivity |].
    change (String c u ++ String a v)%string with (String c (u ++ String a v)) in H.
    simpl in H. apply andb_true_iff in H. destruct H as [Hbc H].
    apply unmarked_head in Hw. destruct Hw as [_ Hw].
    simpl. rewrite Hbc. simpl. now apply (IH w).
Qed.

Lemma replace_from_removes_bounded (n : nat) (s : string) :
  (String.length s <= n)%nat ->
  Py.contains (String a old')
    (Py.replace_from (String a old') (String a new') 0 s) = false.
Proof.
  revert s. induction n as [|n IH]; intros s Hlen.
  - destruct s; [reflexivity | simpl in Hlen; lia].
  - destruct s as [|c s]; [reflexivity |].
    destruct (Py.startswith (String a old') (String c s)) eqn:Hm.
    + apply startswith_spec in Hm. destruct Hm as [t Ht].
      rewrite Ht, replace_from_match.
      change (String a new' ++ ?r)%string with (String a (new' ++ r)).
      unfold Py.contains. fold Py.contains.
      change (String a (new' ++ ?r)) with (String a new' ++ r)%string.
      rewrite clash_startswith by exact old_new_clash. simpl.
      apply contains_after_unmarked; [exact new_marked |].
      apply IH.
      assert (Hl : String.length (String c s)
                   = (String.length (String a old') + String.length t)%nat).
      { rewrite Ht. apply length_append. }
      simpl in Hlen, Hl. lia.
    + rewrite replace_from_no_match by exact Hm.
      unfold Py.contains. fold Py.contains.
      rewrite IH by (simpl in Hlen; lia). rewrite orb_false_r.
      destruct (Py.startswith (String a old')
                  (String c (Py.replace_from (String a old') (String a new') 0 s)))
        eqn:Hout; [| reflexivity].
      simpl in Hout. apply andb_true_iff in Hout. destruct Hout as [Hac Hout].
      apply startswith_replace_reflects in Hout; [| exact old_marked].
      simpl in Hm. rewrite Hac, Hout in Hm. discriminate.
Qed.

(** The output of the replacement holds no occurrence of the phrase. *)
Lemma replace_from_removes (s : string) :
  Py.contains (String a old')
    (Py.replace_from (String a old') (String a new') 0 s) = false.
Proof. apply (replace_from_removes_bounded (String.length s)). lia. Qed.

(** The leftmost occurrence is replaced and the text before it kept. *)
Lemma replace_from_leftmost (pre post : string) :
  Py.contains (String a old') pre = false ->
  Py.replace_from (String a old') (String a new') 0
    (pre ++ String a old' ++ post)
  = (pre ++ String a new'
       ++ Py.replace_from (String a old') (String a new') 0 post)%string.
Proof.
  induction pre as [|c pre IH]; intros Hpre.
  - apply replace_from_match.
  - simpl in Hpre. apply orb_false_iff in Hpre. destruct Hpre as [Hhere Hrest].
    change (String c pre ++ ?t)%string with (String c (pre ++ t)).
    rewrite replace_from_no_match.
    + now rewrite IH.
    + destruct (Py.startswith (String a old')
                  (String c (pre ++ String a old' ++ post))) eqn:Hm;
        [| reflexivity].
      simpl in Hm. apply andb_true_iff in Hm. destruct Hm as [Hac Hm].
      change (String a old' ++ post)%string with (String a (old' ++ post)) in Hm.
      apply startswith_before_marker in Hm; [| exact old_marked].
      rewrite Hac, Hm in Hhere. discriminate.
Qed.

End MarkedPhrase.

Lemma optimize_prompt_few (prompt : string) (n : Z) :
  n <= 3 -> optimize_prompt prompt n = prompt.
Proof.
  intros H. unfold optimize_prompt. now rewrite bool_decide_eq_false_2 by lia.
Qed.

Lemma optimize_prompt_many (prompt : string) (n : Z) :
  n > 3 ->
  optimize_prompt prompt n
  = Py.replace_from verbose_instruction brief_instruction 0 prompt.
Proof.
  intros H. unfold optimize_prompt. now rewrite bool_decide_eq_true_2 by lia.
Qed.

Lemma optimize_prompt_absent (prompt : string) (n : Z) :
  Py.contains verbose_instruction prompt = false ->
  optimize_prompt prompt n = prompt.
Proof.
  intros H. unfold optimize_prompt. case_bool_decide; [| reflexivity].
  now apply replace_from_absent.
Qed.

Lemma optimize_prompt_removes (prompt : string) (n : Z) :
  n > 3 -> Py.contains verbose_instruction (optimize_prompt prompt n) = false.
Proof.
  intros H. rewrite optimize_prompt_many by exact H.
  apply replace_from_removes; reflexivity.
Qed.

(** C8: with a suggestion count of 3 or less (2, say) the prompt is returned
    as it is; with a count above 3 (5, say) the output holds no occurrence of
    the verbose instruction, whether or not the input had one, and the
    leftmost occurrence in the input is where the shorter instruction now
    stands; a prompt without the verbose instruction is returned as it is for
    every count, and applying the function twice gives what applying it once
    gives. The function is a pure function of its two arguments. *)
Theorem optimize_prompt_spec :
  (forall (prompt : string) (n : Z), n <= 3 -> optimize_prompt prompt n = prompt)
  /\ (forall (prompt : string) (n : Z),
        n > 3 ->
        Py.contains verbose_instruction (optimize_prompt prompt n) = false)
  /\ (forall (pre post : string) (n : Z),
        n > 3 ->
        Py.contains verbose_instruction pre = false ->
        optimize_prompt (pre ++ verbose_instruction ++ post) n
        = (pre ++ brief_instruction ++ optimize_prompt post n)%string)
  /\ (forall (prompt : string) (n : Z),
        Py.contains verbose_instruction prompt = false ->
        optimize_prompt prompt n = prompt)
  /\ (forall (prompt : string) (n : Z),
        optimize_prompt (optimize_prompt prompt n) n = optimize_prompt prompt n).
Proof.
  split; [exact optimize_prompt_few |].
  split; [exact optimize_prompt_removes |].
  split.
  { intros pre post n Hn Hpre. rewrite !optimize_prompt_many by exact Hn.
    apply replace_from_leftmost; [reflexivity | exact Hpre]. }
  split; [exact optimize_prompt_absent |].
  intros prompt n. destruct (Z_le_gt_dec n 3) as [Hle | Hgt].
  - now rewrite !optimize_prompt_few by exact Hle.
  - apply optimize_prompt_absent. now apply optimize_prompt_removes.
Qed.

Lemma optimize_prompt_spec_witness :
  optimize_prompt
    "4. Number each suggestion. Add a brief explanation (1 line) after each suggestion about why it works." 2
  = "4. Number each suggestion. Add a brief explanation (1 line) after each suggestion about why it works."
  /\ optimize_prompt
       ("4. Number each suggestion. " ++ verbose_instruction ++ ".") 5
     = ("4. Number each suggestion. " ++ brief_instruction
          ++ optimize_prompt "." 5)%string
  /\ Py.contains verbose_instruction
       (optimize_prompt
          "4. Number each suggestion. Add a brief explanation (1 line) after each suggestion about why it works." 5)
     = false.
Proof.
  destruct optimize_prompt_spec as (Hfew & Hgone & Hleft & _).
  split; [apply Hfew; lia |].
  split; [apply Hleft; [lia | reflexivity] | apply Hgone; lia].
Defined.

Example optimize_prompt_5 :
  optimize_prompt
    "4. Number each suggestion. Add a brief explanation (1 line) after each suggestion about why it works." 5
  = "4. Number each suggestion. Add very brief reason.".
Proof. reflexivity. Qed.

(** ** The retry loop, step by step *)

Lemma sleeps_app (l1 l2 : list Event) :
  sleeps (l1 ++ l2) = (sleeps l1 ++ sleeps l2)%list.
Proof. apply omap_app. Qed.

Lemma gemini_calls_app (l1 l2 : list Event) :
  gemini_calls (l1 ++ l2) = (gemini_calls l1 + gemini_calls l2)%nat.
Proof. unfold gemini_calls. now rewrite omap_app, length_app. Qed.

Lemma ollama_calls_app (l1 l2 : list Event) :
  ollama_calls (l1 ++ l2) = (ollama_calls l1 + ollama_calls l2)%nat.
Proof. unfold ollama_calls. now rewrite omap_app, length_app. Qed.

Lemma exponential_backoff_nonneg (self : GeminiAgentSystem) (attempt : Z) :
  0 <= base_delay self -> 0 <= exponential_backoff self attempt.
Proof.
  intros H. unfold exponential_backoff. apply Z.min_glb; [| lia].
  apply Z.mul_nonneg_nonneg; [exact H |]. apply Z.pow_nonneg. lia.
Qed.

Lemma sleep_run (seconds : Z) (w : World) :
  0 <= seconds ->
  sleep seconds w
  = (Ok tt, {| session := session w;
               clock := clock w + seconds * Py.usec_per_second;
               events := events w ++ [time_sleep seconds] |}).
Proof.
  intros H. unfold sleep. rewrite bool_decide_eq_false_2 by lia. reflexivity.
Qed.

(** Running the primitives of the monad. *)
Lemma run_ret {A B} (a : A) (k : A -> M B) (w : World) :
  bind (ret a) k w = k a w.
Proof. reflexivity. Qed.

Lemma run_raise {A B} (msg : string) (k : A -> M B) (w : World) :
  bind (raise msg) k w = (Raise msg, w).
Proof. reflexivity. Qed.

Lemma run_bind {A B C} (m : M A) (f : A -> M B) (g : B -> M C) (w : World) :
  bind (bind m f) g w = bind m (fun a => bind (f a) g) w.
Proof. unfold bind. destruct (m w) as [[a | msg] w']; reflexivity. Qed.

Lemma run_emit {B} (e : Event) (k : unit -> M B) (w : World) :
  bind (emit e) k w
  = k tt {| session := session w; clock := clock w; events := events w ++ [e] |}.
Proof. reflexivity. Qed.

Lemma run_advance {B} (usec : Z) (k : unit -> M B) (w : World) :
  bind (advance usec) k w
  = k tt {| session := session w; clock := clock w + usec; events := events w |}.
Proof. reflexivity. Qed.

Lemma run_reading {A B} (f : Z -> SessionState -> A) (k : A -> M B) (w : World) :
  bind (reading f) k w = k (f (clock w) (session w)) w.
Proof. reflexivity. Qed.

Lemma run_changing {A B} (f : Z -> SessionState -> SessionState * A)
    (k : A -> M B) (w : World) :
  bind (changing f) k w
  = k (f (clock w) (session w)).2
      {| session := (f (clock w) (session w)).1;
         clock := clock w; events := events w |}.
Proof.
  unfold bind, changing. destruct (f (clock w) (session w)). reflexivity.
Qed.

Lemma run_sleep {B} (seconds : Z) (k : unit -> M B) (w : World) :
  0 <= seconds ->
  bind (sleep seconds) k w
  = k tt {| session := session w;
            clock := clock w + seconds * Py.usec_per_second;
            events := events w ++ [time_sleep seconds] |}.
Proof. intros H. unfold bind. now rewrite sleep_run. Qed.

Lemma run_try_ok {A} (body : M A) (handler : string -> M A) (w w' : World) (a : A) :
  body w = (Ok a, w') -> try_except body handler w = (Ok a, w').
Proof. intros H. unfold try_except. now rewrite H. Qed.

Lemma run_try_raise {A} (body : M A) (handler : string -> M A) (w w' : World)
    (msg : string) :
  body w = (Raise msg, w') -> try_except body handler w = handler msg w'.
Proof. intros H. unfold try_except. now rewrite H. Qed.

(** Runs the primitives at the head of a computation. *)
Ltac run_monad :=
  repeat (first [ rewrite run_bind | rewrite run_ret | rewrite run_raise
                | rewrite run_emit | rewrite run_advance | rewrite run_reading
                | rewrite run_changing ];
          cbv beta).

Section Steps.

Variable env : Providers.
Variable self : GeminiAgentSystem.
Variables cache_key optimized_prompt : string.
Variable image : option Image.

Lemma run_gemini_call {B} (attempt : Z) (k : string -> M B) (w : World) :
  bind (gemini_call env self attempt optimized_prompt image) k w
  = let w1 := {| session := session w;
                 clock := clock w
                          + Z.of_N (gemini_elapsed
                                      (reply_in env self optimized_prompt image w attempt));
                 events := events w
                           ++ [gemini_generate_content (primary_model self)
                                 (api_key (session w)) optimized_prompt image] |} in
    match gemini_result (reply_in env self optimized_prompt image w attempt) with
    | Ok text => k text w1
    | Raise msg => (Raise msg, w1)
    end.
Proof.
  unfold gemini_call. rewrite run_bind, run_reading, run_bind, run_emit.
  rewrite run_bind, run_advance. simpl. unfold reply_in.
  destruct (gemini_result _); reflexivity.
Qed.

Lemma attempt_once_error (attempt : Z) (w : World) (msg : string) :
  attempt_error (reply_in env self optimized_prompt image w attempt) = Some msg ->
  attempt_once env self cache_key optimized_prompt image attempt w
  = on_error self attempt msg (after_call env self optimized_prompt image w attempt).
Proof.
  intros H. unfold attempt_once. apply run_try_raise.
  rewrite run_emit, run_gemini_call. simpl.
  unfold after_call, attempt_events. rewrite <- app_assoc. simpl.
  unfold attempt_error in H.
  destruct (gemini_result _) as [text | m].
  - destruct (Py.truthy text); [discriminate |]. simpl.
    injection H as <-. reflexivity.
  - injection H as <-. reflexivity.
Qed.

Lemma attempt_once_success (attempt : Z) (w : World) (text : string) :
  gemini_result (reply_in env self optimized_prompt image w attempt) = Ok text ->
  Py.truthy text = true ->
  attempt_once env self cache_key optimized_prompt image attempt w
  = (Ok (Return (text, primary_model self)),
     let w1 := after_call env self optimized_prompt image w attempt in
     {| session := save_to_cache (clock w1)
                     (log_request (clock w1) (session w)) cache_key text;
        clock := clock w1;
        events := events w1 ++ [st_success "✅ Success!"] |}).
Proof.
  intros H Ht. unfold attempt_once. apply run_try_ok.
  rewrite run_emit, run_gemini_call.
  unfold after_call, attempt_events, reply_in in *. simpl.
  rewrite H, Ht. simpl.
  rewrite run_changing, run_changing, run_emit. simpl.
  rewrite <- !app_assoc. reflexivity.
Qed.

Lemma on_error_retry (attempt : Z) (msg : string) (w : World) :
  attempt < max_retries self - 1 ->
  0 <= base_delay self ->
  on_error self attempt msg w
  = (Ok (Continue msg),
     {| session := session w;
        clock := clock w + exponential_backoff self attempt * Py.usec_per_second;
        events := events w ++ [time_sleep (exponential_backoff self attempt)] |}).
Proof.
  intros Hlt Hbase. unfold on_error. rewrite bool_decide_eq_true_2 by exact Hlt.
  pose proof (exponential_backoff_nonneg self attempt Hbase) as Hnn.
  destruct (_ || _ || _); [| destruct (_ || _)];
    rewrite run_sleep by exact Hnn; reflexivity.
Qed.

Lemma on_error_last_quota (attempt : Z) (msg : string) (w : World) :
  ~ attempt < max_retries self - 1 ->
  final_error_kind msg = QuotaExceeded ->
  Py.truthy_opt (ollama_model self) = true ->
  on_error self attempt msg w
  = (Ok (Break msg),
     {| session := session w; clock := clock w;
        events := events w ++ [st_info "🔄 Switching to Ollama fallback..."] |}).
Proof.
  intros Hlast Hkind Hfb. unfold on_error.
  rewrite bool_decide_eq_false_2 by exact Hlast.
  unfold final_error_kind in Hkind.
  destruct (_ || _).
  - rewrite Hfb. reflexivity.
  - destruct (_ || _); [discriminate |]. destruct (_ && _); discriminate.
Qed.

Lemma on_error_last_safety (attempt : Z) (msg : string) (w : World) :
  ~ attempt < max_retries self - 1 ->
  final_error_kind msg = SafetyBlocked ->
  Py.truthy_opt (ollama_model self) = false ->
  on_error self attempt msg w
  = (Raise "Content blocked by safety filters",
     {| session := session w; clock := clock w;
        events := events w
                  ++ [st_error "🛡️ Content was blocked by safety filters"] |}).
Proof.
  intros Hlast Hkind Hfb. unfold on_error.
  rewrite bool_decide_eq_false_2 by exact Hlast.
  unfold final_error_kind in Hkind.
  destruct (_ || _); [discriminate |].
  destruct (_ || _).
  - rewrite Hfb. reflexivity.
  - destruct (_ && _); discriminate.
Qed.

Lemma on_error_last_credential (attempt : Z) (msg : string) (w : World) :
  ~ attempt < max_retries self - 1 ->
  final_error_kind msg = InvalidCredential ->
  on_error self attempt msg w
  = (Raise "Invalid API key. Please check your Gemini API key.", w).
Proof.
  intros Hlast Hkind. unfold on_error.
  rewrite bool_decide_eq_false_2 by exact Hlast.
  unfold final_error_kind in Hkind.
  destruct (_ || _); [discriminate |].
  destruct (_ || _); [discriminate |].
  destruct (_ && _); [reflexivity | discriminate].
Qed.

Lemma reply_in_api_key (w w' : World) (attempt : Z) :
  api_key (session w') = api_key (session w) ->
  reply_in env self optimized_prompt image w' attempt
  = reply_in env self optimized_prompt image w attempt.
Proof. intros H. unfold reply_in. now rewrite H. Qed.

Lemma reply_in_session (w w' : World) (attempt : Z) :
  session w' = session w ->
  reply_in env self optimized_prompt image w' attempt
  = reply_in env self optimized_prompt image w attempt.
Proof. intros H. apply reply_in_api_key. now rewrite H. Qed.

Lemma retried_nil (w : World) : retried self [] w w.
Proof.
  unfold retried. simpl. rewrite app_nil_r, Nat.add_0_r.
  repeat split; reflexivity || lia.
Qed.

(** One failed attempt, not the last: the provider is called, the backoff
    delay is slept and the loop goes on. *)
Lemma retry_loop_retry (attempt : Z) (rest : list Z) (last_error : option string)
    (w : World) (msg : string) :
  attempt < max_retries self - 1 ->
  0 <= base_delay self ->
  attempt_error (reply_in env self optimized_prompt image w attempt) = Some msg ->
  exists w',
    retry_loop env self cache_key optimized_prompt image (attempt :: rest)
      last_error w
    = retry_loop env self cache_key optimized_prompt image rest (Some msg) w'
    /\ retried self [attempt] w w'.
Proof.
  intros Hlt Hbase Herr. eexists. split.
  - simpl. unfold bind at 1.
    rewrite (attempt_once_error attempt w msg Herr).
    rewrite on_error_retry by assumption. reflexivity.
  - unfold retried, after_call, attempt_events. simpl.
    rewrite !sleeps_app, !gemini_calls_app, !ollama_calls_app. simpl.
    pose proof (exponential_backoff_nonneg self attempt Hbase).
    unfold Py.usec_per_second, gemini_calls, ollama_calls. simpl.
    rewrite app_nil_r.
    repeat split; reflexivity || lia.
Qed.

Lemma retried_trans (l1 l2 : list Z) (w1 w2 w3 : World) :
  retried self l1 w1 w2 -> retried self l2 w2 w3 ->
  retried self (l1 ++ l2) w1 w3.
Proof.
  unfold retried. intros (Hs1 & Hc1 & Hz1 & Hg1 & Ho1) (Hs2 & Hc2 & Hz2 & Hg2 & Ho2).
  repeat split.
  - congruence.
  - lia.
  - rewrite Hz2, Hz1, map_app. now rewrite app_assoc.
  - rewrite Hg2, Hg1, length_app. lia.
  - congruence.
Qed.

(** Attempts that all fail before the last one are all retried. *)
Lemma retry_loop_failing (attempts rest : list Z) :
  0 <= base_delay self ->
  forall (last_error : option string) (w : World),
    (forall a, a ∈ attempts ->
       a < max_retries self - 1
       /\ is_Some (attempt_error (reply_in env self optimized_prompt image w a))) ->
    exists w' last_error',
      retry_loop env self cache_key optimized_prompt image (attempts ++ rest)
        last_error w
      = retry_loop env self cache_key optimized_prompt image rest last_error' w'
      /\ retried self attempts w w'.
Proof.
  intros Hbase. induction attempts as [|a l IH]; intros last_error w Hall.
  - exists w, last_error. split; [reflexivity | apply retried_nil].
  - destruct (Hall a) as [Hlt [msg Hmsg]]; [apply list_elem_of_here |].
    destruct (retry_loop_retry a (l ++ rest) last_error w msg Hlt Hbase Hmsg)
      as (w1 & Hstep & Hret1).
    destruct (IH (Some msg) w1) as (w2 & le2 & Hloop & Hret2).
    { intros a' Ha'. rewrite (reply_in_session w w1 a' (proj1 Hret1)).
      apply Hall. now apply list_elem_of_further. }
    exists w2, le2. split.
    + rewrite <- Hloop. exact Hstep.
    + exact (retried_trans [a] l w w1 w2 Hret1 Hret2).
Qed.

End Steps.

Lemma range_snoc (n : Z) : 0 < n -> Py.range n = (Py.range (n - 1) ++ [n - 1])%list.
Proof.
  intros H. unfold Py.range.
  replace (Z.to_nat n) with (S (Z.to_nat (n - 1))) by lia.
  rewrite seq_S, map_app. simpl. f_equal. f_equal. lia.
Qed.

Lemma range_elem (n a : Z) : a ∈ Py.range n <-> 0 <= a < n.
Proof.
  unfold Py.range. rewrite list_elem_of_In, in_map_iff. split.
  - intros (k & <- & Hk). apply in_seq in Hk. lia.
  - intros H. exists (Z.to_nat a). split; [lia |]. apply in_seq. lia.
Qed.

Lemma range_length (n : Z) : 0 <= n -> Z.of_nat (length (Py.range n)) = n.
Proof. intros H. unfold Py.range. rewrite length_map, length_seq. lia. Qed.

(** The wait of a denial is between 1 and 60 seconds when the log holds
    nothing later than [now]. *)
Lemma rate_limit_wait_positive (now : Z) (st : SessionState) (wait_time : Z) :
  Forall (fun t => t <= now) (request_history st) ->
  (rate_limit_check now st).2 = (false, wait_time) ->
  0 < wait_time <= 60.
Proof.
  intros Hpast Hdeny.
  destruct (le_lt_dec 50 (length (last_minute now (request_history st))))
    as [Hlen | Hlen].
  - destruct (rate_limit_check_denies now st Hlen) as (first & Hhead & Hres).
    rewrite Hres in Hdeny. injection Hdeny as <-.
    assert (Hin : first ∈ last_minute now (request_history st)).
    { destruct (last_minute now (request_history st)); [discriminate |].
      injection Hhead as ->. apply list_elem_of_here. }
    apply last_minute_elem in Hin. destruct Hin as [Hin Hrecent].
    rewrite List.Forall_forall in Hpast.
    apply list_elem_of_In in Hin. apply Hpast in Hin.
    destruct (timedelta_seconds_recent (now - first)) as [-> Hb]; lia.
  - rewrite rate_limit_check_admits in Hdeny by exact Hlen. discriminate.
Qed.

(** Step 2 of [generate_uncached]. *)
Lemma run_gate {B} (k : unit -> M B) (w : World) :
  log_in_past w ->
  bind (changing rate_limit_check)
    (fun x => match x with
              | (can_proceed, wait_time) =>
                  bind (if negb can_proceed then sleep wait_time else ret tt) k
              end) w
  = k tt (after_gate w).
Proof.
  intros Hpast. rewrite run_changing. unfold after_gate, gate_sleep.
  pose proof (rate_limit_wait_positive (clock w) (session w)) as Hpos.
  destruct (rate_limit_check (clock w) (session w)) as [st' [[|] wait_time]];
    simpl in *.
  - rewrite run_ret, Z.add_0_r, app_nil_r. reflexivity.
  - rewrite run_sleep by (specialize (Hpos wait_time Hpast eq_refl); lia).
    reflexivity.
Qed.

Lemma rate_limit_check_api_key (now : Z) (st : SessionState) :
  api_key (rate_limit_check now st).1 = api_key st.
Proof.
  unfold rate_limit_check. case_bool_decide; [| reflexivity].
  destruct (last_minute now (request_history st)); reflexivity.
Qed.

Lemma sleeps_map_time_sleep (l : list Z) : sleeps (map time_sleep l) = l.
Proof. induction l as [|x l IH]; [reflexivity |]. simpl. now rewrite IH. Qed.

Lemma gemini_calls_map_time_sleep (l : list Z) :
  gemini_calls (map time_sleep l) = 0%nat.
Proof. induction l as [|x l IH]; [reflexivity | exact IH]. Qed.

Lemma ollama_calls_map_time_sleep (l : list Z) :
  ollama_calls (map time_sleep l) = 0%nat.
Proof. induction l as [|x l IH]; [reflexivity | exact IH]. Qed.

(** What [after_gate] keeps and adds. *)
Lemma after_gate_facts (w : World) :
  request_cache (session (after_gate w)) = request_cache (session w)
  /\ request_history (session (after_gate w))
     = last_minute (clock w) (request_history (session w))
  /\ api_key (session (after_gate w)) = api_key (session w)
  /\ sleeps (events (after_gate w))
     = (sleeps (events w) ++ gate_sleep (clock w) (session w))%list
  /\ gemini_calls (events (after_gate w)) = gemini_calls (events w)
  /\ ollama_calls (events (after_gate w)) = ollama_calls (events w).
Proof.
  unfold after_gate. simpl.
  rewrite sleeps_app, gemini_calls_app, ollama_calls_app.
  rewrite sleeps_map_time_sleep, gemini_calls_map_time_sleep,
    ollama_calls_map_time_sleep, !Nat.add_0_r.
  repeat split.
  - apply rate_limit_check_cache.
  - apply rate_limit_check_history.
  - apply rate_limit_check_api_key.
Qed.

Section Request.

Variable env : Providers.
Variable self : GeminiAgentSystem.
Variable prompt : string.
Variable image : option Image.
Variable num_suggestions : Z.

(** When every attempt before the last fails, the function reaches the last
    attempt having slept the backoff delay after each of them. *)
Lemma generate_uncached_to_last (w : World) :
  0 < max_retries self ->
  0 <= base_delay self ->
  log_in_past w ->
  (forall a, 0 <= a < max_retries self - 1 ->
     is_Some (attempt_error (primary_reply env self w prompt image num_suggestions a))) ->
  exists w1 last_error,
    retried self (Py.range (max_retries self - 1)) (after_gate w) w1
    /\ generate_uncached env self (request_key self prompt num_suggestions)
         prompt image num_suggestions w
       = bind (retry_loop env self (request_key self prompt num_suggestions)
                 (optimize_prompt prompt num_suggestions) image
                 [max_retries self - 1] last_error)
           (after_loop env self (request_key self prompt num_suggestions)
              (optimize_prompt prompt num_suggestions) image) w1.
Proof.
  intros Hn Hbase Hpast Hfail.
  destruct (retry_loop_failing env self (request_key self prompt num_suggestions)
              (optimize_prompt prompt num_suggestions) image
              (Py.range (max_retries self - 1)) [max_retries self - 1]
              Hbase None (after_gate w))
    as (w1 & le & Hloop & Hret).
  { intros a Ha. apply range_elem in Ha. split; [lia |].
    rewrite (reply_in_api_key env self _ image w (after_gate w))
      by apply after_gate_facts.
    now apply Hfail. }
  exists w1, le. split; [exact Hret |].
  unfold generate_uncached. rewrite run_gate by exact Hpast.
  rewrite range_snoc by exact Hn.
  cbv beta zeta. unfold bind. now rewrite Hloop.
Qed.

End Request.

(** The last iteration of the loop. *)
Lemma last_attempt_raises {B} (env : Providers) (self : GeminiAgentSystem)
    (cache_key optimized_prompt : string) (image : option Image) (attempt : Z)
    (last_error : option string) (k : LoopEnd -> M B) (w w' : World) (msg : string) :
  attempt_once env self cache_key optimized_prompt image attempt w = (Raise msg, w') ->
  bind (retry_loop env self cache_key optimized_prompt image [attempt] last_error) k w
  = (Raise msg, w').
Proof. intros H. simpl. unfold bind. now rewrite H. Qed.

Lemma last_attempt_ends {B} (env : Providers) (self : GeminiAgentSystem)
    (cache_key optimized_prompt : string) (image : option Image) (attempt : Z)
    (last_error : option string) (k : LoopEnd -> M B) (w w' : World)
    (signal : LoopSignal) :
  attempt_once env self cache_key optimized_prompt image attempt w = (Ok signal, w') ->
  bind (retry_loop env self cache_key optimized_prompt image [attempt] last_error) k w
  = k (match signal with
       | Return result => Returned result
       | Break e | Continue e => Left (Some e)
       end) w'.
Proof. intros H. simpl. unfold bind. rewrite H. destruct signal; reflexivity. Qed.

Lemma retried_reply (env : Providers) (self : GeminiAgentSystem)
    (prompt : string) (image : option Image) (num_suggestions : Z)
    (attempts : list Z) (w w1 : World) (a : Z) :
  retried self attempts (after_gate w) w1 ->
  reply_in env self (optimize_prompt prompt num_suggestions) image w1 a
  = primary_reply env self w prompt image num_suggestions a.
Proof.
  intros Hret. unfold primary_reply. apply reply_in_api_key.
  destruct Hret as [-> _]. apply after_gate_facts.
Qed.

(** The facts about the world that the scenarios are stated with, carried
    from the start of the request to the last attempt. *)
Lemma retried_facts (self : GeminiAgentSystem) (w w1 : World) :
  retried self (Py.range (max_retries self - 1)) (after_gate w) w1 ->
  0 < max_retries self ->
  request_cache (session w1) = request_cache (session w)
  /\ request_history (session w1)
     = last_minute (clock w) (request_history (session w))
  /\ sleeps (events w1)
     = (sleeps (events w) ++ gate_sleep (clock w) (session w)
          ++ map (exponential_backoff self) (Py.range (max_retries self - 1)))%list
  /\ S (gemini_calls (events w1))
     = (gemini_calls (events w) + Z.to_nat (max_retries self))%nat
  /\ ollama_calls (events w1) = ollama_calls (events w).
Proof.
  intros (Hs & _ & Hz & Hg & Ho) Hn.
  destruct (after_gate_facts w) as (Hc & Hh & _ & Hz' & Hg' & Ho').
  rewrite Hs, Hz, Hg, Ho, Hz', Hg', Ho', <- app_assoc.
  repeat split; try assumption.
  pose proof (range_length (max_retries self - 1)). lia.
Qed.

(** ** End-to-end scenarios *)

(** C3: when every attempt of the primary provider is blocked for safety
    (an empty response, or an error whose message the last attempt classes as
    a safety block) and no fallback model is set, [generate_with_retry] raises
    the safety error once the attempts are used up: the provider has been
    called [max_retries] times, with the backoff sleeps in between, the local
    server has not been called and the cache is as it was. *)
Theorem safety_blocked_without_fallback (env : Providers) (self : GeminiAgentSystem)
    (prompt : string) (image : option Image) (num_suggestions : Z) (w : World) :
  Py.truthy_opt (check_cache (clock w) (session w)
                   (request_key self prompt num_suggestions)) = false ->
  log_in_past w ->
  0 < max_retries self ->
  0 <= base_delay self ->
  Py.truthy_opt (ollama_model self) = false ->
  (forall a, 0 <= a < max_retries self ->
     exists msg,
       attempt_error (primary_reply env self w prompt image num_suggestions a)
       = Some msg
       /\ final_error_kind msg = SafetyBlocked) ->
  let r := generate_with_retry env self prompt image num_suggestions w in
  r.1 = Raise "Content blocked by safety filters"
  /\ request_cache (session r.2) = request_cache (session w)
  /\ gemini_calls (events r.2)
     = (gemini_calls (events w) + Z.to_nat (max_retries self))%nat
  /\ sleeps (events r.2)
     = (sleeps (events w) ++ gate_sleep (clock w) (session w)
          ++ map (exponential_backoff self) (Py.range (max_retries self - 1)))%list
  /\ ollama_calls (events r.2) = ollama_calls (events w).
Proof.
  intros Hmiss Hpast Hn Hbase Hfb Hblocked r. subst r.
  unfold generate_with_retry. rewrite run_reading.
  fold (request_key self prompt num_suggestions). rewrite Hmiss.
  destruct (generate_uncached_to_last env self prompt image num_suggestions w
              Hn Hbase Hpast) as (w1 & le & Hret & ->).
  { intros a Ha. destruct (Hblocked a) as (msg & -> & _); [lia | eauto]. }
  destruct (Hblocked (max_retries self - 1)) as (msg & Hmsg & Hkind); [lia |].
  rewrite <- (retried_reply env self prompt image num_suggestions _ w w1 _ Hret)
    in Hmsg.
  erewrite last_attempt_raises; cycle 1.
  { rewrite (attempt_once_error _ _ _ _ _ _ _ _ Hmsg).
    apply on_error_last_safety; [lia | exact Hkind | exact Hfb]. }
  destruct (retried_facts self w w1 Hret Hn) as (Hc & _ & Hz & Hg & Ho).
  unfold after_call, attempt_events. simpl.
  rewrite !sleeps_app, !gemini_calls_app, !ollama_calls_app.
  unfold gemini_calls at 2 3, ollama_calls at 2 3. simpl.
  rewrite !app_nil_r, Hz, Ho.
  repeat split; try assumption; lia.
Qed.

(** Step 5 when the local server answers with a non-empty text. *)
Lemma try_ollama_success (env : Providers) (self : GeminiAgentSystem)
    (cache_key optimized_prompt : string) (image : option Image) (w : World)
    (model : string) (image_base64 : option string) (result : string) :
  ollama_model self = Some model ->
  Py.truthy model = true ->
  encoded_image env image = Some image_base64 ->
  http_result (ollama_server env (ollama_payload model optimized_prompt image_base64))
  = http_json_response result ->
  Py.truthy result = true ->
  exists w',
    try_ollama env self cache_key optimized_prompt image w
    = (Ok (Some ((result ++ ollama_note)%string, ollama_tag model)), w')
    /\ session w'
       = save_to_cache (clock w') (session w) cache_key (result ++ ollama_note)
    /\ sleeps (events w') = sleeps (events w)
    /\ gemini_calls (events w') = gemini_calls (events w)
    /\ ollama_calls (events w') = S (ollama_calls (events w)).
Proof.
  intros Hmodel Htruthy Himg Hhttp Hres.
  unfold try_ollama. rewrite Hmodel, Htruthy.
  unfold encoded_image in Himg.
  destruct image as [img |].
  - destruct (pil_png_base64 env img) as [b64 |] eqn:Hb64; [| discriminate].
    injection Himg as <-.
    eexists. split; [| split; [| split; [| split]]].
    + apply run_try_ok. unfold encode_image, generate_with_ollama.
      run_monad. rewrite Hb64. run_monad. rewrite Hhttp. run_monad.
      rewrite Hres. run_monad. reflexivity.
    + reflexivity.
    + simpl. now rewrite !sleeps_app, !app_nil_r.
    + simpl. rewrite !gemini_calls_app. unfold gemini_calls at 2 3 4 5. simpl. lia.
    + simpl. rewrite !ollama_calls_app. unfold ollama_calls at 2 3 4 5. simpl. lia.
  - injection Himg as <-.
    eexists. split; [| split; [| split; [| split]]].
    + apply run_try_ok. unfold generate_with_ollama.
      run_monad. rewrite Hhttp. run_monad. rewrite Hres. run_monad.
      reflexivity.
    + reflexivity.
    + simpl. now rewrite !sleeps_app, !app_nil_r.
    + simpl. rewrite !gemini_calls_app. unfold gemini_calls at 2 3 4. simpl. lia.
    + simpl. rewrite !ollama_calls_app. unfold ollama_calls at 2 3 4. simpl. lia.
Qed.

Lemma contains_ollama_tag (model : string) :
  Py.contains model (ollama_tag model) = true.
Proof. apply contains_spec. exists "Ollama (", ")". reflexivity. Qed.

(** C1, as amended: an invalid-credential error is told apart on the last
    attempt only. When the attempts before the last have failed, whatever
    their errors, and the error of the last attempt, an ASCII message, is
    classed as an invalid credential, [generate_with_retry] raises the
    invalid-key error at once: the local server is not called, even with a
    fallback model set, and the cache is as it was. The earlier attempts have
    each been followed by their backoff sleep. *)
Theorem invalid_credential_on_last_attempt (env : Providers)
    (self : GeminiAgentSystem) (prompt : string) (image : option Image)
    (num_suggestions : Z) (w : World) (msg : string) :
  Py.truthy_opt (check_cache (clock w) (session w)
                   (request_key self prompt num_suggestions)) = false ->
  log_in_past w ->
  0 < max_retries self ->
  0 <= base_delay self ->
  (forall a, 0 <= a < max_retries self - 1 ->
     is_Some (attempt_error
                (primary_reply env self w prompt image num_suggestions a))) ->
  attempt_error
    (primary_reply env self w prompt image num_suggestions (max_retries self - 1))
  = Some msg ->
  Py.isascii msg = true ->
  final_error_kind msg = InvalidCredential ->
  let r := generate_with_retry env self prompt image num_suggestions w in
  r.1 = Raise "Invalid API key. Please check your Gemini API key."
  /\ request_cache (session r.2) = request_cache (session w)
  /\ ollama_calls (events r.2) = ollama_calls (events w)
  /\ gemini_calls (events r.2)
     = (gemini_calls (events w) + Z.to_nat (max_retries self))%nat
  /\ sleeps (events r.2)
     = (sleeps (events w) ++ gate_sleep (clock w) (session w)
          ++ map (exponential_backoff self) (Py.range (max_retries self - 1)))%list.
Proof.
  intros Hmiss Hpast Hn Hbase Hfail Hmsg _ Hkind r. subst r.
  unfold generate_with_retry. rewrite run_reading.
  fold (request_key self prompt num_suggestions). rewrite Hmiss.
  destruct (generate_uncached_to_last env self prompt image num_suggestions w
              Hn Hbase Hpast Hfail) as (w1 & le & Hret & ->).
  rewrite <- (retried_reply env self prompt image num_suggestions _ w w1 _ Hret)
    in Hmsg.
  erewrite last_attempt_raises; cycle 1.
  { rewrite (attempt_once_error _ _ _ _ _ _ _ _ Hmsg).
    apply on_error_last_credential; [lia | exact Hkind]. }
  destruct (retried_facts self w w1 Hret Hn) as (Hc & _ & Hz & Hg & Ho).
  unfold after_call, attempt_events. simpl.
  rewrite !sleeps_app, !gemini_calls_app, !ollama_calls_app.
  unfold gemini_calls at 2, ollama_calls at 2. simpl.
  rewrite !app_nil_r, Hz, Ho.
  repeat split; try assumption; lia.
Qed.

Lemma range_cons (n : Z) : 0 < n -> exists rest, Py.range n = 0 :: rest.
Proof.
  intros H. unfold Py.range.
  destruct (Z.to_nat n) as [|k] eqn:E; [lia |].
  simpl. eauto.
Qed.

(** C4: when no usable entry is cached for the request and the primary
    provider answers the first attempt with a non-empty text,
    [generate_with_retry] returns that text tagged with the primary model id
    after one call of the provider and no backoff sleep; the request log is
    the pruned log followed by one new timestamp, and the cache differs from
    the cache of the start by the one entry of the request key, which holds
    the text (one entry more if the key was not in the map). *)
Theorem first_attempt_success (env : Providers) (self : GeminiAgentSystem)
    (prompt : string) (image : option Image) (num_suggestions : Z) (w : World)
    (text : string) :
  check_cache (clock w) (session w) (request_key self prompt num_suggestions)
  = None ->
  log_in_past w ->
  0 < max_retries self ->
  gemini_result (primary_reply env self w prompt image num_suggestions 0)
  = Ok text ->
  Py.truthy text = true ->
  let r := generate_with_retry env self prompt image num_suggestions w in
  r.1 = Ok (text, primary_model self)
  /\ request_history (session r.2)
     = (last_minute (clock w) (request_history (session w)) ++ [clock r.2])%list
  /\ request_cache (session r.2)
     = <[request_key self prompt num_suggestions :=
           {| response := text; timestamp := clock r.2 |}]>
         (request_cache (session w))
  /\ (request_cache (session w) !! request_key self prompt num_suggestions = None ->
      size (request_cache (session r.2)) = S (size (request_cache (session w))))
  /\ sleeps (events r.2)
     = (sleeps (events w) ++ gate_sleep (clock w) (session w))%list
  /\ gemini_calls (events r.2) = S (gemini_calls (events w))
  /\ ollama_calls (events r.2) = ollama_calls (events w).
Proof.
  intros Hmiss Hpast Hn Hreply Htext r. subst r.
  unfold generate_with_retry. rewrite run_reading.
  fold (request_key self prompt num_suggestions). rewrite Hmiss. simpl.
  unfold generate_uncached. rewrite run_gate by exact Hpast. cbv beta zeta.
  destruct (range_cons (max_retries self) Hn) as [rest ->].
  destruct (after_gate_facts w) as (Hc & Hh & Hk & Hz & Hg & Ho).
  unfold primary_reply in Hreply.
  rewrite <- (reply_in_api_key env self _ image w (after_gate w) 0 Hk) in Hreply.
  remember (after_gate w) as wg eqn:Hwg. clear Hwg.
  simpl retry_loop. unfold bind.
  rewrite (attempt_once_success env self _ _ image 0 wg text Hreply Htext).
  simpl. unfold after_call, attempt_events. simpl.
  rewrite !sleeps_app, !gemini_calls_app, !ollama_calls_app.
  unfold gemini_calls at 2 3, ollama_calls at 2 3. simpl.
  rewrite !app_nil_r, Hc, Hh, Hz, Hg, Ho.
  split; [reflexivity |]. split; [reflexivity |]. split; [reflexivity |].
  split; [apply map_size_insert_None |].
  split; [reflexivity |]. split; lia.
Qed.

(** ** The trace only grows *)

Lemma grows_ret {A} (a : A) : grows (ret a).
Proof. intros w. reflexivity. Qed.

Lemma grows_raise {A} (msg : string) : grows (@raise A msg).
Proof. intros w. reflexivity. Qed.

Lemma grows_emit (e : Event) : grows (emit e).
Proof. intros w. simpl. now apply prefix_app_r. Qed.

Lemma grows_advance (usec : Z) : grows (advance usec).
Proof. intros w. reflexivity. Qed.

Lemma grows_reading {A} (f : Z -> SessionState -> A) : grows (reading f).
Proof. intros w. reflexivity. Qed.

Lemma grows_changing {A} (f : Z -> SessionState -> SessionState * A) :
  grows (changing f).
Proof.
  intros w. unfold changing. destruct (f (clock w) (session w)). reflexivity.
Qed.

Lemma bind_grows_from {A B} (m : M A) (f : A -> M B) (w : World) :
  (forall a, grows (f a)) ->
  events (m w).2 `prefix_of` events (bind m f w).2.
Proof.
  intros Hf. unfold bind. destruct (m w) as [[a | msg] w']; simpl.
  - apply Hf.
  - reflexivity.
Qed.

Lemma grows_bind {A B} (m : M A) (f : A -> M B) :
  grows m -> (forall a, grows (f a)) -> grows (bind m f).
Proof.
  intros Hm Hf w. etransitivity; [apply Hm | now apply bind_grows_from].
Qed.

Lemma grows_try {A} (body : M A) (handler : string -> M A) :
  grows body -> (forall msg, grows (handler msg)) -> grows (try_except body handler).
Proof.
  intros Hb Hh w. unfold try_except. specialize (Hb w).
  destruct (body w) as [[a | msg] w']; simpl in *.
  - exact Hb.
  - etransitivity; [exact Hb | apply Hh].
Qed.

Lemma grows_sleep (seconds : Z) : grows (sleep seconds).
Proof.
  unfold sleep. case_bool_decide.
  - apply grows_raise.
  - apply grows_bind; [apply grows_emit | intros _; apply grows_advance].
Qed.

(** Breaks a computation into its primitives. *)
Ltac grows_steps :=
  repeat first
    [ apply grows_ret | apply grows_raise | apply grows_emit
    | apply grows_advance | apply grows_reading | apply grows_changing
    | apply grows_sleep
    | apply grows_bind; [| intros ?]
    | apply grows_try; [| intros ?]
    | match goal with
      | |- grows (if ?b then _ else _) => destruct b
      | |- grows (match ?x with _ => _ end) => destruct x
      end ].

Section Grows.

Variable env : Providers.
Variable self : GeminiAgentSystem.

Lemma grows_on_error (attempt : Z) (msg : string) :
  grows (on_error self attempt msg).
Proof. unfold on_error. grows_steps. Qed.

Lemma grows_gemini_call (attempt : Z) (p : string) (image : option Image) :
  grows (gemini_call env self attempt p image).
Proof. unfold gemini_call. grows_steps. Qed.

Lemma grows_attempt_once (cache_key p : string) (image : option Image)
    (attempt : Z) :
  grows (attempt_once env self cache_key p image attempt).
Proof.
  unfold attempt_once. apply grows_try.
  - apply grows_bind; [apply grows_emit | intros _].
    apply grows_bind; [apply grows_gemini_call | intros text].
    grows_steps.
  - intros msg. apply grows_on_error.
Qed.

Lemma grows_retry_loop (cache_key p : string) (image : option Image)
    (attempts : list Z) :
  forall last_error,
    grows (retry_loop env self cache_key p image attempts last_error).
Proof.
  induction attempts as [|a l IH]; intros last_error; simpl.
  - apply grows_ret.
  - apply grows_bind; [apply grows_attempt_once | intros signal].
    destruct signal; [apply IH | apply grows_ret | apply grows_ret].
Qed.

Lemma grows_encode_image (img : Image) : grows (encode_image env img).
Proof. unfold encode_image. grows_steps. Qed.

Lemma grows_generate_with_ollama (model p : string) (b64 : option string) :
  grows (generate_with_ollama env model p b64).
Proof. unfold generate_with_ollama. grows_steps. Qed.

Lemma grows_try_ollama (cache_key p : string) (image : option Image) :
  grows (try_ollama env self cache_key p image).
Proof.
  unfold try_ollama.
  destruct (ollama_model self) as [model |]; [| apply grows_ret].
  destruct (Py.truthy model); [| apply grows_ret].
  apply grows_try; [| intros msg; grows_steps].
  apply grows_bind; [apply grows_emit | intros _].
  apply grows_bind.
  - destruct image as [img |]; [| apply grows_ret].
    apply grows_bind; [apply grows_encode_image | intros b64; apply grows_ret].
  - intros b64.
    apply grows_bind; [apply grows_generate_with_ollama | intros result].
    grows_steps.
Qed.

Lemma grows_after_loop (cache_key p : string) (image : option Image)
    (loop_end : LoopEnd) :
  grows (after_loop env self cache_key p image loop_end).
Proof.
  unfold after_loop. destruct loop_end as [result | last_error].
  - apply grows_ret.
  - apply grows_bind; [apply grows_try_ollama | intros fallback].
    destruct fallback; [apply grows_ret | apply grows_raise].
Qed.

(** An attempt always calls the provider. *)
Lemma attempt_once_calls (cache_key p : string) (image : option Image)
    (attempt : Z) (w : World) :
  (events w ++ attempt_events self p image w)%list
    `prefix_of` events (attempt_once env self cache_key p image attempt w).2.
Proof.
  destruct (attempt_error (reply_in env self p image w attempt)) as [msg |] eqn:E.
  - rewrite (attempt_once_error env self cache_key p image attempt w msg E).
    apply (grows_on_error attempt msg (after_call env self p image w attempt)).
  - unfold attempt_error in E.
    destruct (gemini_result (reply_in env self p image w attempt)) as [text |] eqn:R;
      [| discriminate].
    destruct (Py.truthy text) eqn:T; [| discriminate].
    rewrite (attempt_once_success env self cache_key p image attempt w text R T).
    simpl. now apply prefix_app_r.
Qed.

End Grows.

Lemma generate_uncached_grows (env : Providers) (self : GeminiAgentSystem)
    (cache_key prompt : string) (image : option Image) (num_suggestions : Z) :
  grows (generate_uncached env self cache_key prompt image num_suggestions).
Proof.
  unfold generate_uncached.
  apply grows_bind; [apply grows_changing | intros [can_proceed wait_time]].
  apply grows_bind.
  - destruct (negb can_proceed); [apply grows_sleep | apply grows_ret].
  - intros _. cbv zeta.
    apply grows_bind; [apply grows_retry_loop | intros loop_end].
    apply grows_after_loop.
Qed.

(** Every path of [generate_with_retry] only adds to the trace. *)
Lemma generate_with_retry_grows (env : Providers) (self : GeminiAgentSystem)
    (prompt : string) (image : option Image) (num_suggestions : Z) :
  grows (generate_with_retry env self prompt image num_suggestions).
Proof.
  unfold generate_with_retry.
  apply grows_bind; [apply grows_reading | intros cached].
  destruct (Py.truthy_opt cached).
  - grows_steps.
  - apply generate_uncached_grows.
Qed.

Lemma gemini_calls_attempt_events (self : GeminiAgentSystem) (p : string)
    (image : option Image) (w : World) :
  gemini_calls (attempt_events self p image w) = 1%nat.
Proof. reflexivity. Qed.

(** After a miss, the rate gate is passed and the provider is called. *)
Lemma generate_uncached_calls (env : Providers) (self : GeminiAgentSystem)
    (cache_key prompt : string) (image : option Image) (num_suggestions : Z)
    (w : World) :
  log_in_past w ->
  0 < max_retries self ->
  (events w ++ map time_sleep (gate_sleep (clock w) (session w))
     ++ attempt_events self (optimize_prompt prompt num_suggestions) image w)%list
    `prefix_of`
    events (generate_uncached env self cache_key prompt image num_suggestions w).2.
Proof.
  intros Hpast Hn. unfold generate_uncached.
  rewrite run_gate by exact Hpast. cbv beta zeta.
  destruct (range_cons (max_retries self) Hn) as [rest ->].
  simpl retry_loop. rewrite run_bind.
  etransitivity; [| apply bind_grows_from].
  - rewrite app_assoc.
    replace (attempt_events self (optimize_prompt prompt num_suggestions) image w)
      with (attempt_events self (optimize_prompt prompt num_suggestions) image
              (after_gate w)).
    + apply (attempt_once_calls env self cache_key _ image 0 (after_gate w)).
    + unfold attempt_events.
      now rewrite (proj1 (proj2 (proj2 (after_gate_facts w)))).
  - intros signal. apply grows_bind; [| intros loop_end; apply grows_after_loop].
    destruct signal; [apply grows_retry_loop | apply grows_ret | apply grows_ret].
Qed.

(** A fresh entry with a non-empty response is returned without a call. *)
Lemma fresh_hit_returns_cached (env : Providers) (self : GeminiAgentSystem)
    (prompt : string) (image : option Image) (num_suggestions : Z) (w : World)
    (cached : string) :
  check_cache (clock w) (session w) (request_key self prompt num_suggestions)
  = Some cached ->
  Py.truthy cached = true ->
  generate_with_retry env self prompt image num_suggestions w
  = (Ok (cached, "cache"),
     {| session := session w; clock := clock w;
        events := events w ++ [st_info "✨ Using cached response"] |}).
Proof.
  intros Hhit Htruthy. unfold generate_with_retry. rewrite run_reading.
  fold (request_key self prompt num_suggestions). rewrite Hhit. simpl.
  rewrite Htruthy. reflexivity.
Qed.

(** C10: when the entry cached for the request is fresh and its response is
    the empty string, [check_cache] returns that empty string, a hit, and
    [generate_with_retry] goes on as it does after a miss: what it does is
    what [generate_uncached] does, and (with at least one attempt allowed and
    a log that holds nothing later than the clock) that is to pass the rate
    gate and call the primary provider, so the trace gains a provider call
    and the result is not the cached response tagged "cache" with only the
    cache notice shown. *)
Theorem empty_cached_response_is_a_miss (env : Providers) (self : GeminiAgentSystem)
    (prompt : string) (image : option Image) (num_suggestions : Z) (w : World)
    (entry : CachedData) :
  request_cache (session w) !! request_key self prompt num_suggestions
  = Some entry ->
  response entry = EmptyString ->
  clock w - timestamp entry < Py.timedelta_hours 1 ->
  let r := generate_with_retry env self prompt image num_suggestions w in
  check_cache (clock w) (session w) (request_key self prompt num_suggestions)
  = Some EmptyString
  /\ r = generate_uncached env self (request_key self prompt num_suggestions)
           prompt image num_suggestions w
  /\ (log_in_past w ->
      0 < max_retries self ->
      (events w ++ map time_sleep (gate_sleep (clock w) (session w))
         ++ attempt_events self (optimize_prompt prompt num_suggestions) image w)%list
        `prefix_of` events r.2
      /\ (gemini_calls (events w) < gemini_calls (events r.2))%nat
      /\ r <> (Ok (EmptyString, "cache"),
               {| session := session w; clock := clock w;
                  events := events w ++ [st_info "✨ Using cached response"] |})).
Proof.
  intros Hentry Hempty Hfresh r.
  assert (Hhit : check_cache (clock w) (session w)
                   (request_key self prompt num_suggestions) = Some EmptyString).
  { unfold check_cache. rewrite Hentry.
    rewrite bool_decide_eq_true_2 by exact Hfresh. now rewrite Hempty. }
  assert (Hr : r = generate_uncached env self
                     (request_key self prompt num_suggestions)
                     prompt image num_suggestions w).
  { subst r. unfold generate_with_retry. rewrite run_reading.
    fold (request_key self prompt num_suggestions). now rewrite Hhit. }
  split; [exact Hhit |]. split; [exact Hr |].
  intros Hpast Hn.
  assert (Hpre : (events w ++ map time_sleep (gate_sleep (clock w) (session w))
                    ++ attempt_events self (optimize_prompt prompt num_suggestions)
                         image w)%list `prefix_of` events r.2).
  { rewrite Hr. now apply generate_uncached_calls. }
  assert (Hcalls : (gemini_calls (events w) < gemini_calls (events r.2))%nat).
  { destruct Hpre as [rest ->].
    rewrite !gemini_calls_app, gemini_calls_map_time_sleep,
      gemini_calls_attempt_events. lia. }
  split; [exact Hpre |]. split; [exact Hcalls |].
  intros Heq. rewrite Heq in Hcalls. simpl in Hcalls.
  rewrite gemini_calls_app in Hcalls. unfold gemini_calls at 3 in Hcalls.
  simpl in Hcalls. lia.
Qed.

(** ** The scenarios on concrete collaborators *)

(** C1 as the specification words it does not hold: with a key that the
    provider rejects on every attempt, the first error is an invalid
    credential and yet the provider is called three times, with sleeps of 3
    and 6 seconds in between, before the invalid-key error is raised. *)
Lemma invalid_credential_is_retried :
  ~ fails_at_first_invalid_credential env_invalid_key init "hello" None 3 new_world.
Proof.
  unfold fails_at_first_invalid_credential. intros H.
  destruct H as (_ & Hcalls & _).
  - exists invalid_key_message. split; reflexivity.
  - vm_compute in Hcalls. discriminate.
Qed.

Example invalid_credential_run :
  let r := generate_with_retry env_invalid_key init "hello" None 3 new_world in
  r.1 = Raise "Invalid API key. Please check your Gemini API key."
  /\ gemini_calls (events r.2) = 3%nat
  /\ sleeps (events r.2) = [3; 6].
Proof. vm_compute. repeat split. Qed.

Example invalid_credential_then_success :
  let r := generate_with_retry env_invalid_key_once init "hello" None 3 new_world in
  r.1 = Ok ("**Reply 1:** Sure!", "gemini-2.0-flash-exp")
  /\ gemini_calls (events r.2) = 2%nat
  /\ sleeps (events r.2) = [3]
  /\ request_cache (session r.2) !! request_key init "hello" 3
     = Some {| response := "**Reply 1:** Sure!"; timestamp := 1700000003500000 |}.
Proof. vm_compute. repeat split. Qed.

Lemma invalid_credential_on_last_attempt_witness :
  let r := generate_with_retry env_invalid_key init "hello" None 3 new_world in
  r.1 = Raise "Invalid API key. Please check your Gemini API key."
  /\ request_cache (session r.2) = request_cache (session new_world)
  /\ ollama_calls (events r.2) = ollama_calls (events new_world)
  /\ gemini_calls (events r.2)
     = (gemini_calls (events new_world) + Z.to_nat (max_retries init))%nat
  /\ sleeps (events r.2)
     = (sleeps (events new_world)
          ++ gate_sleep (clock new_world) (session new_world)
          ++ map (exponential_backoff init) (Py.range (max_retries init - 1)))%list.
Proof.
  apply (invalid_credential_on_last_attempt env_invalid_key init "hello" None 3
           new_world invalid_key_message).
  - reflexivity.
  - constructor.
  - reflexivity.
  - vm_compute. discriminate.
  - intros a _. exists invalid_key_message. reflexivity.
  - reflexivity.
  - reflexivity.
  - reflexivity.
Defined.

Lemma safety_blocked_without_fallback_witness :
  let r := generate_with_retry env_blocked init "hello" None 3 new_world in
  r.1 = Raise "Content blocked by safety filters"
  /\ request_cache (session r.2) = request_cache (session new_world)
  /\ gemini_calls (events r.2) = 3%nat.
Proof.
  destruct (safety_blocked_without_fallback env_blocked init "hello" None 3
              new_world) as (Hr & Hc & Hg & _).
  - reflexivity.
  - constructor.
  - reflexivity.
  - vm_compute. discriminate.
  - reflexivity.
  - intros a _. exists "Response was blocked or empty". split; reflexivity.
  - repeat split; assumption.
Defined.

Lemma first_attempt_success_witness :
  let r := generate_with_retry env_ok init "hello" None 3 new_world in
  r.1 = Ok ("**Reply 1:** Sure!", primary_model init)
  /\ request_history (session r.2) = [clock r.2]
  /\ size (request_cache (session r.2)) = 1%nat
  /\ gemini_calls (events r.2) = 1%nat.
Proof.
  destruct (first_attempt_success env_ok init "hello" None 3 new_world
              "**Reply 1:** Sure!") as (Hr & Hh & _ & Hsize & _ & Hg & _).
  - reflexivity.
  - constructor.
  - reflexivity.
  - reflexivity.
  - reflexivity.
  - split; [exact Hr |]. split; [exact Hh |].
    split; [apply Hsize; reflexivity | exact Hg].
Defined.

Lemma empty_cached_response_is_a_miss_witness :
  let r := generate_with_retry env_ok init "hello" None 3 world_with_empty_entry in
  check_cache (clock world_with_empty_entry) (session world_with_empty_entry)
    (request_key init "hello" 3) = Some EmptyString
  /\ (gemini_calls (events world_with_empty_entry) < gemini_calls (events r.2))%nat.
Proof.
  destruct (empty_cached_response_is_a_miss env_ok init "hello" None 3
              world_with_empty_entry
              {| response := EmptyString; timestamp := 1699999999000000 |})
    as (Hhit & _ & Hcall).
  - apply lookup_insert_eq.
  - reflexivity.
  - reflexivity.
  - split; [exact Hhit |]. apply Hcall; [constructor | reflexivity].
Defined.

Example empty_cached_response_run :
  (generate_with_retry env_ok init "hello" None 3 world_with_empty_entry).1
  = Ok ("**Reply 1:** Sure!", "gemini-2.0-flash-exp").
Proof. vm_compute. reflexivity. Qed.

(** ** The request log stays in the past

    The scenarios above ask for a log with no timestamp later than the
    clock. A new session has such a log and every request leaves one. *)

Lemma keeps_ret {A} (I : World -> Prop) (a : A) : keeps I (ret a).
Proof. intros w H. exact H. Qed.

Lemma keeps_raise {A} (I : World -> Prop) (msg : string) : keeps I (@raise A msg).
Proof. intros w H. exact H. Qed.

Lemma keeps_reading {A} (I : World -> Prop) (f : Z -> SessionState -> A) :
  keeps I (reading f).
Proof. intros w H. exact H. Qed.

Lemma keeps_bind {A B} (I : World -> Prop) (m : M A) (f : A -> M B) :
  keeps I m -> (forall a, keeps I (f a)) -> keeps I (bind m f).
Proof.
  intros Hm Hf w H. unfold bind. specialize (Hm w H).
  destruct (m w) as [[a | msg] w']; simpl in *; [now apply Hf | exact Hm].
Qed.

Lemma keeps_try {A} (I : World -> Prop) (body : M A) (handler : string -> M A) :
  keeps I body -> (forall msg, keeps I (handler msg)) ->
  keeps I (try_except body handler).
Proof.
  intros Hb Hh w H. unfold try_except. specialize (Hb w H).
  destruct (body w) as [[a | msg] w']; simpl in *; [exact Hb | now apply Hh].
Qed.

Lemma log_in_past_emit (e : Event) : keeps log_in_past (emit e).
Proof. intros w H. exact H. Qed.

Lemma log_in_past_advance (usec : Z) :
  0 <= usec -> keeps log_in_past (advance usec).
Proof.
  intros Hnn w H. unfold log_in_past in *. simpl.
  eapply Forall_impl; [exact H |]. simpl. intros t Ht. lia.
Qed.

Lemma log_in_past_sleep (seconds : Z) : keeps log_in_past (sleep seconds).
Proof.
  unfold sleep. case_bool_decide; [apply keeps_raise |].
  apply keeps_bind; [apply log_in_past_emit | intros _].
  apply log_in_past_advance. unfold Py.usec_per_second. lia.
Qed.

Lemma log_in_past_rate_limit_check :
  keeps log_in_past (changing rate_limit_check).
Proof.
  intros w H. unfold log_in_past, changing in *.
  pose proof (rate_limit_check_history (clock w) (session w)) as Hh.
  destruct (rate_limit_check (clock w) (session w)) as [st' res]. simpl in *.
  rewrite Hh. apply List.Forall_forall. intros t Ht.
  apply list_elem_of_In in Ht. apply last_minute_elem in Ht.
  destruct Ht as [Ht _]. apply list_elem_of_In in Ht.
  rewrite List.Forall_forall in H. now apply H.
Qed.

Lemma log_in_past_log_request :
  keeps log_in_past (changing (fun now st => (log_request now st, tt))).
Proof.
  intros w H. unfold log_in_past in *. simpl.
  apply Forall_app. split; [exact H |]. constructor; [lia | constructor].
Qed.

Lemma log_in_past_save_to_cache (cache_key text : string) :
  keeps log_in_past
    (changing (fun now st => (save_to_cache now st cache_key text, tt))).
Proof. intros w H. exact H. Qed.

(** Breaks a computation into its primitives. *)
Ltac keeps_steps :=
  repeat first
    [ apply keeps_ret | apply keeps_raise | apply keeps_reading
    | apply log_in_past_emit | apply log_in_past_sleep
    | apply log_in_past_rate_limit_check | apply log_in_past_log_request
    | apply log_in_past_save_to_cache
    | apply log_in_past_advance; apply N2Z.is_nonneg
    | apply keeps_bind; [| intros ?]
    | apply keeps_try; [| intros ?]
    | match goal with
      | |- keeps _ (if ?b then _ else _) => destruct b
      | |- keeps _ (match ?x with _ => _ end) => destruct x
      end ].

Lemma log_in_past_retry_loop (env : Providers) (self : GeminiAgentSystem)
    (cache_key p : string) (image : option Image) (attempts : list Z) :
  forall last_error,
    keeps log_in_past (retry_loop env self cache_key p image attempts last_error).
Proof.
  induction attempts as [|a l IH]; intros last_error; simpl.
  - apply keeps_ret.
  - apply keeps_bind.
    + unfold attempt_once, gemini_call, on_error. keeps_steps.
    + intros signal.
      destruct signal; [apply IH | apply keeps_ret | apply keeps_ret].
Qed.

(** A request leaves the log in the past. *)
Lemma generate_with_retry_keeps_log_in_past (env : Providers)
    (self : GeminiAgentSystem) (prompt : string) (image : option Image)
    (num_suggestions : Z) :
  keeps log_in_past (generate_with_retry env self prompt image num_suggestions).
Proof.
  unfold generate_with_retry.
  apply keeps_bind; [apply keeps_reading | intros cached].
  destruct (Py.truthy_opt cached); [keeps_steps |].
  unfold generate_uncached.
  apply keeps_bind; [apply log_in_past_rate_limit_check | intros [can wait_time]].
  apply keeps_bind; [destruct (negb can); keeps_steps | intros _; cbv zeta].
  apply keeps_bind; [apply log_in_past_retry_loop | intros loop_end].
  unfold after_loop, try_ollama, encode_image, generate_with_ollama.
  keeps_steps.
Qed.

Lemma new_world_log_in_past : log_in_past new_world.
Proof. constructor. Qed.

(** * Further properties of the code *)

(** ** What every returned value satisfies *)

Lemma ensures_raise {A} (msg : string) (Q : A -> World -> Prop) :
  ensures (raise msg) Q.
Proof. intros w a w' H. discriminate. Qed.

Lemma ensures_ret {A} (a : A) (Q : A -> World -> Prop) :
  (forall w, Q a w) -> ensures (ret a) Q.
Proof. intros HQ w b w' H. injection H as <- <-. apply HQ. Qed.

Lemma bind_ok_inv {A B} (m : M A) (f : A -> M B) (w w' : World) (b : B) :
  bind m f w = (Ok b, w') ->
  exists a w1, m w = (Ok a, w1) /\ f a w1 = (Ok b, w').
Proof.
  unfold bind. destruct (m w) as [[a | msg] w1]; [eauto | discriminate].
Qed.

Lemma ensures_bind {A B} (m : M A) (f : A -> M B) (Q : B -> World -> Prop) :
  (forall a, ensures (f a) Q) -> ensures (bind m f) Q.
Proof.
  intros Hf w b w' H. apply bind_ok_inv in H.
  destruct H as (a & w1 & _ & H). exact (Hf a w1 b w' H).
Qed.

Lemma ensures_bind_with {A B} (P : A -> World -> Prop) (m : M A) (f : A -> M B)
    (Q : B -> World -> Prop) :
  ensures m P ->
  (forall a w b w', P a w -> f a w = (Ok b, w') -> Q b w') ->
  ensures (bind m f) Q.
Proof.
  intros Hm Hf w b w' H. apply bind_ok_inv in H.
  destruct H as (a & w1 & Hrun & H). exact (Hf a w1 b w' (Hm w a w1 Hrun) H).
Qed.

Lemma ensures_try {A} (body : M A) (handler : string -> M A)
    (Q : A -> World -> Prop) :
  ensures body Q -> (forall msg, ensures (handler msg) Q) ->
  ensures (try_except body handler) Q.
Proof.
  intros Hb Hh w a w' H. unfold try_except in H.
  destruct (body w) as [[a0 | msg] w1] eqn:E.
  - injection H as <- <-. exact (Hb w a0 w1 E).
  - exact (Hh msg w1 a w' H).
Qed.

Lemma check_cache_after_save (now : Z) (st : SessionState) (k text : string) :
  check_cache now (save_to_cache now st k text) k = Some text.
Proof.
  unfold check_cache, save_to_cache. simpl. rewrite lookup_insert_eq. simpl.
  rewrite bool_decide_eq_true_2; [reflexivity |].
  unfold Py.timedelta_hours, Py.usec_per_second. lia.
Qed.

Lemma truthy_append (s t : string) :
  Py.truthy s = true -> Py.truthy (s ++ t) = true.
Proof. destruct s; [discriminate | reflexivity]. Qed.

Section Served.

Variable env : Providers.
Variable self : GeminiAgentSystem.
Variable cache_key : string.

Lemma on_error_ensures (attempt : Z) (msg : string) :
  ensures (on_error self attempt msg) (signal_served self cache_key).
Proof.
  unfold on_error.
  repeat first
    [ apply ensures_raise
    | apply ensures_ret; intros; exact I
    | apply ensures_bind; intros ?
    | match goal with
      | |- ensures (if ?b then _ else _) _ => destruct b
      end ].
Qed.

Lemma attempt_once_ensures (p : string) (image : option Image) (attempt : Z) :
  ensures (attempt_once env self cache_key p image attempt) (signal_served self cache_key).
Proof.
  unfold attempt_once. apply ensures_try; [| intros msg; apply on_error_ensures].
  apply ensures_bind. intros _. apply ensures_bind. intros text.
  destruct (Py.truthy text) eqn:T; simpl; [| apply ensures_raise].
  intros w a w' H. rewrite !run_changing, run_emit in H.
  injection H as <- <-. simpl.
  split; [exact T |]. split; [apply check_cache_after_save | tauto].
Qed.

Lemma retry_loop_ensures (p : string) (image : option Image) (attempts : list Z) :
  forall last_error,
    ensures (retry_loop env self cache_key p image attempts last_error)
      (loop_served self cache_key).
Proof.
  induction attempts as [|a l IH]; intros last_error; simpl.
  - apply ensures_ret. intros w. exact I.
  - apply (ensures_bind_with (signal_served self cache_key)); [apply attempt_once_ensures |].
    intros signal w b w' HP H. destruct signal as [e | e | result].
    + exact (IH (Some e) w b w' H).
    + injection H as <- <-. exact I.
    + injection H as <- <-. exact HP.
Qed.

Lemma try_ollama_ensures (p : string) (image : option Image) :
  ensures (try_ollama env self cache_key p image) (fallback_served self cache_key).
Proof.
  unfold try_ollama.
  destruct (ollama_model self) as [model |] eqn:Hmodel;
    [| apply ensures_ret; intros; exact I].
  destruct (Py.truthy model); [| apply ensures_ret; intros; exact I].
  apply ensures_try.
  - apply ensures_bind. intros _. apply ensures_bind. intros b64.
    apply ensures_bind. intros result.
    destruct (Py.truthy result) eqn:T; [| apply ensures_ret; intros; exact I].
    intros w a w' H. rewrite run_changing, run_emit in H.
    injection H as <- <-. simpl.
    split; [now apply truthy_append |].
    split; [apply check_cache_after_save |].
    right. right. exists model. split; [exact Hmodel | reflexivity].
  - intros msg. apply ensures_bind. intros _.
    apply ensures_ret. intros; exact I.
Qed.

Lemma after_loop_ensures (p : string) (image : option Image)
    (loop_end : LoopEnd) (w w' : World) (result : string * string) :
  loop_served self cache_key loop_end w ->
  after_loop env self cache_key p image loop_end w = (Ok result, w') ->
  served self cache_key result w'.
Proof.
  intros HP H. destruct loop_end as [r | last_error]; simpl in H.
  - injection H as <- <-. exact HP.
  - revert H. apply (ensures_bind_with (fallback_served self cache_key));
      [apply try_ollama_ensures |].
    intros fallback w1 b w2 HF H. destruct fallback as [r |].
    + injection H as <- <-. exact HF.
    + discriminate.
Qed.

Lemma generate_uncached_ensures (prompt : string) (image : option Image)
    (num_suggestions : Z) :
  ensures (generate_uncached env self cache_key prompt image num_suggestions)
    (served self cache_key).
Proof.
  unfold generate_uncached.
  apply ensures_bind. intros [can_proceed wait_time].
  apply ensures_bind. intros _. cbv zeta.
  apply (ensures_bind_with (loop_served self cache_key)); [apply retry_loop_ensures |].
  intros loop_end w b w'. apply after_loop_ensures.
Qed.

End Served.

Lemma generate_with_retry_ensures (env : Providers) (self : GeminiAgentSystem)
    (prompt : string) (image : option Image) (num_suggestions : Z) :
  ensures (generate_with_retry env self prompt image num_suggestions)
    (served self (request_key self prompt num_suggestions)).
Proof.
  unfold generate_with_retry. fold (request_key self prompt num_suggestions).
  apply (ensures_bind_with
           (fun cached w =>
              cached = check_cache (clock w) (session w)
                         (request_key self prompt num_suggestions))).
  - intros w a w' H. injection H as <- <-. reflexivity.
  - intros cached w b w' Hcached H.
    destruct (Py.truthy_opt cached) eqn:T.
    + rewrite run_emit in H. injection H as <- <-. simpl.
      destruct cached as [c |]; [| discriminate]. simpl in *.
      split; [exact T |]. split; [now symmetry | tauto].
    + exact (generate_uncached_ensures env self _ prompt image num_suggestions
               w b w' H).
Qed.

(** X1: a fresh cached response that is not empty is returned as it is,
    tagged "cache": the only thing the call does is show the cache notice. The
    session is untouched (the log is not even pruned), no time passes, no
    provider is called and the arguments other than the prompt, the model id
    and the count play no part. *)
Theorem cache_hit_is_silent (env : Providers) (self : GeminiAgentSystem)
    (prompt : string) (image : option Image) (num_suggestions : Z) (w : World)
    (cached : string) :
  check_cache (clock w) (session w) (request_key self prompt num_suggestions)
  = Some cached ->
  Py.truthy cached = true ->
  let r := generate_with_retry env self prompt image num_suggestions w in
  r.1 = Ok (cached, "cache")
  /\ session r.2 = session w
  /\ clock r.2 = clock w
  /\ events r.2 = (events w ++ [st_info "✨ Using cached response"])%list
  /\ gemini_calls (events r.2) = gemini_calls (events w)
  /\ ollama_calls (events r.2) = ollama_calls (events w)
  /\ sleeps (events r.2) = sleeps (events w).
Proof.
  intros Hhit Htruthy r. subst r.
  rewrite (fresh_hit_returns_cached env self prompt image num_suggestions w
             cached Hhit Htruthy). simpl.
  rewrite gemini_calls_app, ollama_calls_app, sleeps_app. simpl.
  rewrite app_nil_r.
  repeat split; unfold gemini_calls, ollama_calls; simpl; lia.
Qed.

Lemma cache_hit_is_silent_witness :
  let w := {| session := save_to_cache 1699999999000000 (fresh_session "AIza-key")
                           (request_key init "hello" 3) "**Reply 1:** Hi";
              clock := 1700000000000000; events := [] |} in
  let r := generate_with_retry env_invalid_key init "hello" None 3 w in
  r.1 = Ok ("**Reply 1:** Hi", "cache") /\ session r.2 = session w.
Proof.
  intros w.
  destruct (cache_hit_is_silent env_invalid_key init "hello" None 3 w
              "**Reply 1:** Hi") as (Hr & Hs & _).
  - vm_compute. reflexivity.
  - reflexivity.
  - split; assumption.
Defined.

(** X2: whatever path it takes, when [generate_with_retry] returns, the text
    it returns is not empty, a lookup of the request key in the final world
    returns that text, and the tag is "cache", the primary model id or the
    tag of the fallback model. *)
Theorem every_success_is_cached (env : Providers) (self : GeminiAgentSystem)
    (prompt : string) (image : option Image) (num_suggestions : Z)
    (w w' : World) (text tag : string) :
  generate_with_retry env self prompt image num_suggestions w
  = (Ok (text, tag), w') ->
  Py.truthy text = true
  /\ check_cache (clock w') (session w') (request_key self prompt num_suggestions)
     = Some text
  /\ (tag = "cache"
      \/ tag = primary_model self
      \/ exists model, ollama_model self = Some model /\ tag = ollama_tag model).
Proof.
  intros H.
  exact (generate_with_retry_ensures env self prompt image num_suggestions
           w (text, tag) w' H).
Qed.

Lemma every_success_is_cached_witness :
  let r := generate_with_retry env_quota agent_with_fallback "hello" None 3
             new_world in
  check_cache (clock r.2) (session r.2) (request_key agent_with_fallback "hello" 3)
  = Some ("**Reply 1:** Hi" ++ ollama_note)%string.
Proof.
  intros r.
  apply (every_success_is_cached env_quota agent_with_fallback "hello" None 3
           new_world r.2 ("**Reply 1:** Hi" ++ ollama_note)%string
           (ollama_tag "llava")).
  vm_compute. reflexivity.
Defined.

(** X3: the cache key leaves the image out (and the providers and the
    fallback setting): once a request has returned, the same prompt and count
    asked again at once for the same primary model get the same text from the
    cache, tagged "cache", whatever image comes with them, without a call. *)
Theorem repeat_request_ignores_image (env env2 : Providers)
    (self self2 : GeminiAgentSystem) (prompt : string) (image image2 : option Image)
    (num_suggestions : Z) (w w' : World) (text tag : string) :
  generate_with_retry env self prompt image num_suggestions w
  = (Ok (text, tag), w') ->
  primary_model self2 = primary_model self ->
  generate_with_retry env2 self2 prompt image2 num_suggestions w'
  = (Ok (text, "cache"),
     {| session := session w'; clock := clock w';
        events := events w' ++ [st_info "✨ Using cached response"] |}).
Proof.
  intros H Hmodel.
  destruct (generate_with_retry_ensures env self prompt image num_suggestions
              w (text, tag) w' H) as (Htruthy & Hhit & _).
  apply fresh_hit_returns_cached; [| exact Htruthy].
  unfold request_key in *. now rewrite Hmodel.
Qed.

Lemma repeat_request_ignores_image_witness :
  let w' := (generate_with_retry env_ok init "hello" None 3 new_world).2 in
  (generate_with_retry env_invalid_key agent_with_fallback "hello"
     (Some {| image_data := "another screenshot" |}) 3 w').1
  = Ok ("**Reply 1:** Sure!", "cache").
Proof.
  intros w'.
  rewrite (repeat_request_ignores_image env_ok env_invalid_key init
             agent_with_fallback "hello" None
             (Some {| image_data := "another screenshot" |}) 3 new_world w'
             "**Reply 1:** Sure!" "gemini-2.0-flash-exp").
  - reflexivity.
  - vm_compute. reflexivity.
  - reflexivity.
Defined.

(** ** Invariants of the session *)

Lemma cache_nonempty_of_cache (w w' : World) :
  request_cache (session w') = request_cache (session w) ->
  cache_nonempty w -> cache_nonempty w'.
Proof. unfold cache_nonempty. intros -> H. exact H. Qed.

Lemma cache_nonempty_emit (e : Event) : keeps cache_nonempty (emit e).
Proof. intros w H. exact H. Qed.

Lemma cache_nonempty_advance (usec : Z) : keeps cache_nonempty (advance usec).
Proof. intros w H. exact H. Qed.

Lemma cache_nonempty_sleep (seconds : Z) : keeps cache_nonempty (sleep seconds).
Proof.
  unfold sleep. case_bool_decide; [apply keeps_raise |].
  apply keeps_bind; [apply cache_nonempty_emit | intros _].
  apply cache_nonempty_advance.
Qed.

Lemma cache_nonempty_rate_limit_check :
  keeps cache_nonempty (changing rate_limit_check).
Proof.
  intros w H. apply (cache_nonempty_of_cache w); [| exact H].
  unfold changing.
  pose proof (rate_limit_check_cache (clock w) (session w)) as Hc.
  destruct (rate_limit_check (clock w) (session w)). exact Hc.
Qed.

Lemma cache_nonempty_log_request :
  keeps cache_nonempty (changing (fun now st => (log_request now st, tt))).
Proof. intros w H. exact H. Qed.

Lemma cache_nonempty_save (cache_key text : string) :
  Py.truthy text = true ->
  keeps cache_nonempty
    (changing (fun now st => (save_to_cache now st cache_key text, tt))).
Proof.
  intros Ht w H k entry. simpl. rewrite lookup_insert.
  case_decide.
  - intros [= <-]. exact Ht.
  - apply H.
Qed.

(** Breaks a computation into its primitives, keeping the tests passed. *)
Ltac cache_steps :=
  repeat first
    [ apply keeps_ret | apply keeps_raise | apply keeps_reading
    | apply cache_nonempty_emit | apply cache_nonempty_sleep
    | apply cache_nonempty_advance
    | apply cache_nonempty_rate_limit_check | apply cache_nonempty_log_request
    | apply cache_nonempty_save;
      solve [ assumption | apply truthy_append; assumption ]
    | apply keeps_bind; [| intros ?]
    | apply keeps_try; [| intros ?]
    | match goal with
      | |- keeps _ (if negb ?b then _ else _) => destruct b eqn:?; cbn [negb]
      | |- keeps _ (if ?b then _ else _) => destruct b eqn:?
      | |- keeps _ (match ?x with _ => _ end) => destruct x eqn:?
      end ].

Lemma cache_nonempty_retry_loop (env : Providers) (self : GeminiAgentSystem)
    (cache_key p : string) (image : option Image) (attempts : list Z) :
  forall last_error,
    keeps cache_nonempty (retry_loop env self cache_key p image attempts last_error).
Proof.
  induction attempts as [|a l IH]; intros last_error; simpl.
  - apply keeps_ret.
  - apply keeps_bind.
    + unfold attempt_once, gemini_call, on_error. cache_steps.
    + intros signal.
      destruct signal; [apply IH | apply keeps_ret | apply keeps_ret].
Qed.

Lemma generate_with_retry_keeps_cache_nonempty (env : Providers)
    (self : GeminiAgentSystem) (prompt : string) (image : option Image)
    (num_suggestions : Z) :
  keeps cache_nonempty (generate_with_retry env self prompt image num_suggestions).
Proof.
  unfold generate_with_retry.
  apply keeps_bind; [apply keeps_reading | intros cached].
  destruct (Py.truthy_opt cached); [cache_steps |].
  unfold generate_uncached.
  apply keeps_bind; [apply cache_nonempty_rate_limit_check | intros [can wait_time]].
  apply keeps_bind; [destruct (negb can); cache_steps | intros _; cbv zeta].
  apply keeps_bind; [apply cache_nonempty_retry_loop | intros loop_end].
  unfold after_loop, try_ollama, encode_image, generate_with_ollama.
  cache_steps.
Qed.

(** X4: the agent never stores an empty response. If no cached response is
    the empty string before a request, none is after it, whatever the
    providers answer; this holds of a new session and of a cleared one. *)
Theorem cache_never_holds_empty_response (env : Providers)
    (self : GeminiAgentSystem) (prompt : string) (image : option Image)
    (num_suggestions : Z) (w : World) :
  cache_nonempty w ->
  cache_nonempty (generate_with_retry env self prompt image num_suggestions w).2
  /\ cache_nonempty (cleared w)
  /\ forall key, cache_nonempty
                   {| session := fresh_session key; clock := clock w;
                      events := events w |}.
Proof.
  intros H. split; [| split].
  - now apply generate_with_retry_keeps_cache_nonempty.
  - intros k entry. simpl. rewrite lookup_empty. discriminate.
  - intros key k entry. simpl. rewrite lookup_empty. discriminate.
Qed.

Lemma new_world_cache_nonempty : cache_nonempty new_world.
Proof. intros k entry H. unfold new_world in H. simpl in H. discriminate. Qed.

Lemma cache_never_holds_empty_response_witness :
  cache_nonempty
    (generate_with_retry env_blocked agent_with_fallback "hello" None 5 new_world).2.
Proof.
  exact (proj1 (cache_never_holds_empty_response env_blocked agent_with_fallback
                  "hello" None 5 new_world new_world_cache_nonempty)).
Defined.

(** X5: a request leaves the request log with no timestamp later than the
    clock when it found it so: the timestamps it appends are readings of the
    clock, and the sleeps and the calls only move the clock forward. *)
Theorem request_log_stays_in_past (env : Providers) (self : GeminiAgentSystem)
    (prompt : string) (image : option Image) (num_suggestions : Z) (w : World) :
  log_in_past w ->
  log_in_past (generate_with_retry env self prompt image num_suggestions w).2.
Proof. apply generate_with_retry_keeps_log_in_past. Qed.

Lemma request_log_stays_in_past_witness :
  log_in_past (generate_with_retry env_ok init "hello" None 3 new_world).2.
Proof.
  exact (request_log_stays_in_past env_ok init "hello" None 3 new_world
           new_world_log_in_past).
Defined.

(** ** How many calls a request makes at most *)

Section Adds.

Variable count : list Event -> nat.
Hypothesis count_app :
  forall l1 l2, count (l1 ++ l2) = (count l1 + count l2)%nat.

Lemma adds_ret {A} (a : A) : adds count 0 (ret a).
Proof. intros w. simpl. lia. Qed.

Lemma adds_raise {A} (msg : string) : adds count 0 (@raise A msg).
Proof. intros w. simpl. lia. Qed.

Lemma adds_reading {A} (f : Z -> SessionState -> A) : adds count 0 (reading f).
Proof. intros w. simpl. lia. Qed.

Lemma adds_changing {A} (f : Z -> SessionState -> SessionState * A) :
  adds count 0 (changing f).
Proof.
  intros w. unfold changing. destruct (f (clock w) (session w)). simpl. lia.
Qed.

Lemma adds_advance (usec : Z) : adds count 0 (advance usec).
Proof. intros w. simpl. lia. Qed.

Lemma adds_emit (e : Event) : adds count (count [e]) (emit e).
Proof. intros w. simpl. rewrite count_app. lia. Qed.

Lemma adds_weaken {A} (n n' : nat) (m : M A) :
  adds count n m -> (n <= n')%nat -> adds count n' m.
Proof. intros H Hle w. specialize (H w). lia. Qed.

Lemma adds_bind {A B} (n1 n2 : nat) (m : M A) (f : A -> M B) :
  adds count n1 m -> (forall a, adds count n2 (f a)) ->
  adds count (n1 + n2) (bind m f).
Proof.
  intros Hm Hf w. unfold bind. specialize (Hm w).
  destruct (m w) as [[a | msg] w']; simpl in *.
  - specialize (Hf a w'). lia.
  - lia.
Qed.

Lemma adds_try {A} (n1 n2 : nat) (body : M A) (handler : string -> M A) :
  adds count n1 body -> (forall msg, adds count n2 (handler msg)) ->
  adds count (n1 + n2) (try_except body handler).
Proof.
  intros Hb Hh w. unfold try_except. specialize (Hb w).
  destruct (body w) as [[a | msg] w']; simpl in *.
  - lia.
  - specialize (Hh msg w'). lia.
Qed.

Lemma adds_bind_0 {A B} (m : M A) (f : A -> M B) :
  adds count 0 m -> (forall a, adds count 0 (f a)) -> adds count 0 (bind m f).
Proof. intros Hm Hf. exact (adds_bind 0 0 m f Hm Hf). Qed.

Lemma adds_try_0 {A} (body : M A) (handler : string -> M A) :
  adds count 0 body -> (forall msg, adds count 0 (handler msg)) ->
  adds count 0 (try_except body handler).
Proof. intros Hb Hh. exact (adds_try 0 0 body handler Hb Hh). Qed.

Lemma adds_emit_0 (e : Event) : count [e] = 0%nat -> adds count 0 (emit e).
Proof. intros H. rewrite <- H. apply adds_emit. Qed.

Lemma adds_sleep_0 (seconds : Z) :
  count [time_sleep seconds] = 0%nat -> adds count 0 (sleep seconds).
Proof.
  intros H. unfold sleep. case_bool_decide; [apply adds_raise |].
  apply adds_bind_0; [now apply adds_emit_0 | intros _; apply adds_advance].
Qed.

End Adds.

(** Shows that a computation adds nothing to a count. *)
Ltac adds_nothing :=
  repeat first
    [ apply adds_ret | apply adds_raise | apply adds_reading
    | apply adds_changing | apply adds_advance
    | apply adds_emit_0; [assumption || (intros; apply omap_app) | reflexivity]
    | apply adds_sleep_0; [assumption || (intros; apply omap_app) | reflexivity]
    | apply adds_bind_0; [| intros ?]
    | apply adds_try_0; [| intros ?]
    | match goal with
      | |- adds _ 0 (if ?b then _ else _) => destruct b
      | |- adds _ 0 (match ?x with _ => _ end) => destruct x
      end ].

Section CallBounds.

Variable env : Providers.
Variable self : GeminiAgentSystem.
Variable cache_key : string.

Lemma on_error_adds_no_gemini_call (attempt : Z) (msg : string) :
  adds gemini_calls 0 (on_error self attempt msg).
Proof.
  pose proof gemini_calls_app as Happ. unfold on_error. adds_nothing.
Qed.

Lemma on_error_adds_no_ollama_call (attempt : Z) (msg : string) :
  adds ollama_calls 0 (on_error self attempt msg).
Proof.
  pose proof ollama_calls_app as Happ. unfold on_error. adds_nothing.
Qed.

Lemma gemini_call_adds_one (attempt : Z) (p : string) (image : option Image) :
  adds gemini_calls 1 (gemini_call env self attempt p image).
Proof.
  pose proof gemini_calls_app as Happ. unfold gemini_call.
  apply (adds_bind gemini_calls 0 1); [apply adds_reading | intros key].
  apply (adds_bind gemini_calls 1 0); [apply (adds_emit gemini_calls Happ) |].
  intros _. adds_nothing.
Qed.

Lemma attempt_once_adds_one_gemini_call (p : string) (image : option Image)
    (attempt : Z) :
  adds gemini_calls 1 (attempt_once env self cache_key p image attempt).
Proof.
  pose proof gemini_calls_app as Happ. unfold attempt_once.
  apply (adds_try gemini_calls 1 0);
    [| intros msg; apply on_error_adds_no_gemini_call].
  apply (adds_bind gemini_calls 0 1); [adds_nothing | intros _].
  apply (adds_bind gemini_calls 1 0); [apply gemini_call_adds_one |].
  intros text. adds_nothing.
Qed.

Lemma attempt_once_adds_no_ollama_call (p : string) (image : option Image)
    (attempt : Z) :
  adds ollama_calls 0 (attempt_once env self cache_key p image attempt).
Proof.
  pose proof ollama_calls_app as Happ.
  unfold attempt_once, gemini_call, on_error. adds_nothing.
Qed.

Lemma retry_loop_adds_gemini_calls (p : string) (image : option Image)
    (attempts : list Z) :
  forall last_error,
    adds gemini_calls (length attempts)
      (retry_loop env self cache_key p image attempts last_error).
Proof.
  pose proof gemini_calls_app as Happ.
  induction attempts as [|a l IH]; intros last_error; simpl.
  - apply adds_ret.
  - apply (adds_bind gemini_calls 1 (length l));
      [apply attempt_once_adds_one_gemini_call | intros signal].
    destruct signal; [apply IH | |];
      (eapply adds_weaken; [apply adds_ret | lia]).
Qed.

Lemma retry_loop_adds_no_ollama_call (p : string) (image : option Image)
    (attempts : list Z) :
  forall last_error,
    adds ollama_calls 0 (retry_loop env self cache_key p image attempts last_error).
Proof.
  pose proof ollama_calls_app as Happ.
  induction attempts as [|a l IH]; intros last_error; simpl.
  - apply adds_ret.
  - apply (adds_bind_0 ollama_calls);
      [apply attempt_once_adds_no_ollama_call | intros signal].
    destruct signal; [apply IH | apply adds_ret | apply adds_ret].
Qed.

Lemma after_loop_adds_no_gemini_call (p : string) (image : option Image)
    (loop_end : LoopEnd) :
  adds gemini_calls 0 (after_loop env self cache_key p image loop_end).
Proof.
  pose proof gemini_calls_app as Happ.
  unfold after_loop, try_ollama, encode_image, generate_with_ollama.
  adds_nothing.
Qed.

Lemma generate_with_ollama_adds_one (model p : string) (b64 : option string) :
  adds ollama_calls 1 (generate_with_ollama env model p b64).
Proof.
  pose proof ollama_calls_app as Happ. unfold generate_with_ollama. cbv zeta.
  apply (adds_bind ollama_calls 1 0); [apply (adds_emit ollama_calls Happ) |].
  intros _. adds_nothing.
Qed.

Lemma after_loop_adds_one_ollama_call (p : string) (image : option Image)
    (loop_end : LoopEnd) :
  adds ollama_calls 1 (after_loop env self cache_key p image loop_end).
Proof.
  pose proof ollama_calls_app as Happ. unfold after_loop.
  destruct loop_end as [result | last_error];
    [eapply adds_weaken; [apply adds_ret | lia] |].
  apply (adds_bind ollama_calls 1 0); [| intros fb; adds_nothing].
  unfold try_ollama.
  destruct (ollama_model self) as [model |];
    [| eapply adds_weaken; [apply adds_ret | lia]].
  destruct (Py.truthy model); [| eapply adds_weaken; [apply adds_ret | lia]].
  apply (adds_try ollama_calls 1 0); [| intros msg; adds_nothing].
  apply (adds_bind ollama_calls 0 1); [adds_nothing | intros _].
  apply (adds_bind ollama_calls 0 1).
  - unfold encode_image. adds_nothing.
  - intros b64.
    apply (adds_bind ollama_calls 1 0);
      [apply generate_with_ollama_adds_one | intros result].
    adds_nothing.
Qed.

End CallBounds.

(** X6: on every path and whatever the providers answer, a request calls the
    primary provider at most [max_retries] times and the local server at most
    once. *)
Theorem calls_are_bounded (env : Providers) (self : GeminiAgentSystem)
    (prompt : string) (image : option Image) (num_suggestions : Z) (w : World) :
  let r := generate_with_retry env self prompt image num_suggestions w in
  (gemini_calls (events r.2)
   <= gemini_calls (events w) + Z.to_nat (max_retries self))%nat
  /\ (ollama_calls (events r.2) <= ollama_calls (events w) + 1)%nat.
Proof.
  pose proof gemini_calls_app as Hg. pose proof ollama_calls_app as Ho.
  assert (Hlen : length (Py.range (max_retries self)) = Z.to_nat (max_retries self)).
  { unfold Py.range. now rewrite length_map, length_seq. }
  split.
  - revert w.
    change (adds gemini_calls (Z.to_nat (max_retries self))
              (generate_with_retry env self prompt image num_suggestions)).
    apply (adds_weaken gemini_calls
             (0 + (0 + (0 + (length (Py.range (max_retries self)) + 0)))));
      [| lia].
    unfold generate_with_retry.
    apply adds_bind; [apply adds_reading | intros cached].
    destruct (Py.truthy_opt cached);
      [eapply adds_weaken; [adds_nothing | lia] |].
    unfold generate_uncached.
    apply adds_bind; [apply adds_changing | intros [can wait_time]].
    apply adds_bind; [destruct (negb can); adds_nothing | intros _; cbv zeta].
    apply adds_bind;
      [apply retry_loop_adds_gemini_calls | apply after_loop_adds_no_gemini_call].
  - revert w.
    change (adds ollama_calls 1
              (generate_with_retry env self prompt image num_suggestions)).
    apply (adds_weaken ollama_calls (0 + (0 + (0 + (0 + 1))))); [| lia].
    unfold generate_with_retry.
    apply adds_bind; [apply adds_reading | intros cached].
    destruct (Py.truthy_opt cached);
      [eapply adds_weaken; [adds_nothing | lia] |].
    unfold generate_uncached.
    apply adds_bind; [apply adds_changing | intros [can wait_time]].
    apply adds_bind; [destruct (negb can); adds_nothing | intros _; cbv zeta].
    apply adds_bind;
      [apply retry_loop_adds_no_ollama_call | apply after_loop_adds_one_ollama_call].
Qed.

(** ** More end-to-end paths *)

Lemma range_split (n k : Z) :
  0 <= k < n -> exists rest, Py.range n = (Py.range k ++ k :: rest)%list.
Proof.
  intros H. unfold Py.range.
  replace (Z.to_nat n) with (Z.to_nat k + S (Z.to_nat (n - k - 1)))%nat by lia.
  rewrite seq_app, map_app. simpl.
  eexists. f_equal. f_equal. lia.
Qed.

(** The last attempt, when its error is not an invalid credential and is not
    a safety block without a fallback model: the loop is left with that error
    as [last_error]. *)
Lemma on_error_last_leaves (self : GeminiAgentSystem) (attempt : Z) (msg : string)
    (w : World) :
  ~ attempt < max_retries self - 1 ->
  final_error_kind msg <> InvalidCredential ->
  (final_error_kind msg = SafetyBlocked -> Py.truthy_opt (ollama_model self) = true) ->
  exists signal w',
    on_error self attempt msg w = (Ok signal, w')
    /\ (signal = Break msg \/ signal = Continue msg)
    /\ session w' = session w
    /\ clock w' = clock w
    /\ sleeps (events w') = sleeps (events w)
    /\ gemini_calls (events w') = gemini_calls (events w)
    /\ ollama_calls (events w') = ollama_calls (events w).
Proof.
  intros Hlast Hcred Hsafe. unfold on_error.
  rewrite bool_decide_eq_false_2 by exact Hlast.
  unfold final_error_kind in Hcred, Hsafe.
  destruct (_ || _).
  - destruct (Py.truthy_opt (ollama_model self)).
    + eexists _, _. split; [reflexivity |]. simpl.
      rewrite sleeps_app, gemini_calls_app, ollama_calls_app. simpl.
      rewrite app_nil_r. unfold gemini_calls, ollama_calls. simpl.
      repeat split; auto; lia.
    + eexists _, _. split; [reflexivity |]. repeat split; auto.
  - destruct (_ || _).
    + rewrite (Hsafe eq_refl).
      eexists _, _. split; [reflexivity |]. simpl.
      rewrite !sleeps_app, !gemini_calls_app, !ollama_calls_app. simpl.
      rewrite !app_nil_r. unfold gemini_calls, ollama_calls. simpl.
      repeat split; auto; lia.
    + destruct (_ && _); [congruence |].
      eexists _, _. split; [reflexivity |]. repeat split; auto.
Qed.

(** Step 5 without a fallback model does nothing. *)
Lemma try_ollama_unset (env : Providers) (self : GeminiAgentSystem)
    (cache_key p : string) (image : option Image) (w : World) :
  Py.truthy_opt (ollama_model self) = false ->
  try_ollama env self cache_key p image w = (Ok None, w).
Proof.
  intros H. unfold try_ollama.
  destruct (ollama_model self) as [model |]; [| reflexivity].
  simpl in H. now rewrite H.
Qed.

(** Step 5 when the fallback fails: nothing is cached. *)
Lemma try_ollama_failure (env : Providers) (self : GeminiAgentSystem)
    (cache_key p : string) (image : option Image) (w : World) (model : string) :
  ollama_model self = Some model ->
  Py.truthy model = true ->
  fallback_fails env model p image ->
  exists w',
    try_ollama env self cache_key p image w = (Ok None, w')
    /\ session w' = session w
    /\ sleeps (events w') = sleeps (events w)
    /\ gemini_calls (events w') = gemini_calls (events w).
Proof.
  intros Hmodel Htruthy Hfail. unfold try_ollama. rewrite Hmodel, Htruthy.
  unfold fallback_fails, encoded_image in Hfail. unfold try_except.
  rewrite run_emit.
  destruct image as [img |].
  - unfold encode_image at 1. run_monad.
    destruct (pil_png_base64 env img) as [b64 | e].
    + run_monad. unfold generate_with_ollama. cbv zeta. run_monad.
      destruct (http_result _) as [text | | e].
      * run_monad. rewrite Hfail. unfold ret.
        eexists. split; [reflexivity |]. simpl.
        rewrite !sleeps_app, !gemini_calls_app. simpl.
        unfold gemini_calls. simpl. rewrite !app_nil_r.
        repeat split; lia.
      * run_monad. eexists. split; [reflexivity |]. simpl.
        rewrite !sleeps_app, !gemini_calls_app. simpl.
        unfold gemini_calls. simpl. rewrite !app_nil_r.
        repeat split; lia.
      * run_monad. eexists. split; [reflexivity |]. simpl.
        rewrite !sleeps_app, !gemini_calls_app. simpl.
        unfold gemini_calls. simpl. rewrite !app_nil_r.
        repeat split; lia.
    + run_monad. eexists. split; [reflexivity |]. simpl.
      rewrite !sleeps_app, !gemini_calls_app. simpl.
      unfold gemini_calls. simpl. rewrite !app_nil_r.
      repeat split; lia.
  - run_monad. unfold generate_with_ollama. cbv zeta. run_monad.
    destruct (http_result _) as [text | | e].
    + run_monad. rewrite Hfail. unfold ret.
      eexists. split; [reflexivity |]. simpl.
      rewrite !sleeps_app, !gemini_calls_app. simpl.
      unfold gemini_calls. simpl. rewrite !app_nil_r.
      repeat split; lia.
    + run_monad. eexists. split; [reflexivity |]. simpl.
      rewrite !sleeps_app, !gemini_calls_app. simpl.
      unfold gemini_calls. simpl. rewrite !app_nil_r.
      repeat split; lia.
    + run_monad. eexists. split; [reflexivity |]. simpl.
      rewrite !sleeps_app, !gemini_calls_app. simpl.
      unfold gemini_calls. simpl. rewrite !app_nil_r.
      repeat split; lia.
Qed.

(** The request up to the end of the loop, when every attempt fails and the
    last error lets the loop end: the world [w2] in which step 5 starts. *)
Lemma generate_uncached_loop_exhausted (env : Providers) (self : GeminiAgentSystem)
    (prompt : string) (image : option Image) (num_suggestions : Z) (w : World)
    (msg : string) :
  log_in_past w ->
  0 < max_retries self ->
  0 <= base_delay self ->
  (forall a, 0 <= a < max_retries self - 1 ->
     is_Some (attempt_error
                (primary_reply env self w prompt image num_suggestions a))) ->
  attempt_error
    (primary_reply env self w prompt image num_suggestions (max_retries self - 1))
  = Some msg ->
  final_error_kind msg <> InvalidCredential ->
  (final_error_kind msg = SafetyBlocked -> Py.truthy_opt (ollama_model self) = true) ->
  exists w2,
    generate_uncached env self (request_key self prompt num_suggestions)
      prompt image num_suggestions w
    = after_loop env self (request_key self prompt num_suggestions)
        (optimize_prompt prompt num_suggestions) image (Left (Some msg)) w2
    /\ request_cache (session w2) = request_cache (session w)
    /\ request_history (session w2)
       = last_minute (clock w) (request_history (session w))
    /\ gemini_calls (events w2)
       = (gemini_calls (events w) + Z.to_nat (max_retries self))%nat
    /\ ollama_calls (events w2) = ollama_calls (events w).
Proof.
  intros Hpast Hn Hbase Hfail Hmsg Hcred Hsafe.
  destruct (generate_uncached_to_last env self prompt image num_suggestions w
              Hn Hbase Hpast Hfail) as (w1 & le & Hret & ->).
  rewrite <- (retried_reply env self prompt image num_suggestions _ w w1 _ Hret)
    in Hmsg.
  destruct (on_error_last_leaves self (max_retries self - 1) msg
              (after_call env self (optimize_prompt prompt num_suggestions)
                 image w1 (max_retries self - 1)))
    as (signal & w2 & Hrun & Hsig & Hs & _ & _ & Hg & Ho);
    [lia | exact Hcred | exact Hsafe |].
  exists w2. split.
  - erewrite last_attempt_ends; cycle 1.
    { rewrite (attempt_once_error _ _ _ _ _ _ _ _ Hmsg). exact Hrun. }
    destruct Hsig as [-> | ->]; reflexivity.
  - destruct (retried_facts self w w1 Hret Hn) as (Hc1 & Hh1 & _ & Hg1 & Ho1).
    rewrite Hs, Hg, Ho. unfold after_call, attempt_events. simpl.
    rewrite gemini_calls_app, ollama_calls_app.
    unfold gemini_calls at 2, ollama_calls at 2. simpl.
    repeat split; try assumption; lia.
Qed.

Lemma slice_to_ascii (n : nat) (s : string) :
  Py.isascii s = true ->
  exists rest,
    s = (Py.slice_to n s ++ rest)%string
    /\ String.length (Py.slice_to n s) = Nat.min n (String.length s).
Proof.
  revert n. induction s as [|c s IH]; intros n Hs.
  - exists EmptyString. split; [reflexivity | destruct n; reflexivity].
  - cbn [Py.isascii] in Hs. apply andb_true_iff in Hs. destruct Hs as [Hc Hs].
    assert (Hcont : Py.continuation c = false).
    { unfold Py.continuation. apply Nat.ltb_lt in Hc.
      apply andb_false_iff. left. apply Nat.leb_gt. exact Hc. }
    cbn [Py.slice_to]. rewrite Hcont. destruct n as [|n].
    + exists (String c s). split; reflexivity.
    + destruct (IH n Hs) as (rest & Hrest & Hlen). exists rest. split.
      * change (String c s = String c (Py.slice_to n s ++ rest)). now f_equal.
      * simpl. now rewrite Hlen.
Qed.

(** The aggregated error shows the slice of the last error on a line of its
    own. *)
Lemma error_details_shows (msg : string) :
  Py.truthy msg = true ->
  Py.contains ("**Last error:** " ++ Py.slice_to 200 msg ++ String "010" EmptyString)
    (error_details (Some msg))
  = true.
Proof.
  intros H. apply contains_spec. unfold error_details. simpl Py.truthy_opt.
  rewrite H. simpl default.
  exists (nl ++ "**Unable to generate replies.**" ++ nl ++ nl)%string.
  eexists. unfold nl. rewrite !append_assoc. reflexivity.
Qed.

(** X7: when every attempt of the primary provider fails, the error of the
    last one, an ASCII message, is not classed as an invalid credential, and
    the fallback model that is set fails too (the image cannot be encoded,
    the local server is unreachable, answers with an error or with an empty
    text), the request ends with the one aggregated error, built from the
    last error of the primary provider; nothing is cached and the provider
    has been called [max_retries] times. *)
Theorem fallback_failure_is_final (env : Providers) (self : GeminiAgentSystem)
    (prompt : string) (image : option Image) (num_suggestions : Z) (w : World)
    (msg model : string) :
  Py.truthy_opt (check_cache (clock w) (session w)
                   (request_key self prompt num_suggestions)) = false ->
  log_in_past w ->
  0 < max_retries self ->
  0 <= base_delay self ->
  (forall a, 0 <= a < max_retries self - 1 ->
     is_Some (attempt_error
                (primary_reply env self w prompt image num_suggestions a))) ->
  attempt_error
    (primary_reply env self w prompt image num_suggestions (max_retries self - 1))
  = Some msg ->
  Py.isascii msg = true ->
  final_error_kind msg <> InvalidCredential ->
  ollama_model self = Some model ->
  Py.truthy model = true ->
  fallback_fails env model (optimize_prompt prompt num_suggestions) image ->
  let r := generate_with_retry env self prompt image num_suggestions w in
  r.1 = Raise (error_details (Some msg))
  /\ request_cache (session r.2) = request_cache (session w)
  /\ gemini_calls (events r.2)
     = (gemini_calls (events w) + Z.to_nat (max_retries self))%nat.
Proof.
  intros Hmiss Hpast Hn Hbase Hfail Hmsg _ Hcred Hmodel Htruthy Hfb r. subst r.
  unfold generate_with_retry. rewrite run_reading.
  fold (request_key self prompt num_suggestions). rewrite Hmiss.
  destruct (generate_uncached_loop_exhausted env self prompt image
              num_suggestions w msg Hpast Hn Hbase Hfail Hmsg Hcred)
    as (w2 & -> & Hc & _ & Hg & _).
  { intros _. rewrite Hmodel. exact Htruthy. }
  destruct (try_ollama_failure env self (request_key self prompt num_suggestions)
              _ image w2 model Hmodel Htruthy Hfb) as (w3 & Hrun & Hs3 & _ & Hg3).
  unfold after_loop, bind. rewrite Hrun. simpl.
  rewrite Hs3, Hg3. repeat split; assumption.
Qed.

Lemma fallback_failure_is_final_witness :
  let r := generate_with_retry env_blocked agent_with_fallback "hello" None 3
             new_world in
  r.1 = Raise (error_details (Some "Response was blocked or empty"))
  /\ request_cache (session r.2) = request_cache (session new_world).
Proof.
  destruct (fallback_failure_is_final env_blocked agent_with_fallback
              "hello" None 3 new_world "Response was blocked or empty" "llava")
    as (Hr & Hc & _).
  - reflexivity.
  - exact new_world_log_in_past.
  - reflexivity.
  - vm_compute. discriminate.
  - intros a _. eexists. reflexivity.
  - reflexivity.
  - reflexivity.
  - vm_compute. discriminate.
  - reflexivity.
  - reflexivity.
  - exact I.
  - split; assumption.
Defined.

(** X8: without a fallback model, when every attempt fails and the last
    error, an ASCII message, is classed neither as a safety block nor as an
    invalid credential (a quota, rate or network error), the request ends
    with the aggregated error. Its line "**Last error:** " shows the message
    up to its 200th character and no more: all of it when it has 200
    characters or fewer. The cache is as it was and the local server has not
    been called. *)
Theorem exhausted_without_fallback (env : Providers) (self : GeminiAgentSystem)
    (prompt : string) (image : option Image) (num_suggestions : Z) (w : World)
    (msg : string) :
  Py.truthy_opt (check_cache (clock w) (session w)
                   (request_key self prompt num_suggestions)) = false ->
  log_in_past w ->
  0 < max_retries self ->
  0 <= base_delay self ->
  (forall a, 0 <= a < max_retries self - 1 ->
     is_Some (attempt_error
                (primary_reply env self w prompt image num_suggestions a))) ->
  attempt_error
    (primary_reply env self w prompt image num_suggestions (max_retries self - 1))
  = Some msg ->
  Py.isascii msg = true ->
  final_error_kind msg <> InvalidCredential ->
  final_error_kind msg <> SafetyBlocked ->
  Py.truthy_opt (ollama_model self) = false ->
  let r := generate_with_retry env self prompt image num_suggestions w in
  (exists details,
     r.1 = Raise details
     /\ details = error_details (Some msg)
     /\ (Py.truthy msg = true ->
         exists shown rest,
           msg = (shown ++ rest)%string
           /\ String.length shown = Nat.min 200 (String.length msg)
           /\ Py.contains
                ("**Last error:** " ++ shown ++ String "010" EmptyString) details
              = true)
     /\ Py.contains "**Unable to generate replies.**" details = true
     /\ Py.contains "4. Install Ollama for offline mode: https://ollama.com"
          details = true)
  /\ request_cache (session r.2) = request_cache (session w)
  /\ gemini_calls (events r.2)
     = (gemini_calls (events w) + Z.to_nat (max_retries self))%nat
  /\ ollama_calls (events r.2) = ollama_calls (events w).
Proof.
  intros Hmiss Hpast Hn Hbase Hfail Hmsg Hascii Hcred Hsafe Hfb r. subst r.
  unfold generate_with_retry. rewrite run_reading.
  fold (request_key self prompt num_suggestions). rewrite Hmiss.
  destruct (generate_uncached_loop_exhausted env self prompt image
              num_suggestions w msg Hpast Hn Hbase Hfail Hmsg Hcred)
    as (w2 & -> & Hc & _ & Hg & Ho); [congruence |].
  unfold after_loop, bind. rewrite try_ollama_unset by exact Hfb. simpl.
  split; [| repeat split; assumption].
  exists (error_details (Some msg)). split; [reflexivity |].
  split; [reflexivity |]. split; [| split].
  - intros Htruthy.
    destruct (slice_to_ascii 200 msg Hascii) as (rest & Hrest & Hlen).
    exists (Py.slice_to 200 msg), rest.
    split; [exact Hrest |]. split; [exact Hlen |].
    now apply error_details_shows.
  - apply contains_spec. exists nl. eexists. reflexivity.
  - apply contains_spec. unfold error_details.
    eexists. exists nl. rewrite <- !append_assoc. reflexivity.
Qed.

Lemma exhausted_without_fallback_witness :
  let r := generate_with_retry env_quota init "hello" None 3 new_world in
  request_cache (session r.2) = request_cache (session new_world)
  /\ ollama_calls (events r.2) = ollama_calls (events new_world).
Proof.
  destruct (exhausted_without_fallback env_quota init "hello" None 3 new_world
              quota_message) as (_ & Hc & _ & Ho).
  - reflexivity.
  - exact new_world_log_in_past.
  - reflexivity.
  - vm_compute. discriminate.
  - intros a _. eexists. reflexivity.
  - reflexivity.
  - reflexivity.
  - vm_compute. discriminate.
  - vm_compute. discriminate.
  - reflexivity.
  - split; assumption.
Defined.

Example exhausted_without_fallback_run :
  (generate_with_retry env_quota init "hello" None 3 new_world).1
  = Raise (nl ++ "**Unable to generate replies.**" ++ nl ++ nl
           ++ "**Last error:** 429 Resource has been exhausted (e.g. check quota)."
           ++ nl ++ nl ++ "**Suggestions:**" ++ nl
           ++ "1. Wait a moment and try again" ++ nl
           ++ "2. Check your API key at: https://aistudio.google.com/apikey" ++ nl
           ++ "3. Reduce the number of suggestions" ++ nl
           ++ "4. Install Ollama for offline mode: https://ollama.com" ++ nl).
Proof. vm_compute. reflexivity. Qed.

(** Step 5 after a loop that every attempt has failed, when the local
    server answers with a non-empty text. *)
Lemma generate_with_retry_falls_back (env : Providers) (self : GeminiAgentSystem)
    (prompt : string) (image : option Image) (num_suggestions : Z) (w : World)
    (msg model : string) (image_base64 : option string) (result : string) :
  Py.truthy_opt (check_cache (clock w) (session w)
                   (request_key self prompt num_suggestions)) = false ->
  log_in_past w ->
  0 < max_retries self ->
  0 <= base_delay self ->
  (forall a, 0 <= a < max_retries self - 1 ->
     is_Some (attempt_error
                (primary_reply env self w prompt image num_suggestions a))) ->
  attempt_error
    (primary_reply env self w prompt image num_suggestions (max_retries self - 1))
  = Some msg ->
  final_error_kind msg <> InvalidCredential ->
  ollama_model self = Some model ->
  Py.truthy model = true ->
  encoded_image env image = Some image_base64 ->
  http_result
    (ollama_server env
       (ollama_payload model (optimize_prompt prompt num_suggestions) image_base64))
  = http_json_response result ->
  Py.truthy result = true ->
  let r := generate_with_retry env self prompt image num_suggestions w in
  r.1 = Ok ((result ++ ollama_note)%string, ollama_tag model)
  /\ request_cache (session r.2)
     = <[request_key self prompt num_suggestions :=
           {| response := result ++ ollama_note; timestamp := clock r.2 |}]>
         (request_cache (session w))
  /\ request_history (session r.2)
     = last_minute (clock w) (request_history (session w))
  /\ gemini_calls (events r.2)
     = (gemini_calls (events w) + Z.to_nat (max_retries self))%nat
  /\ ollama_calls (events r.2) = S (ollama_calls (events w)).
Proof.
  intros Hmiss Hpast Hn Hbase Hfail Hmsg Hcred Hmodel Htruthy Himg Hhttp Hres r.
  subst r.
  unfold generate_with_retry. rewrite run_reading.
  fold (request_key self prompt num_suggestions). rewrite Hmiss.
  destruct (generate_uncached_loop_exhausted env self prompt image
              num_suggestions w msg Hpast Hn Hbase Hfail Hmsg Hcred)
    as (w2 & -> & Hc & Hh & Hg & Ho).
  { intros _. rewrite Hmodel. exact Htruthy. }
  destruct (try_ollama_success env self (request_key self prompt num_suggestions)
              _ image w2 model image_base64 result Hmodel Htruthy Himg Hhttp Hres)
    as (w3 & Hrun & Hs3 & _ & Hg3 & Ho3).
  unfold after_loop, bind. rewrite Hrun. simpl.
  rewrite Hs3, Hg3, Ho3. simpl. rewrite Hc, Hh, Hg, Ho.
  repeat split; reflexivity.
Qed.



(** ** The second scenario of the specification *)

Lemma quota_signal_final_kind (msg : string) :
  Py.contains "429" msg || Py.contains "quota" (Py.lower msg) = true ->
  final_error_kind msg = QuotaExceeded.
Proof. intros H. unfold final_error_kind. now rewrite H. Qed.

(** C2, as amended: when every attempt of the primary provider ends with a
    quota error (a message with "429", "quota" or "resource_exhausted"), the
    error of the last attempt, an ASCII message, is not classed as an invalid
    credential (it never is when it holds "429" or "quota"), a fallback model
    is set, the image, if any, can be encoded and the local server answers
    with a text that is not empty, [generate_with_retry] returns that text
    followed by a blank line and "*Generated using Ollama (local)*", tagged
    "Ollama (model)". The request log is the pruned log of the start, so it
    has gained no entry; the provider has been called [max_retries] times (3
    by default), the local server once, and the result is cached under the
    key of the request. *)
Theorem quota_exceeded_with_fallback (env : Providers) (self : GeminiAgentSystem)
    (prompt : string) (image : option Image) (num_suggestions : Z) (w : World)
    (msg model : string) (image_base64 : option string) (result : string) :
  Py.truthy_opt (check_cache (clock w) (session w)
                   (request_key self prompt num_suggestions)) = false ->
  log_in_past w ->
  0 < max_retries self ->
  0 <= base_delay self ->
  (forall a, 0 <= a < max_retries self ->
     exists m,
       gemini_result (primary_reply env self w prompt image num_suggestions a)
       = Raise m
       /\ quota_signal m = true) ->
  gemini_result
    (primary_reply env self w prompt image num_suggestions (max_retries self - 1))
  = Raise msg ->
  Py.isascii msg = true ->
  final_error_kind msg <> InvalidCredential ->
  ollama_model self = Some model ->
  Py.truthy model = true ->
  encoded_image env image = Some image_base64 ->
  http_result
    (ollama_server env
       (ollama_payload model (optimize_prompt prompt num_suggestions) image_base64))
  = http_json_response result ->
  Py.truthy result = true ->
  let r := generate_with_retry env self prompt image num_suggestions w in
  r.1 = Ok ((result
             ++ String "010" (String "010" "*Generated using Ollama (local)*"))%string,
            ("Ollama (" ++ model ++ ")")%string)
  /\ Py.contains model ("Ollama (" ++ model ++ ")") = true
  /\ request_history (session r.2)
     = last_minute (clock w) (request_history (session w))
  /\ (length (request_history (session r.2))
      <= length (request_history (session w)))%nat
  /\ request_cache (session r.2)
     = <[request_key self prompt num_suggestions :=
           {| response :=
                result
                ++ String "010" (String "010" "*Generated using Ollama (local)*");
              timestamp := clock r.2 |}]>
         (request_cache (session w))
  /\ gemini_calls (events r.2)
     = (gemini_calls (events w) + Z.to_nat (max_retries self))%nat
  /\ ollama_calls (events r.2) = S (ollama_calls (events w)).
Proof.
  intros Hmiss Hpast Hn Hbase Hquota Hlast _ Hcred Hmodel Htruthy Himg Hhttp Hres.
  destruct (generate_with_retry_falls_back env self prompt image num_suggestions
              w msg model image_base64 result Hmiss Hpast Hn Hbase)
    as (Hr & Hc & Hh & Hg & Ho); try assumption.
  - intros a Ha. destruct (Hquota a) as (m & Hm & _); [lia |].
    unfold attempt_error. rewrite Hm. eauto.
  - unfold attempt_error. now rewrite Hlast.
  - cbv zeta. split; [exact Hr |]. split; [apply contains_ollama_tag |].
    split; [exact Hh |]. split; [rewrite Hh; apply length_filter |].
    split; [exact Hc |]. split; assumption.
Qed.

Lemma quota_exceeded_with_fallback_witness :
  let r := generate_with_retry env_quota agent_with_fallback "hello" None 3
             new_world in
  r.1 = Ok (("**Reply 1:** Hi"
             ++ String "010" (String "010" "*Generated using Ollama (local)*"))%string,
            "Ollama (llava)")
  /\ request_history (session r.2) = []
  /\ gemini_calls (events r.2) = 3%nat
  /\ ollama_calls (events r.2) = 1%nat.
Proof.
  destruct (quota_exceeded_with_fallback env_quota agent_with_fallback "hello"
              None 3 new_world quota_message "llava" None "**Reply 1:** Hi")
    as (Hr & _ & Hh & _ & _ & Hg & Ho).
  - reflexivity.
  - constructor.
  - reflexivity.
  - vm_compute. discriminate.
  - intros a _. exists quota_message. split; reflexivity.
  - reflexivity.
  - reflexivity.
  - vm_compute. discriminate.
  - reflexivity.
  - reflexivity.
  - reflexivity.
  - reflexivity.
  - reflexivity.
  - repeat split; assumption.
Defined.

(** C2 as the specification words it does not hold: with quota errors on the
    three attempts, the fallback model [llava] set and a local server whose
    call succeeds with an empty text, the request does not return: step 5
    drops the empty text and the aggregated error is raised. *)
Lemma empty_fallback_answer_is_not_returned :
  ~ fallback_answer_is_returned env_quota_silent agent_with_fallback "hello" None 3
      new_world.
Proof.
  unfold fallback_answer_is_returned. intros H.
  destruct (H ltac:(intros a _; exists quota_message; split; reflexivity)
              "llava" None EmptyString eq_refl eq_refl eq_refl eq_refl)
    as (text & tag & body & Hr & _).
  vm_compute in Hr. discriminate.
Qed.

Example empty_fallback_answer_run :
  let r := generate_with_retry env_quota_silent agent_with_fallback "hello" None 3
             new_world in
  r.1 = Raise (error_details (Some quota_message))
  /\ gemini_calls (events r.2) = 3%nat
  /\ ollama_calls (events r.2) = 1%nat
  /\ request_cache (session r.2) = ∅.
Proof. vm_compute. repeat split. Qed.

(** A quota error without "429" or "quota" whose text names the API key is
    taken for an invalid credential on the last attempt: the fallback model
    is not tried. *)
Example exhausted_key_run :
  quota_signal exhausted_key_message = true
  /\ let r := generate_with_retry env_exhausted_key agent_with_fallback "hello" None 3
                new_world in
     r.1 = Raise "Invalid API key. Please check your Gemini API key."
     /\ ollama_calls (events r.2) = 0%nat.
Proof. vm_compute. repeat split. Qed.

(** X10: when the attempts before attempt [k] fail and attempt [k] is
    answered with a non-empty text, the request returns that text tagged with
    the primary model after [k + 1] calls of the provider and the backoff
    sleeps of attempts 0 to [k - 1]; the log gains one timestamp, the text is
    cached under the request key and the local server is not called. *)
Theorem success_after_retries (env : Providers) (self : GeminiAgentSystem)
    (prompt : string) (image : option Image) (num_suggestions : Z) (w : World)
    (k : Z) (text : string) :
  Py.truthy_opt (check_cache (clock w) (session w)
                   (request_key self prompt num_suggestions)) = false ->
  log_in_past w ->
  0 <= k < max_retries self ->
  0 <= base_delay self ->
  (forall a, 0 <= a < k ->
     is_Some (attempt_error
                (primary_reply env self w prompt image num_suggestions a))) ->
  gemini_result (primary_reply env self w prompt image num_suggestions k)
  = Ok text ->
  Py.truthy text = true ->
  let r := generate_with_retry env self prompt image num_suggestions w in
  r.1 = Ok (text, primary_model self)
  /\ request_history (session r.2)
     = (last_minute (clock w) (request_history (session w)) ++ [clock r.2])%list
  /\ request_cache (session r.2)
     = <[request_key self prompt num_suggestions :=
           {| response := text; timestamp := clock r.2 |}]>
         (request_cache (session w))
  /\ sleeps (events r.2)
     = (sleeps (events w) ++ gate_sleep (clock w) (session w)
          ++ map (exponential_backoff self) (Py.range k))%list
  /\ gemini_calls (events r.2) = (gemini_calls (events w) + Z.to_nat k + 1)%nat
  /\ ollama_calls (events r.2) = ollama_calls (events w).
Proof.
  intros Hmiss Hpast Hk Hbase Hfail Hreply Htext r.
  destruct (range_split (max_retries self) k Hk) as [rest Hrange].
  destruct (after_gate_facts w) as (Hc & Hh & Hkey & Hz & Hg & Ho).
  destruct (retry_loop_failing env self (request_key self prompt num_suggestions)
              (optimize_prompt prompt num_suggestions) image
              (Py.range k) (k :: rest) Hbase None (after_gate w))
    as (w1 & le & Hloop & Hs1 & _ & Hz1 & Hg1 & Ho1).
  { intros a Ha. apply range_elem in Ha. split; [lia |].
    rewrite (reply_in_api_key env self _ image w (after_gate w) a Hkey).
    now apply Hfail. }
  unfold primary_reply in Hreply.
  rewrite <- (reply_in_api_key env self _ image w w1 k) in Hreply
    by (rewrite Hs1; exact Hkey).
  assert (Hr : r = (Ok (text, primary_model self),
                    let w2 := after_call env self
                                (optimize_prompt prompt num_suggestions) image w1 k in
                    {| session := save_to_cache (clock w2)
                                    (log_request (clock w2) (session w1))
                                    (request_key self prompt num_suggestions) text;
                       clock := clock w2;
                       events := events w2 ++ [st_success "✅ Success!"] |})).
  { subst r. unfold generate_with_retry. rewrite run_reading.
    fold (request_key self prompt num_suggestions). rewrite Hmiss.
    unfold generate_uncached. rewrite run_gate by exact Hpast. cbv beta zeta.
    rewrite Hrange. unfold bind at 1. rewrite Hloop.
    simpl retry_loop. unfold bind.
    now rewrite (attempt_once_success env self _ _ image k w1 text Hreply Htext). }
  rewrite Hr. clear Hr r.
  remember (after_gate w) as wg eqn:Hwg. clear Hwg.
  simpl. unfold after_call, attempt_events. simpl.
  rewrite !sleeps_app, !gemini_calls_app, !ollama_calls_app.
  unfold gemini_calls at 2 3, ollama_calls at 2 3. simpl.
  rewrite !app_nil_r, Hs1, Hc, Hh, Hz1, Hz, Hg1, Hg, Ho1, Ho, <- app_assoc.
  assert (Hlen : length (Py.range k) = Z.to_nat k).
  { unfold Py.range. now rewrite length_map, length_seq. }
  repeat split; try reflexivity; lia.
Qed.

Lemma success_after_retries_witness :
  let r := generate_with_retry env_invalid_key_once init "hello" None 3 new_world in
  r.1 = Ok ("**Reply 1:** Sure!", primary_model init)
  /\ gemini_calls (events r.2) = 2%nat.
Proof.
  destruct (success_after_retries env_invalid_key_once init "hello" None 3
              new_world 1 "**Reply 1:** Sure!") as (Hr & _ & _ & _ & Hg & _).
  - reflexivity.
  - exact new_world_log_in_past.
  - simpl. lia.
  - vm_compute. discriminate.
  - intros a Ha. replace a with 0 by lia. eexists. reflexivity.
  - reflexivity.
  - reflexivity.
  - split; [exact Hr | exact Hg].
Defined.

(** X11: with [max_retries] at zero or below the loop has no attempt: the
    primary provider is never called and nobody sleeps after the rate gate.
    Without a fallback model the request ends with the aggregated error, which
    then says "Unknown error", and the cache is as it was. *)
Theorem no_attempt_without_retries (env : Providers) (self : GeminiAgentSystem)
    (prompt : string) (image : option Image) (num_suggestions : Z) (w : World) :
  Py.truthy_opt (check_cache (clock w) (session w)
                   (request_key self prompt num_suggestions)) = false ->
  log_in_past w ->
  max_retries self <= 0 ->
  Py.truthy_opt (ollama_model self) = false ->
  let r := generate_with_retry env self prompt image num_suggestions w in
  r.1 = Raise (error_details None)
  /\ Py.contains "Unknown error" (error_details None) = true
  /\ r.2 = after_gate w
  /\ gemini_calls (events r.2) = gemini_calls (events w)
  /\ request_cache (session r.2) = request_cache (session w).
Proof.
  intros Hmiss Hpast Hn Hfb r. subst r.
  unfold generate_with_retry. rewrite run_reading.
  fold (request_key self prompt num_suggestions). rewrite Hmiss.
  unfold generate_uncached. rewrite run_gate by exact Hpast. cbv beta zeta.
  assert (Hrange : Py.range (max_retries self) = []).
  { unfold Py.range. replace (Z.to_nat (max_retries self)) with 0%nat by lia.
    reflexivity. }
  rewrite Hrange. simpl retry_loop. rewrite run_ret.
  unfold after_loop, bind. rewrite try_ollama_unset by exact Hfb.
  destruct (after_gate_facts w) as (Hc & _ & _ & _ & Hg & _).
  cbn [fst snd]. split; [reflexivity |]. split; [reflexivity |].
  split; [reflexivity |]. split; assumption.
Qed.

Lemma no_attempt_without_retries_witness :
  let self := {| primary_model := "gemini-2.0-flash-exp"; max_retries := 0;
                 base_delay := 3; use_ollama_fallback := false;
                 ollama_model := None |} in
  (generate_with_retry env_ok self "hello" None 3 new_world).1
  = Raise (error_details None).
Proof.
  intros self.
  destruct (no_attempt_without_retries env_ok self "hello" None 3 new_world)
    as (Hr & _).
  - reflexivity.
  - exact new_world_log_in_past.
  - vm_compute. discriminate.
  - reflexivity.
  - exact Hr.
Defined.

(** ** The rate gate when the clock has gone back *)

Lemma timedelta_seconds_future (d : Z) :
  61 * 1000000 - 86400 * 1000000 <= d < 0 ->
  61 <= Py.timedelta_seconds d.
Proof.
  intros H. unfold Py.timedelta_seconds, Py.usec_per_second.
  replace (d mod (86400 * 1000000)) with (d + 86400 * 1000000).
  - apply Z.div_le_lower_bound; lia.
  - apply (Z.mod_unique _ _ (-1)); lia.
Qed.

(** X12: [datetime.now()] is a local time and can go back (a clock
    adjustment, the end of daylight saving time). If the log then holds 50
    entries or more and the first of them lies in the future, by up to a day
    less 61 seconds, the wait that [rate_limit_check] computes is negative,
    [time.sleep] raises and the request fails before any call of a provider:
    only the log has been pruned. *)
Theorem future_timestamp_breaks_the_gate (env : Providers)
    (self : GeminiAgentSystem) (prompt : string) (image : option Image)
    (num_suggestions : Z) (w : World) (first : Z) :
  Py.truthy_opt (check_cache (clock w) (session w)
                   (request_key self prompt num_suggestions)) = false ->
  (50 <= length (last_minute (clock w) (request_history (session w))))%nat ->
  head (last_minute (clock w) (request_history (session w))) = Some first ->
  0 < first - clock w <= (86400 - 61) * 1000000 ->
  let r := generate_with_retry env self prompt image num_suggestions w in
  (exists wait_time,
     (rate_limit_check (clock w) (session w)).2 = (false, wait_time)
     /\ wait_time < 0)
  /\ r.1 = Raise "sleep length must be non-negative"
  /\ events r.2 = events w
  /\ request_cache (session r.2) = request_cache (session w)
  /\ request_history (session r.2)
     = last_minute (clock w) (request_history (session w)).
Proof.
  intros Hmiss Hlen Hhead Hfuture r.
  destruct (rate_limit_check_denies (clock w) (session w) Hlen)
    as (first' & Hhead' & Hres).
  rewrite Hhead in Hhead'. injection Hhead' as <-.
  pose proof (timedelta_seconds_future (clock w - first)) as Hneg.
  assert (Hwait : 60 - Py.timedelta_seconds (clock w - first) < 0) by lia.
  split; [eauto |].
  assert (Hr : r = (Raise "sleep length must be non-negative",
                    {| session := (rate_limit_check (clock w) (session w)).1;
                       clock := clock w; events := events w |})).
  { subst r. unfold generate_with_retry. rewrite run_reading.
    fold (request_key self prompt num_suggestions). rewrite Hmiss.
    unfold generate_uncached. rewrite run_changing, Hres. cbv beta iota.
    simpl negb. cbv iota. unfold sleep.
    rewrite bool_decide_eq_true_2 by exact Hwait.
    reflexivity. }
  rewrite Hr. simpl.
  split; [reflexivity |]. split; [reflexivity |].
  split; [apply rate_limit_check_cache | apply rate_limit_check_history].
Qed.

Lemma future_timestamp_breaks_the_gate_witness :
  let w := {| session := foldl (fun s t => log_request t s)
                           (fresh_session "AIza-key")
                           (replicate 50 1700003599000000);
              clock := 1700000000000000; events := [] |} in
  (generate_with_retry env_ok init "hello" None 3 w).1
  = Raise "sleep length must be non-negative".
Proof.
  intros w.
  destruct (future_timestamp_breaks_the_gate env_ok init "hello" None 3 w
              1700003599000000) as (_ & Hr & _).
  - reflexivity.
  - vm_compute. lia.
  - reflexivity.
  - simpl. lia.
  - exact Hr.
Defined.

(** ** The rate tracker over time *)

Lemma last_minute_later (now later : Z) (history : list Z) :
  now <= later ->
  last_minute later (last_minute now history) = last_minute later history.
Proof.
  intros Hle. unfold last_minute.
  induction history as [|t l IH]; [reflexivity |].
  rewrite !(filter_cons _ t). destruct (decide (now - t < _)) as [Hn | Hn].
  - rewrite filter_cons. destruct (decide (later - t < _)); now rewrite IH.
  - rewrite IH. destruct (decide (later - t < _)); [lia | reflexivity].
Qed.

Lemma last_minute_shrinks (now later : Z) (history : list Z) :
  now <= later ->
  (length (last_minute later history) <= length (last_minute now history))%nat.
Proof.
  intros Hle. rewrite <- (last_minute_later now later history Hle).
  apply length_filter.
Qed.

Lemma rate_limit_check_of_history (now : Z) (st st' : SessionState) :
  request_cache st' = request_cache st ->
  request_history st' = request_history st ->
  retry_count st' = retry_count st ->
  api_key st' = api_key st ->
  rate_limit_check now st' = rate_limit_check now st.
Proof.
  intros Hc Hh Hr Hk. unfold rate_limit_check. now rewrite Hc, Hh, Hr, Hk.
Qed.

Lemma rate_limit_check_fields (now : Z) (st : SessionState) :
  retry_count (rate_limit_check now st).1 = retry_count st.
Proof.
  unfold rate_limit_check. case_bool_decide; [| reflexivity].
  destruct (last_minute now (request_history st)); reflexivity.
Qed.

(** X13: pruning loses nothing a later check needs. A check at [later]
    gives the same answer and leaves the same session whether or not the log
    was pruned by a check at an earlier time [now]; in particular a second
    check at the same time changes nothing. *)
Theorem pruning_is_safe (now later : Z) (st : SessionState) :
  now <= later ->
  rate_limit_check later (rate_limit_check now st).1 = rate_limit_check later st
  /\ rate_limit_check now (rate_limit_check now st).1 = rate_limit_check now st
  /\ (rate_limit_check now (rate_limit_check now st).1).1
     = (rate_limit_check now st).1.
Proof.
  intros Hle.
  assert (Hgen : forall t, now <= t ->
            rate_limit_check t (rate_limit_check now st).1 = rate_limit_check t st).
  { intros t Ht. unfold rate_limit_check at 1 3.
    rewrite rate_limit_check_history, rate_limit_check_cache,
      rate_limit_check_fields, rate_limit_check_api_key.
    now rewrite (last_minute_later now t _ Ht). }
  split; [now apply Hgen |]. split; [apply Hgen; lia |].
  rewrite Hgen by lia.
  unfold rate_limit_check at 1.
  assert (Hsame : last_minute now (request_history st)
                  = request_history (rate_limit_check now st).1)
    by (symmetry; apply rate_limit_check_history).
  destruct (rate_limit_check now st) as [st' res] eqn:E. simpl in *.
  unfold rate_limit_check in E.
  case_bool_decide; [destruct (last_minute now (request_history st)) |];
    injection E as <- <-; reflexivity.
Qed.

Lemma pruning_is_safe_witness :
  let st := foldl (fun s t => log_request t s) (fresh_session "AIza-key")
              [1000000; 30000000; 70000000] in
  rate_limit_check 95000000 (rate_limit_check 65000000 st).1
  = rate_limit_check 95000000 st.
Proof.
  intros st. apply (pruning_is_safe 65000000 95000000 st). lia.
Defined.

(** X14: the metric of the sidebar counts what the limiter counts: at the
    same instant [rate_limit_check] admits exactly when the metric is below
    50. The count never grows while no request is logged, so when the sidebar
    does not warn (40 requests or fewer in the last minute), every check at
    that time or later admits without a wait. *)
Theorem quota_health_predicts_admission (now later : Z) (st : SessionState) :
  recent_requests now st
  = Z.of_nat (length (request_history (rate_limit_check now st).1))
  /\ ((rate_limit_check now st).2 = (true, 0) <-> recent_requests now st < 50)
  /\ (now <= later -> recent_requests later st <= recent_requests now st)
  /\ (now <= later -> quota_health now st <> approaching_limit ->
      (rate_limit_check later st).2 = (true, 0)).
Proof.
  assert (Hmetric : forall t, recent_requests t st
                              = Z.of_nat (length (last_minute t (request_history st))))
    by reflexivity.
  split; [now rewrite rate_limit_check_history |].
  split; [| split].
  - rewrite Hmetric. split.
    + intros Hres.
      destruct (le_lt_dec 50 (length (last_minute now (request_history st))))
        as [Hlen | Hlen]; [| lia].
      destruct (rate_limit_check_denies now st Hlen) as (first & _ & Hdeny).
      rewrite Hdeny in Hres. discriminate.
    + intros Hlt. apply rate_limit_check_admits. lia.
  - intros Hle. rewrite !Hmetric.
    pose proof (last_minute_shrinks now later (request_history st) Hle). lia.
  - intros Hle Hhealth. apply rate_limit_check_admits.
    pose proof (last_minute_shrinks now later (request_history st) Hle) as Hs.
    unfold quota_health in Hhealth. rewrite Hmetric in Hhealth.
    case_bool_decide; [congruence | lia].
Qed.

Lemma quota_health_predicts_admission_witness :
  let st := foldl (fun s t => log_request t s) (fresh_session "AIza-key")
              (replicate 35 1000000) in
  quota_health 2000000 st = moderate_usage
  /\ (rate_limit_check 3000000 st).2 = (true, 0).
Proof.
  intros st. split; [reflexivity |].
  apply (quota_health_predicts_admission 2000000 3000000 st); [lia |].
  discriminate.
Defined.

(** X15: under a clock that has not gone back, a denial comes with a wait
    of 1 to 60 whole seconds, and the wait is long enough: when the sleep
    ends, the first entry kept (the oldest of a chronological log) is at
    least 60 seconds old, so the next check prunes it. *)
Theorem denied_wait_expires_oldest (now : Z) (st : SessionState) (wait_time : Z) :
  Forall (fun t => t <= now) (request_history st) ->
  (rate_limit_check now st).2 = (false, wait_time) ->
  1 <= wait_time <= 60
  /\ exists first,
       head (request_history (rate_limit_check now st).1) = Some first
       /\ Py.timedelta_minutes 1 <= now + wait_time * Py.usec_per_second - first
       /\ first ∉ last_minute (now + wait_time * Py.usec_per_second)
                    (request_history (rate_limit_check now st).1).
Proof.
  intros Hpast Hdeny.
  pose proof (rate_limit_wait_positive now st wait_time Hpast Hdeny) as Hw.
  split; [lia |].
  destruct (le_lt_dec 50 (length (last_minute now (request_history st))))
    as [Hlen | Hlen];
    [| rewrite rate_limit_check_admits in Hdeny by exact Hlen; discriminate].
  destruct (rate_limit_check_denies now st Hlen) as (first & Hhead & Hres).
  rewrite Hres in Hdeny. injection Hdeny as <-.
  exists first. rewrite rate_limit_check_history. split; [exact Hhead |].
  assert (Hin : first ∈ last_minute now (request_history st)).
  { destruct (last_minute now (request_history st)); [discriminate |].
    injection Hhead as ->. apply list_elem_of_here. }
  apply last_minute_elem in Hin. destruct Hin as [Hin Hrecent].
  rewrite List.Forall_forall in Hpast.
  apply list_elem_of_In in Hin. apply Hpast in Hin.
  destruct (timedelta_seconds_recent (now - first)) as [Heq Hb]; [lia |].
  assert (Hage : Py.timedelta_minutes 1
                 <= now + (60 - Py.timedelta_seconds (now - first))
                          * Py.usec_per_second - first).
  { rewrite Heq. unfold Py.timedelta_minutes, Py.usec_per_second.
    pose proof (Z.mul_div_le (now - first) 1000000). lia. }
  split; [exact Hage |].
  intros Hmem. apply last_minute_elem in Hmem. lia.
Qed.

Lemma denied_wait_expires_oldest_witness :
  let st := foldl (fun s t => log_request t s) (fresh_session "AIza-key")
              (replicate 50 95000000) in
  (rate_limit_check 100000000 st).2 = (false, 55) /\ 1 <= 55 <= 60.
Proof.
  intros st. split; [reflexivity |].
  apply (denied_wait_expires_oldest 100000000 st 55).
  - subst st. rewrite log_requests_history.
    apply (Forall_replicate (fun t => t <= 100000000) 50 95000000). lia.
  - reflexivity.
Defined.

(** ** The cache as a dictionary *)

Lemma check_cache_of_entry (now : Z) (st : SessionState) (k : string) :
  check_cache now st k
  = match request_cache st !! k with
    | Some e => if bool_decide (now - timestamp e < Py.timedelta_hours 1)
                then Some (response e) else None
    | None => None
    end.
Proof. reflexivity. Qed.

(** X16: a store under a key replaces what was stored under it (the last
    write wins and restarts the hour), leaves the lookups of every other key
    and the request log as they were; a key that was never stored is absent;
    and an entry stamped later than the clock (the clock has gone back) is
    served as fresh. *)
Theorem cache_is_last_write_wins (now t1 t2 : Z) (st : SessionState)
    (k k' r1 r2 : string) :
  check_cache now (save_to_cache t2 (save_to_cache t1 st k r1) k r2) k
  = check_cache now (save_to_cache t2 st k r2) k
  /\ save_to_cache t2 (save_to_cache t1 st k r1) k r2 = save_to_cache t2 st k r2
  /\ (k' <> k ->
      check_cache now (save_to_cache t1 st k r1) k' = check_cache now st k')
  /\ request_history (save_to_cache t1 st k r1) = request_history st
  /\ (request_cache st !! k = None -> check_cache now st k = None)
  /\ (now <= t1 -> check_cache now (save_to_cache t1 st k r1) k = Some r1).
Proof.
  assert (Heq : save_to_cache t2 (save_to_cache t1 st k r1) k r2
                = save_to_cache t2 st k r2).
  { unfold save_to_cache. simpl. now rewrite insert_insert_eq. }
  split; [now rewrite Heq |]. split; [exact Heq |].
  split; [| split; [reflexivity | split]].
  - intros Hne. rewrite !check_cache_of_entry. simpl.
    now rewrite lookup_insert_ne by congruence.
  - intros Hnone. rewrite check_cache_of_entry. now rewrite Hnone.
  - intros Hle. rewrite check_cache_of_entry. simpl.
    rewrite lookup_insert_eq. simpl.
    rewrite bool_decide_eq_true_2; [reflexivity |].
    unfold Py.timedelta_hours, Py.usec_per_second. lia.
Qed.

Lemma cache_is_last_write_wins_witness :
  check_cache 5 (save_to_cache 7200000000 (fresh_session "AIza-key") "k" "late") "k"
  = Some "late"
  /\ check_cache 5 (save_to_cache 7200000000 (fresh_session "AIza-key") "k" "late")
       "other"
     = check_cache 5 (fresh_session "AIza-key") "other".
Proof.
  destruct (cache_is_last_write_wins 5 7200000000 0 (fresh_session "AIza-key")
              "k" "other" "late" "x") as (_ & _ & Hother & _ & _ & Hlate).
  split.
  - apply Hlate. lia.
  - apply Hother. discriminate.
Defined.

(** ** The backoff delays *)

Lemma pow2_le (a b : Z) : 0 <= a <= b -> 2 ^ a <= 2 ^ b.
Proof. intros H. apply Z.pow_le_mono_r; lia. Qed.

(** X17: for a base delay that is not negative the delays never decrease
    from one attempt to the next and stay between 0 and 60 seconds; with a
    base delay of at least 1 second every attempt from the seventh on waits
    the full 60 seconds. *)
Theorem backoff_is_monotone_and_capped (self : GeminiAgentSystem) (a b : Z) :
  0 <= base_delay self ->
  0 <= a <= b ->
  exponential_backoff self a <= exponential_backoff self b
  /\ 0 <= exponential_backoff self a <= 60
  /\ (1 <= base_delay self -> 6 <= a -> exponential_backoff self a = 60).
Proof.
  intros Hbase Hab. unfold exponential_backoff.
  pose proof (pow2_le a b Hab) as Hpow.
  assert (Hpos : 0 < 2 ^ a) by (apply Z.pow_pos_nonneg; lia).
  split; [| split].
  - apply Z.min_le_compat_r. now apply Z.mul_le_mono_nonneg_l.
  - split; [apply Z.min_glb; nia | apply Z.le_min_r].
  - intros Hb Ha. apply Z.min_r.
    pose proof (pow2_le 6 a ltac:(lia)) as H6.
    change (2 ^ 6) with 64 in H6. nia.
Qed.

Lemma backoff_is_monotone_and_capped_witness :
  exponential_backoff init 1 <= exponential_backoff init 2
  /\ 0 <= exponential_backoff init 1 <= 60.
Proof.
  destruct (backoff_is_monotone_and_capped init 1 2) as (H1 & H2 & _).
  - vm_compute. discriminate.
  - lia.
  - split; assumption.
Defined.

(** ** The length of the optimized prompt *)

Lemma replace_from_length_bounded (a : ascii) (old' new : string) (n : nat)
    (s : string) :
  (String.length new <= String.length (String a old'))%nat ->
  (String.length s <= n)%nat ->
  (String.length (Py.replace_from (String a old') new 0 s) <= String.length s)%nat.
Proof.
  intros Hnew. revert s. induction n as [|n IH]; intros s Hlen.
  - destruct s; [reflexivity | simpl in Hlen; lia].
  - destruct s as [|c s]; [reflexivity |].
    destruct (Py.startswith (String a old') (String c s)) eqn:Hm.
    + apply startswith_spec in Hm. destruct Hm as [t Ht].
      rewrite Ht, replace_from_match, !length_append.
      assert (Hl : String.length (String c s)
                   = (String.length (String a old') + String.length t)%nat)
        by (rewrite Ht; apply length_append).
      assert (Ht' : (String.length t <= n)%nat) by (simpl in Hlen, Hl; lia).
      specialize (IH t Ht'). lia.
    + rewrite replace_from_no_match by exact Hm.
      assert (Hs : (String.length s <= n)%nat) by (simpl in Hlen; lia).
      specialize (IH s Hs). simpl. lia.
Qed.

Lemma replace_from_length_shorter (a : ascii) (old' new : string) (s : string) :
  (String.length new < String.length (String a old'))%nat ->
  Py.contains (String a old') s = true ->
  (String.length (Py.replace_from (String a old') new 0 s) < String.length s)%nat.
Proof.
  intros Hnew. induction s as [|c s IH]; intros Hin; [discriminate |].
  destruct (Py.startswith (String a old') (String c s)) eqn:Hm.
  - apply startswith_spec in Hm. destruct Hm as [t Ht].
    rewrite Ht, replace_from_match, !length_append.
    pose proof (replace_from_length_bounded a old' new (String.length t) t
                  ltac:(lia) ltac:(lia)).
    lia.
  - rewrite replace_from_no_match by exact Hm.
    change (Py.startswith (String a old') (String c s)
            || Py.contains (String a old') s = true) in Hin.
    rewrite Hm in Hin. simpl in Hin.
    specialize (IH Hin). simpl. lia.
Qed.

(** X18: the optimizer never makes a prompt longer, for any count; with a
    count above 3 a prompt that holds the verbose instruction comes out
    strictly shorter. *)
Theorem optimize_prompt_never_lengthens (prompt : string) (n : Z) :
  (String.length (optimize_prompt prompt n) <= String.length prompt)%nat
  /\ (n > 3 -> Py.contains verbose_instruction prompt = true ->
      (String.length (optimize_prompt prompt n) < String.length prompt)%nat).
Proof.
  split.
  - unfold optimize_prompt. case_bool_decide; [| lia].
    apply (replace_from_length_bounded "A" _ _ (String.length prompt));
      [vm_compute; lia | lia].
  - intros Hn Hin. rewrite optimize_prompt_many by exact Hn.
    apply replace_from_length_shorter; [vm_compute; lia | exact Hin].
Qed.

Lemma optimize_prompt_never_lengthens_witness :
  (String.length
     (optimize_prompt
        "5. Add a brief explanation (1 line) after each suggestion about why it works" 4)
   < String.length
       "5. Add a brief explanation (1 line) after each suggestion about why it works")%nat.
Proof.
  apply (optimize_prompt_never_lengthens
           "5. Add a brief explanation (1 line) after each suggestion about why it works" 4);
    [lia | reflexivity].
Defined.

(** ** The fallback flag *)

Lemma bind_pointwise {A B : Type} (m m' : M A) (f f' : A -> M B) (w : World) :
  (forall w0, m w0 = m' w0) ->
  (forall a w0, f a w0 = f' a w0) ->
  bind m f w = bind m' f' w.
Proof.
  intros Hm Hf. unfold bind. rewrite Hm.
  destruct (m' w) as [[a | msg] w']; [apply Hf | reflexivity].
Qed.

Lemma retry_loop_ignores_flag (env : Providers) (self : GeminiAgentSystem)
    (key p : string) (image : option Image) (attempts : list Z)
    (last_error : option string) (w : World) :
  retry_loop env (fallback_to_next_model self).1 key p image attempts last_error w
  = retry_loop env self key p image attempts last_error w.
Proof.
  revert last_error w.
  induction attempts as [|attempt rest IH]; intros last_error w; [reflexivity |].
  cbn [retry_loop]. unfold bind.
  change (attempt_once env (fallback_to_next_model self).1 key p image attempt)
    with (attempt_once env self key p image attempt).
  destruct (attempt_once env self key p image attempt w) as [[signal | msg] w'];
    [| reflexivity].
  destruct signal; [apply IH | reflexivity | reflexivity].
Qed.

(** X19: [fallback_to_next_model] answers "Ollama" and raises a flag that
    nothing reads: it leaves the fallback model as it is, and a request made
    with the agent it returns does exactly what the request made with the
    agent before the call does. Only [ollama_model] decides whether the local
    server is asked. *)
Theorem fallback_flag_changes_nothing (env : Providers) (self : GeminiAgentSystem)
    (prompt : string) (image : option Image) (num_suggestions : Z) (w : World) :
  (fallback_to_next_model self).2 = "Ollama"
  /\ use_ollama_fallback (fallback_to_next_model self).1 = true
  /\ ollama_model (fallback_to_next_model self).1 = ollama_model self
  /\ generate_with_retry env (fallback_to_next_model self).1 prompt image
       num_suggestions w
     = generate_with_retry env self prompt image num_suggestions w.
Proof.
  split; [reflexivity |]. split; [reflexivity |]. split; [reflexivity |].
  unfold generate_with_retry.
  apply bind_pointwise; [reflexivity |]. intros cached w1.
  destruct (Py.truthy_opt cached); [reflexivity |].
  unfold generate_uncached.
  apply bind_pointwise; [reflexivity |]. intros [can_proceed wait_time] w2.
  apply bind_pointwise; [reflexivity |]. intros _ w3.
  apply bind_pointwise; [| reflexivity].
  intros w4. apply retry_loop_ignores_flag.
Qed.

(** ** Without a fallback model *)

Lemma ollama_calls_prefix (l1 l2 : list Event) :
  l1 `prefix_of` l2 -> (ollama_calls l1 <= ollama_calls l2)%nat.
Proof. intros [k ->]. rewrite ollama_calls_app. lia. Qed.

Lemma generate_with_retry_unset_adds_no_ollama_call (env : Providers)
    (self : GeminiAgentSystem) (prompt : string) (image : option Image)
    (num_suggestions : Z) :
  Py.truthy_opt (ollama_model self) = false ->
  adds ollama_calls 0 (generate_with_retry env self prompt image num_suggestions).
Proof.
  intros Hunset. pose proof ollama_calls_app as Ho.
  unfold generate_with_retry.
  apply adds_bind_0; [apply adds_reading | intros cached].
  destruct (Py.truthy_opt cached); [adds_nothing |].
  unfold generate_uncached.
  apply adds_bind_0; [apply adds_changing | intros [can wait_time]].
  apply adds_bind_0; [destruct (negb can); adds_nothing | intros _; cbv zeta].
  apply adds_bind_0; [apply retry_loop_adds_no_ollama_call | intros loop_end].
  intros w. unfold after_loop.
  destruct loop_end as [result | last_error]; [simpl; lia |].
  unfold bind. rewrite try_ollama_unset by exact Hunset. simpl. lia.
Qed.

Lemma generate_with_retry_unset_ollama_calls (env : Providers)
    (self : GeminiAgentSystem) (prompt : string) (image : option Image)
    (num_suggestions : Z) (w : World) :
  Py.truthy_opt (ollama_model self) = false ->
  ollama_calls (events (generate_with_retry env self prompt image num_suggestions w).2)
  = ollama_calls (events w).
Proof.
  intros H. apply Nat.le_antisymm.
  - pose proof (generate_with_retry_unset_adds_no_ollama_call env self prompt image
                  num_suggestions H w).
    lia.
  - apply ollama_calls_prefix, generate_with_retry_grows.
Qed.

(** X20: an agent whose fallback model is [None] or the empty string never
    contacts the local server: on every path of a request, whatever the
    primary provider answers, the trace gains no request to it. *)
Theorem no_fallback_model_no_local_call (env : Providers) (self : GeminiAgentSystem)
    (prompt : string) (image : option Image) (num_suggestions : Z) (w : World) :
  Py.truthy_opt (ollama_model self) = false ->
  ollama_calls (events (generate_with_retry env self prompt image num_suggestions w).2)
  = ollama_calls (events w).
Proof. apply generate_with_retry_unset_ollama_calls. Qed.

Lemma no_fallback_model_no_local_call_witness :
  ollama_calls (events (generate_with_retry env_quota init "hello" None 3 new_world).2)
  = ollama_calls (events new_world).
Proof.
  exact (no_fallback_model_no_local_call env_quota init "hello" None 3 new_world
           eq_refl).
Defined.

(** ** The availability check and the sidebar *)

Lemma model_names_spec (models : list (option string)) (names : list string) :
  model_names models = Some names <-> models = map Some names.
Proof.
  revert names. induction models as [|[name |] rest IH]; intros names; simpl.
  - split; [intros [= <-]; reflexivity | destruct names; [reflexivity | discriminate]].
  - destruct (model_names rest) as [ns |] eqn:E.
    + split.
      * intros [= <-]. simpl. f_equal. now apply IH.
      * destruct names as [|n ns']; [discriminate |]. simpl.
        intros [= -> Hrest]. apply IH in Hrest. congruence.
    + split; [discriminate |].
      destruct names as [|n ns']; [discriminate |]. simpl.
      intros [= -> Hrest]. apply IH in Hrest. discriminate.
  - split; [discriminate | destruct names; discriminate].
Qed.

Lemma check_ollama_available (reply : GetReply) (names : list string) :
  check_ollama reply = (true, names)
  <-> reply = get_response 200 (tags_models (map Some names)).
Proof.
  split.
  - destruct reply as [| status_code body]; [discriminate |]. unfold check_ollama.
    case_bool_decide as Hs; [| discriminate]. subst status_code.
    destruct body as [| models]; [discriminate |].
    destruct (model_names models) as [ns |] eqn:E; [| discriminate].
    intros [= <-]. apply model_names_spec in E. now rewrite E.
  - intros ->. unfold check_ollama.
    rewrite bool_decide_eq_true_2 by reflexivity.
    now rewrite (proj2 (model_names_spec (map Some names) names) eq_refl).
Qed.

Lemma check_ollama_unavailable (reply : GetReply) :
  (check_ollama reply).1 = false -> (check_ollama reply).2 = [].
Proof.
  destruct reply as [| status_code body]; [reflexivity |]. unfold check_ollama.
  case_bool_decide; [| reflexivity].
  destruct body as [| models]; [reflexivity |].
  destruct (model_names models); [discriminate | reflexivity].
Qed.

(** X21: [check_ollama] reports the server as available, with a list of
    names, exactly when the answer has status 200 and a body whose entries
    all carry a name: the list is then these names, in order, and may be
    empty. In every other case (no answer, another status, a body that is
    not as expected, one entry without a name) it reports [(False, [])]:
    never a part of the list. *)
Theorem check_ollama_spec (reply : GetReply) :
  (forall names, check_ollama reply = (true, names)
                 <-> reply = get_response 200 (tags_models (map Some names)))
  /\ ((check_ollama reply).1 = false -> (check_ollama reply).2 = []).
Proof.
  split; [intros names; apply check_ollama_available | apply check_ollama_unavailable].
Qed.

Lemma check_ollama_spec_witness :
  (check_ollama (get_response 200 (tags_models [Some "llava"; None]))).2 = [].
Proof.
  apply (proj2 (check_ollama_spec
                  (get_response 200 (tags_models [Some "llava"; None])))).
  reflexivity.
Defined.

Lemma configure_fallback_model (self : GeminiAgentSystem) (reply : GetReply)
    (selectbox : list string -> string) :
  ollama_model (configure_fallback self reply selectbox)
  = if bool_decide ((check_ollama reply).2 = []) then None
    else Some (selectbox (check_ollama reply).2).
Proof.
  unfold configure_fallback.
  pose proof (check_ollama_unavailable reply) as Hun.
  destruct (check_ollama reply) as [available models]. simpl in *.
  destruct available; simpl.
  - case_bool_decide; reflexivity.
  - rewrite Hun by reflexivity. reflexivity.
Qed.

(** X22: after the sidebar has run, the fallback model of the agent is a
    name that the local server listed (given that the select box returns one
    of its options), or [None]; it is [None] exactly when [check_ollama]
    returned no name, the other settings of the agent are untouched, and
    the requests made with an agent so configured after a check that found
    nothing never contact the local server. *)
Theorem fallback_model_comes_from_the_server (self : GeminiAgentSystem)
    (reply : GetReply) (selectbox : list string -> string) :
  (forall options, options <> [] -> selectbox options ∈ options) ->
  (forall model,
     ollama_model (configure_fallback self reply selectbox) = Some model ->
     exists names,
       reply = get_response 200 (tags_models (map Some names)) /\ model ∈ names)
  /\ (ollama_model (configure_fallback self reply selectbox) = None
      <-> (check_ollama reply).2 = [])
  /\ primary_model (configure_fallback self reply selectbox) = primary_model self
  /\ max_retries (configure_fallback self reply selectbox) = max_retries self
  /\ base_delay (configure_fallback self reply selectbox) = base_delay self
  /\ ((check_ollama reply).2 = [] ->
      forall env prompt image num_suggestions w,
        ollama_calls
          (events (generate_with_retry env (configure_fallback self reply selectbox)
                     prompt image num_suggestions w).2)
        = ollama_calls (events w)).
Proof.
  intros Hbox. pose proof (configure_fallback_model self reply selectbox) as Hm.
  split; [| split; [| split; [| split; [| split]]]].
  - intros model Hmodel. rewrite Hm in Hmodel.
    case_bool_decide as Hnames; [discriminate |]. injection Hmodel as <-.
    pose proof (check_ollama_unavailable reply) as Hun.
    destruct (check_ollama reply) as [available names] eqn:E. simpl in *.
    destruct available; [| now specialize (Hun eq_refl)].
    exists names. split; [now apply check_ollama_available | now apply Hbox].
  - rewrite Hm. case_bool_decide; split; intros H0; try done.
  - unfold configure_fallback. now destruct (check_ollama reply).
  - unfold configure_fallback. now destruct (check_ollama reply).
  - unfold configure_fallback. now destruct (check_ollama reply).
  - intros Hnone env prompt image num_suggestions w.
    apply generate_with_retry_unset_ollama_calls.
    rewrite Hm. now rewrite bool_decide_eq_true_2 by exact Hnone.
Qed.

Lemma fallback_model_comes_from_the_server_witness :
  exists names,
    get_response 200 (tags_models [Some "llava"; Some "mistral"])
    = get_response 200 (tags_models (map Some names))
    /\ "llava" ∈ names.
Proof.
  destruct (fallback_model_comes_from_the_server init
              (get_response 200 (tags_models [Some "llava"; Some "mistral"]))
              (fun options => default EmptyString (head options)))
    as (Hlisted & _).
  - intros [| option options] Hoptions; [contradiction | simpl; left].
  - apply (Hlisted "llava"). reflexivity.
Defined.

(** ** The button that clears the cache *)

(** X23: a click on "Clear Cache" shows its notice and leaves a session in
    which every lookup misses, the metric reads 0 and the rate check admits;
    the API key stays. With at least one attempt allowed, the next request,
    whatever it is and even if its response was cached before the click,
    goes to the primary provider without a sleep at the gate. *)
Theorem clear_cache_starts_over (env : Providers) (self : GeminiAgentSystem)
    (prompt : string) (image : option Image) (num_suggestions : Z) (w : World) :
  0 < max_retries self ->
  let w0 := (clear_cache_button w).2 in
  (clear_cache_button w).1 = Ok tt
  /\ events w0 = (events w ++ [st_success "Cache cleared!"])%list
  /\ api_key (session w0) = api_key (session w)
  /\ (forall now key, check_cache now (session w0) key = None)
  /\ (forall now, recent_requests now (session w0) = 0
                  /\ (rate_limit_check now (session w0)).2 = (true, 0))
  /\ (events w0 ++ attempt_events self (optimize_prompt prompt num_suggestions)
                     image w0)%list
       `prefix_of`
       events (generate_with_retry env self prompt image num_suggestions w0).2.
Proof.
  intros Hn w0.
  assert (Hw0 : w0 = {| session := clear_cache (session w); clock := clock w;
                        events := events w ++ [st_success "Cache cleared!"] |})
    by reflexivity.
  clearbody w0. subst w0.
  split; [reflexivity |]. split; [reflexivity |]. split; [reflexivity |].
  split; [| split].
  - intros now key. unfold check_cache. simpl. now rewrite lookup_empty.
  - intros now. split; reflexivity.
  - set (w0 := {| session := clear_cache (session w); clock := clock w;
                  events := events w ++ [st_success "Cache cleared!"] |}).
    unfold generate_with_retry. rewrite run_reading.
    assert (Hmiss : check_cache (clock w0) (session w0)
                      (get_cache_key prompt (primary_model self) num_suggestions)
                    = None)
      by (unfold check_cache; simpl; now rewrite lookup_empty).
    rewrite Hmiss. simpl Py.truthy_opt. cbv iota.
    assert (Hpast : log_in_past w0) by (unfold log_in_past; simpl; constructor).
    exact (generate_uncached_calls env self _ prompt image num_suggestions w0
             Hpast Hn).
Qed.

Lemma clear_cache_starts_over_witness :
  check_cache 1700000001000000
    (session (clear_cache_button
                (generate_with_retry env_ok init "hello" None 3 new_world).2).2)
    (request_key init "hello" 3)
  = None.
Proof.
  destruct (clear_cache_starts_over env_ok init "hello" None 3
              (generate_with_retry env_ok init "hello" None 3 new_world).2)
    as (_ & _ & _ & Hmiss & _).
  - reflexivity.
  - exact (Hmiss 1700000001000000 (request_key init "hello" 3)).
Defined.

(** ** The prompt of the handler *)

Example build_prompt_text_only :
  MD5.hexdigest (build_prompt casual_friendly Medium 3 "" None "Them: Hey!")
  = "733378018f90edc434f6750d4e2eeb24".
Proof. vm_compute. reflexivity. Qed.

Example build_prompt_image_and_text :
  MD5.hexdigest
    (build_prompt cold_detached Long 5 "my boss" (Some {| image_data := "png" |}) "hi")
  = "8a48e41cfaa6d75482a180526a957929".
Proof. vm_compute. reflexivity. Qed.

Example build_prompt_image_only :
  MD5.hexdigest
    (build_prompt cold_detached Short 1 "x" (Some {| image_data := "png" |}) "")
  = "662dd77cc0a908a1d065fda5e10c9490".
Proof. vm_compute. reflexivity. Qed.

Lemma contains_skip (p t r : string) :
  clashes_everywhere p t = true -> Py.contains p (t ++ r) = Py.contains p r.
Proof.
  induction t as [|c t IH]; intros H; [reflexivity |].
  cbn [clashes_everywhere] in H. apply andb_true_iff in H. destruct H as [Hc Ht].
  change (Py.contains p (String c t ++ r))
    with (Py.startswith p (String c t ++ r) || Py.contains p (t ++ r)).
  rewrite (clash_startswith p (String c t) r Hc). now apply IH.
Qed.

Lemma startswith_barrier (p u r : string) (b : ascii) :
  Py.contains (String b EmptyString) p = false ->
  Py.startswith p (u ++ String b r) = Py.startswith p u.
Proof.
  revert u. induction p as [|a p IH]; intros u Hb; [reflexivity |].
  change (Ascii.eqb b a && true || Py.contains (String b EmptyString) p = false)
    in Hb.
  apply orb_false_iff in Hb. destruct Hb as [Hab Hp].
  rewrite andb_true_r in Hab.
  destruct u as [|c u].
  - change (Ascii.eqb a b && Py.startswith p r = false).
    now rewrite Ascii.eqb_sym, Hab.
  - change (Ascii.eqb a c && Py.startswith p (u ++ String b r)
            = Ascii.eqb a c && Py.startswith p u).
    now rewrite IH.
Qed.

(** A character that [p] does not hold separates the occurrences of [p]. *)
Lemma contains_barrier (p u r : string) (b : ascii) :
  Py.contains (String b EmptyString) p = false ->
  Py.contains p (u ++ (String b EmptyString ++ r))
  = Py.contains p u || Py.contains p (String b EmptyString ++ r).
Proof.
  intros Hb. change (String b EmptyString ++ r) with (String b r).
  induction u as [|c u IH].
  - change (EmptyString ++ String b r) with (String b r).
    destruct p as [|a p]; reflexivity.
  - change (Py.startswith p (String c u ++ String b r)
            || Py.contains p (u ++ String b r)
            = Py.startswith p (String c u) || Py.contains p u
              || Py.contains p (String b r)).
    rewrite startswith_barrier by exact Hb. rewrite IH. apply orb_assoc.
Qed.

Lemma str_of_int_clashes (n : Z) :
  clashes_everywhere verbose_instruction (Py.str_of_int n) = true.
Proof.
  assert (Hd : forall d, clashes_everywhere verbose_instruction
                           (NilEmpty.string_of_uint d) = true)
    by (induction d; simpl; auto).
  assert (Hz : forall d, clashes_everywhere verbose_instruction
                           (NilZero.string_of_uint d) = true)
    by (intros d; destruct d; try apply Hd; reflexivity).
  unfold Py.str_of_int, NilZero.string_of_int.
  destruct (Z.to_int n) as [d | d]; [apply Hz |].
  cbn [clashes_everywhere]. rewrite Hz. reflexivity.
Qed.

Lemma build_prompt_clean (mood : Mood) (reply_length : ReplyLength)
    (num_suggestions : Z) (additional_context : string)
    (uploaded_image : option Image) (conversation_text : string) :
  Py.contains verbose_instruction additional_context = false ->
  Py.contains verbose_instruction conversation_text = false ->
  Py.contains verbose_instruction
    (build_prompt mood reply_length num_suggestions additional_context
       uploaded_image conversation_text)
  = false.
Proof.
  intros Hctx Htext.
  assert (HM : clashes_everywhere verbose_instruction (mood_instructions mood) = true)
    by (destruct mood; vm_compute; reflexivity).
  assert (HL : clashes_everywhere verbose_instruction (length_guide reply_length)
               = true)
    by (destruct reply_length; vm_compute; reflexivity).
  pose proof (str_of_int_clashes num_suggestions) as HN.
  unfold build_prompt. cbv zeta.
  generalize dependent (mood_instructions mood). intros M HM.
  generalize dependent (length_guide reply_length). intros L HL.
  generalize dependent (Py.str_of_int num_suggestions). intros N HN.
  destruct uploaded_image as [img |];
    [destruct (Py.truthy conversation_text) |];
    destruct (Py.truthy additional_context);
    unfold nl; rewrite ?append_assoc;
    repeat first
      [ rewrite contains_skip by assumption
      | rewrite contains_skip by (vm_compute; reflexivity)
      | rewrite contains_barrier by (vm_compute; reflexivity);
        rewrite Hctx, orb_false_l ];
    first [exact Htext | vm_compute; reflexivity].
Qed.

(** X24: the prompt that the handler builds holds the verbose instruction
    only if the text typed by the user does. When neither the additional
    context nor the conversation text holds it, the prompt does not, and
    [optimize_prompt] returns the prompt as it is for every mood, length and
    count: the shortening for more than 3 suggestions has no effect on it. *)
Theorem app_prompt_is_not_optimized (mood : Mood) (reply_length : ReplyLength)
    (num_suggestions : Z) (additional_context : string)
    (uploaded_image : option Image) (conversation_text : string) :
  Py.contains verbose_instruction additional_context = false ->
  Py.contains verbose_instruction conversation_text = false ->
  Py.contains verbose_instruction
    (build_prompt mood reply_length num_suggestions additional_context
       uploaded_image conversation_text)
  = false
  /\ optimize_prompt
       (build_prompt mood reply_length num_suggestions additional_context
          uploaded_image conversation_text)
       num_suggestions
     = build_prompt mood reply_length num_suggestions additional_context
         uploaded_image conversation_text.
Proof.
  intros Hctx Htext.
  pose proof (build_prompt_clean mood reply_length num_suggestions
                additional_context uploaded_image conversation_text Hctx Htext)
    as Hclean.
  split; [exact Hclean |].
  unfold optimize_prompt. case_bool_decide; [| reflexivity].
  unfold Py.replace, verbose_instruction.
  apply replace_from_absent. exact Hclean.
Qed.

Lemma app_prompt_is_not_optimized_witness :
  optimize_prompt
    (build_prompt humorous_witty Long 5 "This is my boss" None "Them: Hey!") 5
  = build_prompt humorous_witty Long 5 "This is my boss" None "Them: Hey!".
Proof.
  apply (app_prompt_is_not_optimized humorous_witty Long 5 "This is my boss" None
           "Them: Hey!"); reflexivity.
Defined.

(** ** Two screenshots, one cache entry *)








